(** * ChatRoulette server ([app.py]): a shallow embedding and its properties

    The server keeps five process-wide containers ([waiting_users],
    [active_rooms], [user_rooms], [user_data], [room_messages]) and three
    SQLite tables ([user_bans], [user_reports], [report_log]); conversation
    logs are written to the directory [logs_report].  Every socket handler
    reads and mutates them and emits events to clients.

    The embedding threads one [State] record through a small state, event and
    exception monad [M].  Conventions:
    - Python dicts are [gmap string _], Python lists are [list _];
    - a Python [str] is the string of the bytes of its UTF-8 encoding, so a
      character is a byte that is not a continuation byte, together with the
      continuation bytes that follow it;
    - a [datetime] ([datetime.now()], a stored [ban_end]) is a whole number
      of seconds counted from [datetime.min], midnight of the first of
      January of year 1, in the server's local time; [clock] is what
      [datetime.now()] reads, and one handler invocation reads one clock
      value.  [datetime.max] is the last second of year 9999, and arithmetic
      that leaves the range of [datetime] or of [timedelta] raises
      [OverflowError] as in Python.  [time.time()] is read from the same
      clock: the source only subtracts such readings from one another.
      SQLite's [CURRENT_TIMESTAMP] is UTC: it reads [clock - utc_offset];
    - [ban_end] is stored as the text [isoformat()] gives, date and time
      joined by the letter T, while [CURRENT_TIMESTAMP] is a text with date
      and time joined by a space; SQLite compares the two as texts, which
      [text_before] embeds on the day numbers;
    - [request.sid], [request.remote_addr] and the token drawn by
      [secrets.token_hex] are explicit arguments of the handlers;
    - the score returned by [jaccard_similarity] is the exact rational
      quotient (the source rounds it to a float);
    - Socket.IO room membership ([join_room], [leave_room]), logging and the
      re-arming of [threading.Timer] are not modelled: a sweep is one
      execution of its body. *)

From Stdlib Require Import QArith Ascii.
From stdpp Require Import gmap strings list fin_maps sorting.

#[local] Set Warnings "-clear-no-such-hyp".

Local Open Scope Z_scope.

(** ** Records held in the containers *)

(** A value of [user_data]; the key 'room' of the source is written once
    with [None] and never read, it is left out.  An address that
    [request.remote_addr] does not provide is the empty string. *)
Record UserData := mkUserData {
  connected_at : Z;
  interests : list string;
  ip : string;
  chat_mode : option string
}.

(** A value of [active_rooms]. *)
Record Room := mkRoom {
  users : list string;
  created_at : Z;
  room_chat_mode : string
}.

(** An entry of a transcript in [room_messages]. *)
Record Msg := mkMsg {
  sender : string;
  message : string;
  timestamp : Z
}.

(** A row of table [user_bans] (the key [ip] is the key of the map). *)
Record BanRecord := mkBan {
  ban_end : Z;
  reason : string;
  ban_count : nat
}.

(** A row of table [user_reports]. *)
Record ReportRecord := mkReport {
  report_count : nat;
  last_reported : Z
}.

(** A row of table [report_log]; its AUTOINCREMENT id is its position in
    the list, counted from 1. *)
Record ReportLogEntry := mkLogEntry {
  log_reported_ip : string;
  log_reporter_ip : string;
  log_reason : string;
  log_comment : string;
  log_timestamp : Z
}.

(** A file written by [save_conversation_log]. *)
Record ConversationLog := mkConversationLog {
  file_report_id : nat;
  file_reported_ip : string;
  file_timestamp : Z;
  file_messages : list Msg
}.

(** ** Events sent to clients *)

(** The recipient of an emit: [room=sid], or every connected client. *)
Inductive Target :=
  | ToSid (s : string)
  | ToAll.

Inductive Payload :=
  | NoData
  | ErrorData (msg : string)
  | BannedData (duration : string) (expiry : option Z)
  | ForceDisconnectData (expiry : Z) (why : string)
  | MatchedData (room partner_name partner_id : string) (initiator : bool)
  | MessageData (text from : string)
  | StatsData (online waiting active_chats : nat).

Record Event := mkEvent {
  ev_name : string;
  ev_data : Payload;
  ev_room : Target
}.

Global Instance Target_eq_dec : EqDecision Target.
Proof. solve_decision. Defined.

(** ** The shared state *)

Record State := mkState {
  waiting_users : list string;
  active_rooms : gmap string Room;
  user_rooms : gmap string string;
  user_data : gmap string UserData;
  room_messages : gmap string (list Msg);
  user_bans : gmap string BanRecord;
  user_reports : gmap string ReportRecord;
  report_log : list ReportLogEntry;
  logs_report : list ConversationLog;
  clock : Z;
  utc_offset : Z
}.

Definition upd_waiting_users (f : list string → list string) (s : State) : State :=
  mkState (f (waiting_users s)) (active_rooms s) (user_rooms s) (user_data s)
    (room_messages s) (user_bans s) (user_reports s) (report_log s)
    (logs_report s) (clock s) (utc_offset s).

Definition upd_active_rooms (f : gmap string Room → gmap string Room) (s : State) : State :=
  mkState (waiting_users s) (f (active_rooms s)) (user_rooms s) (user_data s)
    (room_messages s) (user_bans s) (user_reports s) (report_log s)
    (logs_report s) (clock s) (utc_offset s).

Definition upd_user_rooms (f : gmap string string → gmap string string) (s : State) : State :=
  mkState (waiting_users s) (active_rooms s) (f (user_rooms s)) (user_data s)
    (room_messages s) (user_bans s) (user_reports s) (report_log s)
    (logs_report s) (clock s) (utc_offset s).

Definition upd_user_data (f : gmap string UserData → gmap string UserData) (s : State) : State :=
  mkState (waiting_users s) (active_rooms s) (user_rooms s) (f (user_data s))
    (room_messages s) (user_bans s) (user_reports s) (report_log s)
    (logs_report s) (clock s) (utc_offset s).

Definition upd_room_messages
    (f : gmap string (list Msg) → gmap string (list Msg)) (s : State) : State :=
  mkState (waiting_users s) (active_rooms s) (user_rooms s) (user_data s)
    (f (room_messages s)) (user_bans s) (user_reports s) (report_log s)
    (logs_report s) (clock s) (utc_offset s).

Definition upd_user_bans (f : gmap string BanRecord → gmap string BanRecord) (s : State) : State :=
  mkState (waiting_users s) (active_rooms s) (user_rooms s) (user_data s)
    (room_messages s) (f (user_bans s)) (user_reports s) (report_log s)
    (logs_report s) (clock s) (utc_offset s).

Definition upd_user_reports
    (f : gmap string ReportRecord → gmap string ReportRecord) (s : State) : State :=
  mkState (waiting_users s) (active_rooms s) (user_rooms s) (user_data s)
    (room_messages s) (user_bans s) (f (user_reports s)) (report_log s)
    (logs_report s) (clock s) (utc_offset s).

Definition upd_report_log (f : list ReportLogEntry → list ReportLogEntry) (s : State) : State :=
  mkState (waiting_users s) (active_rooms s) (user_rooms s) (user_data s)
    (room_messages s) (user_bans s) (user_reports s) (f (report_log s))
    (logs_report s) (clock s) (utc_offset s).

Definition upd_logs_report (f : list ConversationLog → list ConversationLog) (s : State) : State :=
  mkState (waiting_users s) (active_rooms s) (user_rooms s) (user_data s)
    (room_messages s) (user_bans s) (user_reports s) (report_log s)
    (f (logs_report s)) (clock s) (utc_offset s).

(** The state of a freshly started server at wall-clock time [t], in a
    zone whose local time is UTC. *)
Definition initial_state (t : Z) : State :=
  mkState [] ∅ ∅ ∅ ∅ ∅ ∅ [] [] t 0.

(** The environment advances the wall clock between handler invocations. *)
Definition set_clock (t : Z) (s : State) : State :=
  mkState (waiting_users s) (active_rooms s) (user_rooms s) (user_data s)
    (room_messages s) (user_bans s) (user_reports s) (report_log s)
    (logs_report s) t (utc_offset s).

(** The server's zone: local time is [offset] seconds ahead of UTC. *)
Definition set_utc_offset (offset : Z) (s : State) : State :=
  mkState (waiting_users s) (active_rooms s) (user_rooms s) (user_data s)
    (room_messages s) (user_bans s) (user_reports s) (report_log s)
    (logs_report s) (clock s) offset.

(** ** The monad of handlers: state, emitted events, exceptions *)

Inductive Res (A : Type) :=
  | Ok (a : A)
  | Raise (exn : string).
Arguments Ok {A} a.
Arguments Raise {A} exn.

Definition M (A : Type) : Type := State → Res A * State * list Event.

Definition ret {A} (a : A) : M A := λ s, (Ok a, s, []).

Definition bind {A B} (m : M A) (k : A → M B) : M B :=
  λ s, match m s with
       | (Ok a, s1, e1) =>
           match k a s1 with (r, s2, e2) => (r, s2, e1 ++ e2) end
       | (Raise x, s1, e1) => (Raise x, s1, e1)
       end.

Declare Scope M_scope.
Delimit Scope M_scope with M.
Notation "x ← y ; z" := (bind y (λ x, z))
  (at level 20, y at level 100, z at level 200, only parsing) : M_scope.
Notation "x ;; z" := (bind x (λ _, z))
  (at level 100, z at level 200, only parsing, right associativity) : M_scope.
Local Open Scope M_scope.

Definition gets {A} (f : State → A) : M A := λ s, (Ok (f s), s, []).
Definition modify (f : State → State) : M unit := λ s, (Ok tt, f s, []).
Definition raise {A} (exn : string) : M A := λ s, (Raise exn, s, []).
Definition emit (name : string) (data : Payload) (room : Target) : M unit :=
  λ s, (Ok tt, s, [mkEvent name data room]).
Definition when (b : bool) (m : M unit) : M unit := if b then m else ret tt.

Global Arguments bind : simpl never.
Global Arguments ret : simpl never.
Global Arguments gets : simpl never.
Global Arguments modify : simpl never.
Global Arguments raise : simpl never.
Global Arguments emit : simpl never.

(** The state and the events a computation leaves behind. *)
Definition final {A} (r : Res A * State * list Event) : State := r.1.2.
Definition events {A} (r : Res A * State * list Event) : list Event := r.2.
Definition result {A} (r : Res A * State * list Event) : Res A := r.1.1.

(** ** Python helpers *)

(** Truthiness of a string, and of [dict.get] on a string field. *)
Definition truthy (s : string) : bool := negb (bool_decide (s = "")).
Definition truthy_opt (o : option string) : bool :=
  match o with Some s => truthy s | None => false end.

(** [l.remove(x)]: drops the first occurrence.  The source calls it only
    on an element known to be present. *)
Fixpoint list_remove (x : string) (l : list string) : list string :=
  match l with
  | [] => []
  | y :: l' => if bool_decide (y = x) then l' else y :: list_remove x l'
  end.

(** [x in l] *)
Definition list_in (x : string) (l : list string) : bool := bool_decide (x ∈ l).

(** [k in d] *)
Definition has_key {V} (k : string) (d : gmap string V) : bool :=
  bool_decide (is_Some (d !! k)).

(** A [for] loop that threads an accumulator. *)
Fixpoint for_each {A B} (l : list A) (body : B → A → M B) (acc : B) : M B :=
  match l with
  | [] => ret acc
  | x :: l' => acc' ← body acc x; for_each l' body acc'
  end.

(** [html.escape(s)] with the default [quote=True]. *)
Definition escape_char (c : ascii) : string :=
  if bool_decide (c = "&"%char) then "&amp;"
  else if bool_decide (c = "<"%char) then "&lt;"
  else if bool_decide (c = ">"%char) then "&gt;"
  else if bool_decide (c = ascii_of_nat 34) then "&quot;"
  else if bool_decide (c = "'"%char) then "&#x27;"
  else String c "".

Fixpoint html_escape (s : string) : string :=
  match s with
  | EmptyString => ""
  | String c s' => escape_char c +:+ html_escape s'
  end.

(** [s[:n]], the first [n] characters of [s]: a character begins at
    every byte that is not a continuation byte (binary 10xxxxxx). *)
Definition is_continuation (c : ascii) : bool :=
  let b := nat_of_ascii c in (128 <=? b)%nat && (b <? 192)%nat.

Fixpoint first_chars (n : nat) (s : string) : string :=
  match s with
  | EmptyString => ""
  | String c s' =>
      if is_continuation c then String c (first_chars n s')
      else match n with
           | O => ""
           | S n' => String c (first_chars n' s')
           end
  end.

Global Arguments first_chars : simpl never.

(** ** Dates and times *)

(** [datetime.max] in seconds from [datetime.min], and the largest number
    of days a [timedelta] holds. *)
Definition datetime_max : Z := 315537897599.
Definition timedelta_max_days : Z := 999999999.

(** [timedelta(seconds=seconds)] *)
Definition timedelta (seconds : Z) : M Z :=
  if bool_decide (- timedelta_max_days ≤ seconds / 86400 ≤ timedelta_max_days)
  then ret seconds
  else raise "OverflowError".

(** [dt + delta] on a [datetime] and a [timedelta] *)
Definition datetime_add (dt delta : Z) : M Z :=
  if bool_decide (0 ≤ dt + delta ≤ datetime_max)
  then ret (dt + delta)
  else raise "OverflowError".

(** The calendar day a point in time falls on, counted from [datetime.min]. *)
Definition day_of (t : Z) : Z := t / 86400.

(** [ban_end < CURRENT_TIMESTAMP] as SQLite evaluates it, on the texts
    'YYYY-MM-DDTHH:MM:SS' of [ban_end] and 'YYYY-MM-DD HH:MM:SS' of
    [CURRENT_TIMESTAMP], byte by byte: the ten characters of the date decide,
    and on equal dates the eleventh does, where the letter T of [ban_end]
    is larger than the space of [CURRENT_TIMESTAMP]. *)
Definition text_before (ban_end current_timestamp : Z) : Prop :=
  day_of ban_end < day_of current_timestamp.

Global Instance text_before_dec ban_end current_timestamp :
  Decision (text_before ban_end current_timestamp).
Proof. unfold text_before. apply _. Defined.

(** ** Constants *)

Definition REPORT_THRESHOLD : nat := 10.
Definition BAN_DURATION : Z := 1800.

Definition VALID_REPORT_REASONS : list string :=
  [ "inappropriate_language"; "spam"; "offensive_behavior";
    "threatening"; "inappropriate_video"; "other" ].

(** ** Compatibility ranking *)

(** [jaccard_similarity(interests1, interests2)] *)
Definition jaccard_similarity (interests1 interests2 : list string) : Q :=
  if bool_decide (interests1 = []) || bool_decide (interests2 = []) then 0%Q
  else
    let set1 : gset string := list_to_set interests1 in
    let set2 : gset string := list_to_set interests2 in
    let intersection := size (set1 ∩ set2) in
    let union := size (set1 ∪ set2) in
    if bool_decide (union ≠ 0%nat)
    then (inject_Z (Z.of_nat intersection) / inject_Z (Z.of_nat union))%Q
    else 0%Q.

(** [l.sort(key=lambda x: x[0], reverse=True)]: Python's sort, whose
    contract is a stable sort, descending under [reverse=True].  It is
    embedded as the insertion sort that puts an element in front of the first
    element whose key is not larger. *)
Fixpoint insert_desc {A} (x : Q * A) (l : list (Q * A)) : list (Q * A) :=
  match l with
  | [] => [x]
  | y :: l' => if Qle_bool y.1 x.1 then x :: y :: l' else y :: insert_desc x l'
  end.

Definition sort_desc {A} (l : list (Q * A)) : list (Q * A) :=
  foldr insert_desc [] l.

(** ** Moderation store *)

(** [is_banned(user_ip)] *)
Definition is_banned (user_ip : string) : M (bool * option Z) :=
  result ← gets (λ s, user_bans s !! user_ip);
  match result with
  | Some row =>
      now ← gets clock;
      if bool_decide (now > ban_end row) then
        modify (upd_user_bans (delete user_ip));;
        ret (false, None)
      else ret (true, Some (ban_end row))
  | None => ret (false, None)
  end.

(** [cleanup_expired_bans()]:
    [DELETE FROM user_bans WHERE ban_end < CURRENT_TIMESTAMP]. *)
Definition cleanup_expired_bans : M unit :=
  current_timestamp ← gets (λ s, clock s - utc_offset s);
  modify (upd_user_bans
            (filter (λ kv, ¬ text_before (ban_end kv.2) current_timestamp))).

(** [cleanup_room_messages()] *)
Definition cleanup_room_messages : M unit :=
  now ← gets clock;
  let max_age := 3600 in
  rooms ← gets active_rooms;
  transcripts ← gets room_messages;
  to_remove ← for_each (map_to_list transcripts).*1
    (λ (to_remove : list string) (room_id : string),
       if negb (has_key room_id rooms) then
         let created_at := default now (created_at <$> rooms !! room_id) in
         if bool_decide (now - created_at > max_age)
         then ret (to_remove ++ [room_id])
         else ret to_remove
       else ret to_remove) [];
  for_each to_remove
    (λ _ room_id, modify (upd_room_messages (delete room_id))) tt.

(** [save_conversation_log(room_id, report_id, reported_ip, timestamp)] *)
Definition save_conversation_log (room_id : string) (report_id : nat)
    (reported_ip : string) (timestamp : Z) : M unit :=
  transcript ← gets (λ s, room_messages s !! room_id);
  match transcript with
  | None => ret tt
  | Some msgs =>
      modify (upd_logs_report
                (λ fs, fs ++ [mkConversationLog report_id reported_ip timestamp msgs]))
  end.

(** The block that [ban_user], [handle_change_mode], [handle_disconnect]
    and [handle_next_partner] each repeat: leave the room [user_id] is bound
    to, telling the partner. *)
Definition leave_current_room (user_id : string) : M unit :=
  binding ← gets (λ s, user_rooms s !! user_id);
  match binding with
  | None => ret tt
  | Some room_id =>
      room ← gets (λ s, active_rooms s !! room_id);
      match room with
      | None => ret tt
      | Some r =>
          let partner_id := head (filter (λ uid, uid ≠ user_id) (users r)) in
          when (truthy_opt partner_id)
            (let p := default "" partner_id in
             emit "partner_disconnected" NoData (ToSid p);;
             modify (upd_user_rooms (delete p)));;
          modify (upd_active_rooms (delete room_id))
      end;;
      modify (upd_user_rooms (delete user_id))
  end.

(** [ban_user(ip, reason, sid_to_cleanup)]; the expiry is computed, and
    may raise, before anything is written. *)
Definition ban_user (ip reason : string) (sid_to_cleanup : option string) : M unit :=
  result ← gets (λ s, user_bans s !! ip);
  let ban_count := default 0%nat (ban_count <$> result) in
  let duration := BAN_DURATION * 2 ^ Z.of_nat ban_count in
  now ← gets clock;
  delta ← timedelta duration;
  ban_end ← datetime_add now delta;
  let new_ban_count := (ban_count + 1)%nat in
  modify (upd_user_bans <[ip := mkBan ban_end reason new_ban_count]>);;
  when (truthy_opt sid_to_cleanup)
    (let sid := default "" sid_to_cleanup in
     queue ← gets waiting_users;
     when (list_in sid queue) (modify (upd_waiting_users (list_remove sid)));;
     leave_current_room sid;;
     emit "force_disconnect" (ForceDisconnectData ban_end reason) (ToSid sid));;
  cleanup_expired_bans.

(** [report_user(reporter_sid, reported_sid, reason, comment)] *)
Definition report_user (reporter_sid reported_sid reason comment : string) : M unit :=
  if bool_decide (reported_sid = reporter_sid) then
    emit "error" (ErrorData "Non puoi segnalare te stesso") (ToSid reporter_sid)
  else
    reporter_ip ← gets (λ s, ip <$> user_data s !! reporter_sid);
    reported_ip ← gets (λ s, ip <$> user_data s !! reported_sid);
    if negb (truthy_opt reported_ip) || negb (truthy_opt reporter_ip) then
      emit "error" (ErrorData "Utente non trovato") (ToSid reporter_sid)
    else if negb (list_in reason VALID_REPORT_REASONS) then
      emit "error" (ErrorData "Motivo non valido") (ToSid reporter_sid)
    else
      let reporter_ip := default "" reporter_ip in
      let reported_ip := default "" reported_ip in
      let comment := html_escape (first_chars 500 comment) in
      current_timestamp ← gets (λ s, clock s - utc_offset s);
      modify (upd_user_reports (λ t,
        match t !! reported_ip with
        | None => <[reported_ip := mkReport 0 current_timestamp]> t
        | Some _ => t
        end));;
      modify (upd_user_reports
        (alter (λ r, mkReport (report_count r + 1) current_timestamp) reported_ip));;
      count ← gets (λ s, default 0%nat (report_count <$> user_reports s !! reported_ip));
      timestamp ← gets clock;
      modify (upd_report_log (λ l,
        l ++ [mkLogEntry reported_ip reporter_ip reason comment current_timestamp]));;
      report_id ← gets (λ s, length (report_log s));
      room_id ← gets (λ s, user_rooms s !! reporter_sid);
      when (truthy_opt room_id)
        (save_conversation_log (default "" room_id) report_id reported_ip timestamp);;
      when (bool_decide (REPORT_THRESHOLD ≤ count)%nat)
        (ban_user reported_ip reason (Some reported_sid)).

(** ** Matchmaking *)

(** [w_data.get('chat_mode')] on the result of [user_data.get(uid, {})] *)
Definition get_chat_mode (w_data : option UserData) : option string :=
  w_data ≫= chat_mode.

(** [get_sorted_waiting_partners(current_user_id, chat_mode)] *)
Definition get_sorted_waiting_partners (current_user_id chat_mode : string)
    : M (list string) :=
  current_interests ←
    gets (λ s, default [] (interests <$> user_data s !! current_user_id));
  queue ← gets waiting_users;
  compatible_users ← for_each queue
    (λ (compatible_users : list (Q * string)) (w_user_id : string),
       w_data ← gets (λ s, user_data s !! w_user_id);
       let w_ip := ip <$> w_data in
       let w_mode := get_chat_mode w_data in
       if bool_decide (w_mode ≠ Some chat_mode) then ret compatible_users
       else
         banned ← (if truthy_opt w_ip
                   then r ← is_banned (default "" w_ip); ret r.1
                   else ret false);
         if banned then ret compatible_users
         else
           let w_interests := default [] (interests <$> w_data) in
           let sim := jaccard_similarity current_interests w_interests in
           ret (compatible_users ++ [(sim, w_user_id)])) [];
  ret (sort_desc compatible_users).*2.

(** The payload of [find_partner]; a key the client omits is [None]. *)
Record FindPartnerData := mkFindPartnerData {
  data_interests : option (list string);
  data_chat_mode : option string
}.

(** [emit_stats()] as the handlers call it, without a room. *)
Definition emit_stats : M unit :=
  online ← gets (λ s, size (user_data s));
  waiting ← gets (λ s, length (waiting_users s));
  active_chats ← gets (λ s, size (active_rooms s));
  emit "stats_update" (StatsData online waiting active_chats) ToAll.

(** The selection loop of [handle_find_partner]: the first ranked candidate
    that is not the requester, is registered and is not banned. *)
Fixpoint select_partner (user_id : string) (sorted_waiting : list string)
    : M (option string) :=
  match sorted_waiting with
  | [] => ret None
  | w_id :: rest =>
      known ← gets (λ s, user_data s !! w_id);
      match known with
      | Some d =>
          if bool_decide (w_id ≠ user_id) then
            r ← is_banned (ip d);
            if negb r.1 then ret (Some w_id) else select_partner user_id rest
          else select_partner user_id rest
      | None => select_partner user_id rest
      end
  end.

(** [handle_find_partner(data)], for [request.sid = user_id]; [token] is
    the value [secrets.token_hex(8)] returns. *)
Definition handle_find_partner (user_id : string) (token : string)
    (data : FindPartnerData) : M unit :=
  user_ip ← gets (λ s, ip <$> user_data s !! user_id);
  if negb (truthy_opt user_ip) then ret tt
  else
    r ← is_banned (default "" user_ip);
    if r.1 then emit "banned" (BannedData "30 minuti" None) (ToSid user_id)
    else
      let chat_mode := default "text" (data_chat_mode data) in
      modify (upd_user_data
        (alter (λ d, mkUserData (connected_at d)
                       (default [] (data_interests data)) (ip d) (Some chat_mode))
               user_id));;
      queue ← gets waiting_users;
      when (list_in user_id queue) (modify (upd_waiting_users (list_remove user_id)));;
      sorted_waiting ← get_sorted_waiting_partners user_id chat_mode;
      partner_id ← select_partner user_id sorted_waiting;
      if truthy_opt partner_id then
        let partner_id := default "" partner_id in
        modify (upd_waiting_users (list_remove partner_id));;
        let room_id := token in
        now ← gets clock;
        modify (upd_active_rooms <[room_id := mkRoom [user_id; partner_id] now chat_mode]>);;
        modify (upd_room_messages <[room_id := []]>);;
        modify (upd_user_rooms <[user_id := room_id]>);;
        modify (upd_user_rooms <[partner_id := room_id]>);;
        emit "matched" (MatchedData room_id "Stranger" partner_id true) (ToSid user_id);;
        emit "matched" (MatchedData room_id "Stranger" user_id false) (ToSid partner_id);;
        emit_stats
      else
        modify (upd_waiting_users (λ q, q ++ [user_id]));;
        emit "waiting" NoData (ToSid user_id);;
        emit_stats.

(** ** Session lifecycle *)

(** [handle_connect(auth)] for [request.sid = user_id] and
    [request.remote_addr = addr]; the result [false] refuses the
    connection. *)
Definition handle_connect (user_id addr : string) : M bool :=
  r ← is_banned addr;
  if r.1 then
    emit "banned" (BannedData "30 minuti" r.2) (ToSid user_id);;
    ret false
  else
    now ← gets clock;
    modify (upd_user_data <[user_id := mkUserData now [] addr None]>);;
    emit_stats;;
    ret true.

(** [handle_disconnect()] *)
Definition handle_disconnect (user_id : string) : M unit :=
  queue ← gets waiting_users;
  when (list_in user_id queue) (modify (upd_waiting_users (list_remove user_id)));;
  leave_current_room user_id;;
  modify (upd_user_data (delete user_id));;
  emit_stats.

(** [handle_change_mode()] *)
Definition handle_change_mode (user_id : string) : M unit :=
  queue ← gets waiting_users;
  when (list_in user_id queue) (modify (upd_waiting_users (list_remove user_id)));;
  leave_current_room user_id;;
  modify (upd_user_data (delete user_id));;
  emit_stats.

(** The guard that opens [handle_stop_searching], [handle_message],
    [handle_next_partner] and [handle_report_user]: the caller's address
    resolves and is not banned. *)
Definition admitted (user_id : string) : M bool :=
  user_ip ← gets (λ s, ip <$> user_data s !! user_id);
  if negb (truthy_opt user_ip) then ret false
  else r ← is_banned (default "" user_ip); ret (negb r.1).

(** [handle_stop_searching()] *)
Definition handle_stop_searching (user_id : string) : M unit :=
  ok ← admitted user_id;
  if negb ok then ret tt
  else
    queue ← gets waiting_users;
    when (list_in user_id queue)
      (modify (upd_waiting_users (list_remove user_id));; emit_stats).

(** [handle_next_partner()] *)
Definition handle_next_partner (user_id : string) : M unit :=
  ok ← admitted user_id;
  if negb ok then ret tt
  else leave_current_room user_id;; emit_stats.

(** [handle_message(data)] with [data['message'] = text] *)
Definition handle_message (user_id : string) (text : string) : M unit :=
  ok ← admitted user_id;
  if negb ok then ret tt
  else
    binding ← gets (λ s, user_rooms s !! user_id);
    match binding with
    | None => emit "error" (ErrorData "Non sei connesso a nessuna chat") (ToSid user_id)
    | Some room_id =>
        room ← gets (λ s, active_rooms s !! room_id);
        match room with
        | None => emit "error" (ErrorData "La stanza non esiste pi√π") (ToSid user_id)
        | Some r =>
            let partner_id := head (filter (λ uid, uid ≠ user_id) (users r)) in
            if truthy_opt partner_id then
              let partner_id := default "" partner_id in
              p_ip ← gets (λ s, ip <$> user_data s !! partner_id);
              p_banned ← (if truthy_opt p_ip
                          then b ← is_banned (default "" p_ip); ret b.1
                          else ret false);
              if negb p_banned then
                let sanitized_message := html_escape text in
                emit "message" (MessageData sanitized_message "Stranger") (ToSid partner_id);;
                transcript ← gets (λ s, room_messages s !! room_id);
                now ← gets clock;
                match transcript with
                | None => raise "KeyError"
                | Some msgs =>
                    modify (upd_room_messages
                      <[room_id :=
                          msgs ++ [mkMsg (if bool_decide (user_id = user_id)
                                          then "Tu" else "Stranger")
                                         sanitized_message now]]>)
                end
              else emit "error" (ErrorData "Partner non disponibile") (ToSid user_id)
            else emit "error" (ErrorData "Partner non disponibile") (ToSid user_id)
        end
    end.

(** The payload of [report_user]; a key the client omits is [None]. *)
Record ReportData := mkReportData {
  data_reported_id : option string;
  data_reason : option string;
  data_comment : option string
}.

(** [handle_report_user(data)] *)
Definition handle_report_user (user_id : string) (data : ReportData) : M unit :=
  ok ← admitted user_id;
  if negb ok then ret tt
  else
    let reported_id := data_reported_id data in
    let reason := data_reason data in
    let comment := default "" (data_comment data) in
    if truthy_opt reported_id && bool_decide (reported_id ≠ Some user_id) then
      report_user user_id (default "" reported_id) (default "" reason) comment
    else emit "error" (ErrorData "ID utente non valido") (ToSid user_id).


(** ** The server as a transition system *)

(** What the server reacts to: a client event, one execution of a sweep,
    the passing of time, or a change of the offset between local time and
    UTC (the zone the server runs in, daylight saving). *)
Inductive Request :=
  | ReqConnect (user_id addr : string)
  | ReqDisconnect (user_id : string)
  | ReqChangeMode (user_id : string)
  | ReqFindPartner (user_id token : string) (data : FindPartnerData)
  | ReqStopSearching (user_id : string)
  | ReqNextPartner (user_id : string)
  | ReqSendMessage (user_id text : string)
  | ReqReportUser (user_id : string) (data : ReportData)
  | SweepExpiredBans
  | SweepRoomMessages
  | ClockTick (t : Z)
  | ZoneChange (offset : Z).

Definition serve (req : Request) (s : State) : State :=
  match req with
  | ReqConnect user_id addr => final (handle_connect user_id addr s)
  | ReqDisconnect user_id => final (handle_disconnect user_id s)
  | ReqChangeMode user_id => final (handle_change_mode user_id s)
  | ReqFindPartner user_id token data => final (handle_find_partner user_id token data s)
  | ReqStopSearching user_id => final (handle_stop_searching user_id s)
  | ReqNextPartner user_id => final (handle_next_partner user_id s)
  | ReqSendMessage user_id text => final (handle_message user_id text s)
  | ReqReportUser user_id data => final (handle_report_user user_id data s)
  | SweepExpiredBans => final (cleanup_expired_bans s)
  | SweepRoomMessages => final (cleanup_room_messages s)
  | ClockTick t => set_clock t s
  | ZoneChange offset => set_utc_offset offset s
  end.

(** The state after a sequence of requests, served one after the other. *)
Definition serve_all (reqs : list Request) (s : State) : State :=
  foldl (λ s req, serve req s) s reqs.

(** ** Handlers and sweeps outside the transition system above *)

(** [cleanup_stale_sessions()]; [order] is the sequence in which
    [user_data.items()] yields the session ids, the insertion order of the
    dict, which the map does not record.  The teardown block is the one
    [leave_current_room] embeds. *)
Definition cleanup_stale_sessions (order : list string) : M unit :=
  now ← gets clock;
  let timeout := 300 in
  to_remove ← for_each order
    (λ (to_remove : list string) (user_id : string),
       data ← gets (λ s, user_data s !! user_id);
       match data with
       | Some data =>
           if bool_decide (now - connected_at data > timeout)
           then ret (to_remove ++ [user_id])
           else ret to_remove
       | None => ret to_remove
       end) [];
  for_each to_remove
    (λ (_ : unit) (user_id : string),
       queue ← gets waiting_users;
       when (list_in user_id queue) (modify (upd_waiting_users (list_remove user_id)));;
       leave_current_room user_id;;
       modify (upd_user_data (delete user_id))) tt;;
  when (negb (bool_decide (to_remove = []))) emit_stats.

(** [handle_typing()] *)
Definition handle_typing (user_id : string) : M unit :=
  ok ← admitted user_id;
  if negb ok then ret tt
  else
    binding ← gets (λ s, user_rooms s !! user_id);
    match binding with
    | None => ret tt
    | Some room_id =>
        room ← gets (λ s, active_rooms s !! room_id);
        match room with
        | None => ret tt
        | Some r =>
            let partner_id := head (filter (λ uid, uid ≠ user_id) (users r)) in
            when (truthy_opt partner_id)
              (emit "typing" NoData (ToSid (default "" partner_id)))
        end
    end.

(** [handle_stop_typing()]: the same relay, without the admission guard. *)
Definition handle_stop_typing (user_id : string) : M unit :=
  binding ← gets (λ s, user_rooms s !! user_id);
  match binding with
  | None => ret tt
  | Some room_id =>
      room ← gets (λ s, active_rooms s !! room_id);
      match room with
      | None => ret tt
      | Some r =>
          let partner_id := head (filter (λ uid, uid ≠ user_id) (users r)) in
          when (truthy_opt partner_id)
            (emit "stop_typing" NoData (ToSid (default "" partner_id)))
      end
  end.

(** [check_ban()], the route [/check_ban], for [request.remote_addr = addr]:
    the JSON answer is [None] for [{'banned': False}] and the expiry for
    [{'banned': True, 'ban_end': ..., 'reason': 'Previous ban active'}]. *)
Definition check_ban (addr : string) : M (option Z) :=
  r ← is_banned addr;
  match r with
  | (true, Some ban_end) => ret (Some ban_end)
  | _ => ret None
  end.
(** * Definitions used by the statements and proofs *)

(** Events emitted before a continuation ran. *)
Definition add_events {A} (e : list Event) (r : Res A * State * list Event)
    : Res A * State * list Event :=
  (r.1.1, r.1.2, e ++ r.2).

(** ** What a ban lookup answers and what it leaves in the store *)

Definition ban_lookup (s : State) (user_ip : string) : bool * option Z :=
  match user_bans s !! user_ip with
  | Some row =>
      if bool_decide (clock s > ban_end row) then (false, None)
      else (true, Some (ban_end row))
  | None => (false, None)
  end.

Definition purge_ban (user_ip : string) (s : State) : State :=
  match user_bans s !! user_ip with
  | Some row =>
      if bool_decide (clock s > ban_end row)
      then upd_user_bans (delete user_ip) s else s
  | None => s
  end.

(** ** Concrete states used by the examples *)

Definition banned_store (t : Z) : State :=
  upd_user_bans <["10.0.0.9" := mkBan 5000 "spam" 1]> (initial_state t).

(** A server eight hours behind UTC at five in the afternoon of its first
    day, when the UTC date is already the next one; the ban of 10.0.0.9
    runs for another half hour. *)
Definition evening_behind_utc : State :=
  set_utc_offset (-28800)
    (upd_user_bans <["10.0.0.9" := mkBan 63000 "spam" 1]> (initial_state 61200)).


(** Two sessions were matched in room "r1" at time 0, one of them
    disconnected at time 10 and the clock now reads [t]: the room is gone
    from [active_rooms], its transcript is still in [room_messages]. *)
Definition abandoned_room (t : Z) : State :=
  let fp := mkFindPartnerData (Some []) (Some "text") in
  let s1 := final (handle_connect "A" "10.0.0.1" (initial_state 0)) in
  let s2 := final (handle_connect "B" "10.0.0.2" s1) in
  let s3 := final (handle_find_partner "B" "r0" fp s2) in
  let s4 := final (handle_find_partner "A" "r1" fp s3) in
  let s5 := final (handle_message "A" "ciao" s4) in
  let s6 := final (handle_disconnect "A" (set_clock 10 s5)) in
  set_clock t s6.

(** ** What the admission guard answers and what it leaves in the store *)

Definition admit_ok (s : State) (user_id : string) : bool :=
  match user_data s !! user_id with
  | Some d => truthy (ip d) && negb (ban_lookup s (ip d)).1
  | None => false
  end.

Definition admit_state (user_id : string) (s : State) : State :=
  match user_data s !! user_id with
  | Some d => if truthy (ip d) then purge_ban (ip d) s else s
  | None => s
  end.

(** ** What leaving a room does *)

(** The partner that is told when [user_id] leaves its room, if any. *)
Definition partner_of (user_id : string) (s : State) : option string :=
  match user_rooms s !! user_id with
  | Some room_id =>
      match active_rooms s !! room_id with
      | Some r =>
          match head (filter (λ uid, uid ≠ user_id) (users r)) with
          | Some p => if truthy p then Some p else None
          | None => None
          end
      | None => None
      end
  | None => None
  end.

Definition leave_events (user_id : string) (s : State) : list Event :=
  match partner_of user_id s with
  | Some p => [mkEvent "partner_disconnected" NoData (ToSid p)]
  | None => []
  end.

Definition leave_state (user_id : string) (s : State) : State :=
  match user_rooms s !! user_id with
  | None => s
  | Some room_id =>
      upd_user_rooms (delete user_id)
        match active_rooms s !! room_id with
        | None => s
        | Some _ =>
            upd_active_rooms (delete room_id)
              match partner_of user_id s with
              | Some p => upd_user_rooms (delete p) s
              | None => s
              end
        end
  end.

(** The number of [partner_disconnected] notices sent to [p]. *)
Definition disconnect_notices (p : string) (evs : list Event) : nat :=
  length (filter (λ e, ev_name e = "partner_disconnected" ∧ ev_room e = ToSid p) evs).

(** The ban that [ban_user] writes for [ip] in state [s]. *)
Definition next_ban (s : State) (ip reason : string) : BanRecord :=
  let k := default 0%nat (ban_count <$> user_bans s !! ip) in
  mkBan (clock s + BAN_DURATION * 2 ^ Z.of_nat k) reason (k + 1).

(** ** What a ban and a report leave in the state *)

(** [if user_id in waiting_users: waiting_users.remove(user_id)] *)
Definition dequeue (user_id : string) (s : State) : State :=
  if list_in user_id (waiting_users s)
  then upd_waiting_users (list_remove user_id) s else s.

Definition sweep_bans (s : State) : State :=
  upd_user_bans
    (filter (λ kv, ¬ text_before (ban_end kv.2) (clock s - utc_offset s))) s.

(** [ban_user] raises for [ip] in state [s]: the duration is more than a
    [timedelta] holds, or the expiry is outside the range of [datetime]. *)
Definition ban_overflows (s : State) (ip : string) : bool :=
  let k := default 0%nat (ban_count <$> user_bans s !! ip) in
  let duration := BAN_DURATION * 2 ^ Z.of_nat k in
  negb (bool_decide (- timedelta_max_days ≤ duration / 86400 ≤ timedelta_max_days) &&
        bool_decide (0 ≤ clock s + duration ≤ datetime_max)).

(** The sweep that ends [ban_user] keeps a record that expires at
    [expiry]: the date of [expiry] is not before the UTC date. *)
Definition kept_by_sweep (s : State) (expiry : Z) : Prop :=
  day_of (clock s - utc_offset s) ≤ day_of expiry.

Definition ban_state (ip reason : string) (sid_to_cleanup : option string)
    (s : State) : State :=
  let s1 := upd_user_bans <[ip := next_ban s ip reason]> s in
  sweep_bans
    (if truthy_opt sid_to_cleanup
     then leave_state (default "" sid_to_cleanup) (dequeue (default "" sid_to_cleanup) s1)
     else s1).

Definition ban_events (ip reason : string) (sid_to_cleanup : option string)
    (s : State) : list Event :=
  if truthy_opt sid_to_cleanup then
    let sid := default "" sid_to_cleanup in
    leave_events sid (dequeue sid s) ++
    [mkEvent "force_disconnect"
       (ForceDisconnectData (ban_end (next_ban s ip reason)) reason) (ToSid sid)]
  else [].

(** The number of reports counted against [ip]. *)
Definition reports_against (s : State) (ip : string) : nat :=
  default 0%nat (report_count <$> user_reports s !! ip).



(** The address registered for a session, [""] when there is none. *)
Definition address_of (s : State) (user_id : string) : string :=
  default "" (ip <$> user_data s !! user_id).

(** ** Rooms with two members *)

(** [room_id] is an active room whose two members are [a] and [b], both
    bound to it. *)
Definition paired (s : State) (room_id a b : string) : Prop :=
  a ≠ b ∧ a ≠ "" ∧ b ≠ "" ∧
  (∃ r, active_rooms s !! room_id = Some r ∧ (users r = [a; b] ∨ users r = [b; a])) ∧
  user_rooms s !! a = Some room_id ∧
  user_rooms s !! b = Some room_id.

(** The room is gone and neither member is bound any more. *)
Definition torn_down (s : State) (room_id a b : string) : Prop :=
  active_rooms s !! room_id = None ∧
  user_rooms s !! a = None ∧
  user_rooms s !! b = None.

(** Sessions "X" and "Y" are matched in room "r1"; [n] reports of "X"
    against "Y" have been recorded since. *)
Definition spam_report : ReportData := mkReportData (Some "Y") (Some "spam") (Some "").


Definition matched_pair : State :=
  let fp := mkFindPartnerData (Some ["music"]) (Some "text") in
  let s1 := final (handle_connect "X" "10.0.0.1" (initial_state 100)) in
  let s2 := final (handle_connect "Y" "10.0.0.2" s1) in
  let s3 := final (handle_find_partner "Y" "r0" fp s2) in
  final (handle_find_partner "X" "r1" fp s3).


(** Noon of 3 November 2026, in seconds from [datetime.min]. *)
Definition noon_2026_11_03 : Z := 63929304000.

(** "X" and "Y" connect at that time and are matched in room "r1", then
    "X" reports "Y" [n] times in a row. *)
Definition reports_in_2026 (n : nat) : State :=
  let fp := mkFindPartnerData (Some ["music"]) (Some "text") in
  serve_all ([ReqConnect "X" "10.0.0.1"; ReqConnect "Y" "10.0.0.2";
              ReqFindPartner "Y" "r0" fp; ReqFindPartner "X" "r1" fp] ++
             replicate n (ReqReportUser "X" spam_report))
    (initial_state noon_2026_11_03).

Definition stats_event (s : State) : Event :=
  mkEvent "stats_update"
    (StatsData (size (user_data s)) (length (waiting_users s)) (size (active_rooms s)))
    ToAll.

(** Sessions "A" and "A2" share the address 10.0.0.1.  "A" is matched with
    "B" in room "r1", "A2" with "C" in room "r2"; ten reports of "C" against
    "A2" then ban the address and tear "r2" down. *)
Definition shared_address_ban : State :=
  let fp := mkFindPartnerData (Some []) (Some "text") in
  let s1 := final (handle_connect "A" "10.0.0.1" (initial_state 100)) in
  let s2 := final (handle_connect "A2" "10.0.0.1" s1) in
  let s3 := final (handle_connect "B" "10.0.0.2" s2) in
  let s4 := final (handle_connect "C" "10.0.0.3" s3) in
  let s5 := final (handle_find_partner "B" "r0" fp s4) in
  let s6 := final (handle_find_partner "A" "r1" fp s5) in
  let s7 := final (handle_find_partner "C" "r9" fp s6) in
  let s8 := final (handle_find_partner "A2" "r2" fp s7) in
  let report := mkReportData (Some "A2") (Some "spam") (Some "") in
  Nat.iter 10 (λ s, final (handle_report_user "C" report s)) s8.

(** "A" and "B" are registered, then "A" switches mode: its record is
    deleted while its connection is still open. *)
Definition after_change_mode : State :=
  let s1 := final (handle_connect "A" "10.0.0.1" (initial_state 100)) in
  let s2 := final (handle_connect "B" "10.0.0.2" s1) in
  final (handle_change_mode "A" s2).

(** ** Ranking *)

(** Scores are compared up to equality of rationals. *)
Global Instance Qeq_decision (x y : Q) : Decision (x == y)%Q := Qeq_dec x y.

(** The key order of a list sorted with [reverse=True]. *)
Definition key_desc {A} (x y : Q * A) : Prop := (y.1 <= x.1)%Q.

(** [s'] is [s] after lookups deleted some expired bans: the containers
    in memory, the report tables and the clock are the same, every ban
    lookup has the same answer, and no ban was added. *)
Definition purged (s s' : State) : Prop :=
  waiting_users s' = waiting_users s ∧
  active_rooms s' = active_rooms s ∧
  user_rooms s' = user_rooms s ∧
  user_data s' = user_data s ∧
  room_messages s' = room_messages s ∧
  user_reports s' = user_reports s ∧
  report_log s' = report_log s ∧
  logs_report s' = logs_report s ∧
  clock s' = clock s ∧
  (∀ a, ban_lookup s' a = ban_lookup s a) ∧
  (∀ a row, user_bans s' !! a = Some row → user_bans s !! a = Some row).

(** The waiting sessions [get_sorted_waiting_partners] keeps: the stored
    mode is the requested one and the address, if any, is not banned. *)
Definition is_candidate (s : State) (chat_mode : string) (w_user_id : string) : bool :=
  let w_data := user_data s !! w_user_id in
  bool_decide (get_chat_mode w_data = Some chat_mode) &&
  negb (truthy_opt (ip <$> w_data) && (ban_lookup s (default "" (ip <$> w_data))).1).

Definition candidates (s : State) (chat_mode : string) : list string :=
  filter (λ w, is_candidate s chat_mode w) (waiting_users s).

(** The score of a waiting session against the requester. *)
Definition score_for (s : State) (current_user_id w_user_id : string) : Q :=
  jaccard_similarity
    (default [] (interests <$> user_data s !! current_user_id))
    (default [] (interests <$> user_data s !! w_user_id)).

(** A list of sessions with their scores, as the scan builds it. *)
Definition scored (score : string → Q) (l : list string) : list (Q * string) :=
  (λ w, (score w, w)) <$> l.

(** A queue holding "Z" (no interests) and then "P", "Q" and "R" with the
    same interest list, all in video mode, and a registered requester "X";
    a queue with several sessions of one mode is what expired bans of
    waiting sessions leave behind. *)
Definition three_equal_waiting : State :=
  let waiting (interests : list string) (addr : string) :=
    mkUserData 100 interests addr (Some "video") in
  upd_waiting_users (λ _, ["Z"; "P"; "Q"; "R"])
    (upd_user_data (λ _,
       <["Z" := waiting [] "10.0.0.9"]>
       (<["P" := waiting ["gaming"] "10.0.0.1"]>
       (<["Q" := waiting ["gaming"] "10.0.0.2"]>
       (<["R" := waiting ["gaming"] "10.0.0.3"]>
       (<["X" := mkUserData 100 ["music"; "gaming"] "10.0.0.4" None]> ∅)))))
    (initial_state 100)).

(** ** Relating the state before and after a computation *)

(** Whatever state [m] starts from, the state it ends in is related to it
    by [R]. *)
Definition frames {A} (R : State → State → Prop) (m : M A) : Prop :=
  ∀ s, R s (final (m s)).

(** No report record is deleted and no report count goes down. *)
Definition reports_kept (s s' : State) : Prop :=
  ∀ a r, user_reports s !! a = Some r →
         ∃ r', user_reports s' !! a = Some r' ∧ (report_count r ≤ report_count r')%nat.


(** ** Queue and rooms *)

(** The queue holds no session twice and no session that is bound to a
    room. *)
Definition exclusive (s : State) : Prop :=
  NoDup (waiting_users s) ∧
  ∀ u, u ∈ waiting_users s → user_rooms s !! u = None.

(** [s'] has no more queue entries and no more room bindings than [s]. *)
Definition shrinks (s s' : State) : Prop :=
  waiting_users s' `sublist_of` waiting_users s ∧
  ∀ u, user_rooms s !! u = None → user_rooms s' !! u = None.

(** "A" and "B" are matched in room "r1"; nobody waits. *)
Definition room_of_A_and_B : State :=
  let fp := mkFindPartnerData (Some []) (Some "text") in
  serve_all [ReqConnect "A" "10.0.0.1"; ReqConnect "B" "10.0.0.2";
             ReqFindPartner "B" "r0" fp; ReqFindPartner "A" "r1" fp]
    (initial_state 100).

(** The same, with a third session "C" waiting for a video partner. *)
Definition room_of_A_and_B_with_C_waiting : State :=
  serve_all [ReqConnect "C" "10.0.0.3";
             ReqFindPartner "C" "r9" (mkFindPartnerData (Some []) (Some "video"))]
    room_of_A_and_B.

(** ** What a pairing request does *)

(** A ranked candidate the selection loop of [handle_find_partner] accepts:
    not the requester, registered, and its address not banned. *)
Definition selectable (s : State) (user_id w_id : string) : bool :=
  bool_decide (w_id ≠ user_id) &&
  match user_data s !! w_id with
  | Some d => negb (ban_lookup s (ip d)).1
  | None => false
  end.

(** The state in which the ranking runs: the requester passed the ban
    check, its record holds the requested interests and mode, and it is out
    of the queue. *)
Definition requester_state (user_id : string) (data : FindPartnerData) (s : State) : State :=
  dequeue user_id
    (upd_user_data
       (alter (λ d, mkUserData (connected_at d) (default [] (data_interests data)) (ip d)
                      (Some (default "text" (data_chat_mode data)))) user_id)
       (purge_ban (address_of s user_id) s)).

(** The ranking the requester is offered and the partner chosen from it. *)
Definition ranking (user_id : string) (data : FindPartnerData) (s : State) : list string :=
  let s1 := requester_state user_id data s in
  (sort_desc (scored (score_for s1 user_id)
                (candidates s1 (default "text" (data_chat_mode data))))).*2.

Definition chosen_partner (user_id : string) (data : FindPartnerData) (s : State)
    : option string :=
  head (filter (λ w, selectable (requester_state user_id data s) user_id w)
          (ranking user_id data s)).

(** The writes of the two branches of [handle_find_partner]. *)
Definition matched_state (user_id partner_id token chat_mode : string) (s : State) : State :=
  upd_user_rooms <[partner_id := token]>
    (upd_user_rooms <[user_id := token]>
       (upd_room_messages <[token := []]>
          (upd_active_rooms <[token := mkRoom [user_id; partner_id] (clock s) chat_mode]>
             (upd_waiting_users (list_remove partner_id) s)))).

Definition waiting_state (user_id : string) (s : State) : State :=
  upd_waiting_users (λ q, q ++ [user_id]) s.

(** "X" (interests music and gaming) is registered while "Z" (no
    interests) and "Y" (interest gaming) wait for a text partner, "Z" first:
    the end-to-end scenario of the ranking. *)
Definition music_and_gaming : FindPartnerData :=
  mkFindPartnerData (Some ["music"; "gaming"]) (Some "text").

Definition two_text_waiting : State :=
  let waiting (interests : list string) (addr : string) :=
    mkUserData 100 interests addr (Some "text") in
  upd_waiting_users (λ _, ["Z"; "Y"])
    (upd_user_data (λ _,
       <["Z" := waiting [] "10.0.0.9"]>
       (<["Y" := waiting ["gaming"] "10.0.0.2"]>
       (<["X" := mkUserData 100 [] "10.0.0.4" None]> ∅)))
    (initial_state 100)).

(** A waiting session the requester [user_id] can be matched with: another
    session, whose stored mode is the requested one and whose address is not
    banned. *)
Definition rival (s : State) (user_id chat_mode w : string) : Prop :=
  w ≠ user_id ∧
  get_chat_mode (user_data s !! w) = Some chat_mode ∧
  (ban_lookup s (address_of s w)).1 = false.

Global Instance rival_dec s user_id chat_mode w : Decision (rival s user_id chat_mode w).
Proof. unfold rival. apply _. Defined.

Definition rivals (s : State) (user_id chat_mode : string) : list string :=
  filter (rival s user_id chat_mode) (waiting_users s).

(** The score of a waiting session against the interests of a request. *)
Definition request_score (data : FindPartnerData) (s : State) (w : string) : Q :=
  jaccard_similarity (default [] (data_interests data))
    (default [] (interests <$> user_data s !! w)).

(** ** What requests never do *)

(** No BanRecord of [s'] is new or changed with respect to [s]. *)
Definition no_ban_written (s s' : State) : Prop :=
  ∀ a row, user_bans s' !! a = Some row → user_bans s !! a = Some row.

(** Every room that has a transcript in [s] still has one in [s']. *)
Definition transcripts_kept (s s' : State) : Prop :=
  ∀ room_id, is_Some (room_messages s !! room_id) → is_Some (room_messages s' !! room_id).

(** Every active room has exactly two members, and they differ. *)
Definition rooms_have_two_members (s : State) : Prop :=
  ∀ room_id r, active_rooms s !! room_id = Some r →
               ∃ a b, users r = [a; b] ∧ a ≠ b.

(** Every active room of [s'] is a room of [s], unchanged. *)
Definition no_room_added (s s' : State) : Prop :=
  ∀ room_id r, active_rooms s' !! room_id = Some r → active_rooms s !! room_id = Some r.

(** ** Escaping *)

(** The characters [html.escape] replaces, and those that delimit markup
    or attribute values. *)
Definition escaped_chars : list ascii :=
  ["&"%char; "<"%char; ">"%char; ascii_of_nat 34; "'"%char].

Definition markup_chars : list ascii :=
  ["<"%char; ">"%char; ascii_of_nat 34; "'"%char].

(** ** The stale-session sweep *)

(** A session is stale when it connected more than 300 seconds ago. *)
Definition stale (s : State) (user_id : string) : Prop :=
  ∃ d, user_data s !! user_id = Some d ∧ clock s - connected_at d > 300.

Global Instance stale_dec s user_id : Decision (stale s user_id).
Proof.
  unfold stale. destruct (user_data s !! user_id) as [d|].
  - destruct (decide (clock s - connected_at d > 300)) as [Hgt|Hle].
    + left. by exists d.
    + right. intros (d' & [= <-] & Hgt). done.
  - right. by intros (d' & [=] & _).
Defined.

(** What the sweep does to one stale session. *)
Definition evict (user_id : string) (s : State) : State :=
  upd_user_data (delete user_id) (leave_state user_id (dequeue user_id s)).

(** Sessions "A" and "B" of [room_of_A_and_B], connected at time 100,
    and a session "N" that connected at time 350, seen at time 500. *)
Definition old_and_new_sessions : State :=
  serve_all [ClockTick 350; ReqConnect "N" "10.0.0.5"; ClockTick 500] room_of_A_and_B.

(** Every session registered in [s'] was registered in [s], with the same
    connect time and the same address. *)
Definition sessions_kept_age (s s' : State) : Prop :=
  ∀ u d', user_data s' !! u = Some d' →
          ∃ d, user_data s !! u = Some d ∧
               connected_at d' = connected_at d ∧ ip d' = ip d.
(** * Running computations *)

Lemma add_events_nil {A} (r : Res A * State * list Event) : add_events [] r = r.
Proof. by destruct r as [[? ?] ?]. Qed.

Lemma final_add_events {A} e (r : Res A * State * list Event) :
  final (add_events e r) = final r.
Proof. done. Qed.

Lemma result_add_events {A} e (r : Res A * State * list Event) :
  result (add_events e r) = result r.
Proof. done. Qed.

Lemma events_add_events {A} e (r : Res A * State * list Event) :
  events (add_events e r) = e ++ events r.
Proof. done. Qed.

Lemma bind_run {A B} (m : M A) (k : A → M B) s a s1 e1 :
  m s = (Ok a, s1, e1) → bind m k s = add_events e1 (k a s1).
Proof. intros H. unfold bind. rewrite H. by destruct (k a s1) as [[? ?] ?]. Qed.

Lemma bind_ret {A B} (a : A) (k : A → M B) s : bind (ret a) k s = k a s.
Proof. by rewrite (bind_run _ _ s a s []), add_events_nil. Qed.

Lemma bind_gets {A B} (f : State → A) (k : A → M B) s :
  bind (gets f) k s = k (f s) s.
Proof. by rewrite (bind_run _ _ s (f s) s []), add_events_nil. Qed.

Lemma bind_modify {B} (f : State → State) (k : unit → M B) s :
  bind (modify f) k s = k tt (f s).
Proof. by rewrite (bind_run _ _ s tt (f s) []), add_events_nil. Qed.

Lemma bind_emit {B} name data room (k : unit → M B) s :
  bind (emit name data room) k s = add_events [mkEvent name data room] (k tt s).
Proof. by rewrite (bind_run _ _ s tt s [mkEvent name data room]). Qed.

Lemma bind_raise {A B} exn (k : A → M B) s : bind (raise exn) k s = (Raise exn, s, []).
Proof. done. Qed.

Lemma bind_assoc {A B C} (m : M A) (k : A → M B) (h : B → M C) s :
  bind (bind m k) h s = bind m (λ a, bind (k a) h) s.
Proof.
  unfold bind. destruct (m s) as [[[a|x] s1] e1]; [|done].
  destruct (k a s1) as [[[b|y] s2] e2]; [|done].
  destruct (h b s2) as [[r s3] e3]. by rewrite app_assoc.
Qed.

Lemma when_true (m : M unit) : when true m = m.
Proof. done. Qed.

Lemma when_false (m : M unit) : when false m = ret tt.
Proof. done. Qed.

Lemma is_banned_run user_ip s :
  is_banned user_ip s = (Ok (ban_lookup s user_ip), purge_ban user_ip s, []).
Proof.
  unfold is_banned, ban_lookup, purge_ban. rewrite bind_gets.
  destruct (user_bans s !! user_ip) as [row|]; [|done].
  rewrite bind_gets. case_bool_decide; [|done].
  by rewrite bind_modify.
Qed.

Lemma bind_is_banned {B} user_ip (k : bool * option Z → M B) s :
  bind (is_banned user_ip) k s = k (ban_lookup s user_ip) (purge_ban user_ip s).
Proof. by rewrite (bind_run _ _ _ _ _ _ (is_banned_run user_ip s)), add_events_nil. Qed.

(** A lookup touches nothing but table [user_bans]. *)
Lemma purge_ban_memory user_ip s :
  waiting_users (purge_ban user_ip s) = waiting_users s ∧
  active_rooms (purge_ban user_ip s) = active_rooms s ∧
  user_rooms (purge_ban user_ip s) = user_rooms s ∧
  user_data (purge_ban user_ip s) = user_data s ∧
  room_messages (purge_ban user_ip s) = room_messages s ∧
  user_reports (purge_ban user_ip s) = user_reports s ∧
  report_log (purge_ban user_ip s) = report_log s ∧
  logs_report (purge_ban user_ip s) = logs_report s ∧
  clock (purge_ban user_ip s) = clock s.
Proof.
  unfold purge_ban. destruct (user_bans s !! user_ip); [|done].
  by case_bool_decide.
Qed.

(** * Ban lookup *)

(** C7: a lookup of an address whose BanRecord expired (its [ban_end] lies
    before the clock) answers not banned and deletes the record, leaving the
    rest of the state as it was; a lookup of an address whose BanRecord has
    not expired answers banned together with the expiry and changes
    nothing. *)
Theorem is_banned_expiry (user_ip : string) (row : BanRecord) (s : State) :
  user_bans s !! user_ip = Some row →
  (ban_end row < clock s →
     is_banned user_ip s =
       (Ok (false, None), upd_user_bans (delete user_ip) s, []) ∧
     user_bans (final (is_banned user_ip s)) !! user_ip = None) ∧
  (clock s ≤ ban_end row →
     is_banned user_ip s = (Ok (true, Some (ban_end row)), s, [])).
Proof.
  intros Hrow. rewrite is_banned_run. unfold ban_lookup, purge_ban, final.
  rewrite Hrow. split; intros Ht.
  - rewrite bool_decide_eq_true_2 by lia. split; [done|].
    simpl. apply lookup_delete_eq.
  - by rewrite bool_decide_eq_false_2 by lia.
Qed.

Lemma is_banned_expiry_witness :
  (is_banned "10.0.0.9" (banned_store 5001) =
     (Ok (false, None), upd_user_bans (delete "10.0.0.9") (banned_store 5001), []) ∧
   user_bans (final (is_banned "10.0.0.9" (banned_store 5001))) !! "10.0.0.9" = None) ∧
  is_banned "10.0.0.9" (banned_store 5000) =
     (Ok (true, Some 5000), banned_store 5000, []).
Proof.
  split.
  - apply (is_banned_expiry "10.0.0.9" (mkBan 5000 "spam" 1) (banned_store 5001));
      [reflexivity | simpl; lia].
  - apply (is_banned_expiry "10.0.0.9" (mkBan 5000 "spam" 1) (banned_store 5000));
      [reflexivity | simpl; lia].
Defined.

(** * Transcript eviction *)

(** The first loop of [cleanup_room_messages] never selects a room: the
    creation time of a room that is absent from [active_rooms] is read from
    [active_rooms], so it defaults to the current time and the age is 0. *)
Lemma cleanup_scan_selects_nothing (rooms : gmap string Room) (now : Z)
    (l acc : list string) (s : State) :
  for_each l
    (λ (to_remove : list string) (room_id : string),
       if negb (has_key room_id rooms) then
         let created_at := default now (created_at <$> rooms !! room_id) in
         if bool_decide (now - created_at > 3600)
         then ret (to_remove ++ [room_id])
         else ret to_remove
       else ret to_remove) acc s
  = (Ok acc, s, []).
Proof.
  revert acc. induction l as [|room_id l IH]; intros acc; [done|].
  cbn [for_each]. unfold has_key.
  destruct (rooms !! room_id) as [r|] eqn:Hr.
  - rewrite bool_decide_eq_true_2 by eauto. cbn [negb]. by rewrite bind_ret.
  - rewrite bool_decide_eq_false_2 by (intros [? ?]; done). cbn [negb default fmap option_fmap option_map].
    rewrite bool_decide_eq_false_2 by lia. by rewrite bind_ret.
Qed.

Lemma cleanup_room_messages_noop (s : State) :
  cleanup_room_messages s = (Ok tt, s, []).
Proof.
  unfold cleanup_room_messages.
  rewrite !bind_gets.
  rewrite (bind_run _ _ _ _ _ _ (cleanup_scan_selects_nothing _ _ _ [] s)).
  by rewrite add_events_nil.
Qed.

(** C2: the claim fails on the code.  Whatever the clock reads, one
    execution of the eviction sweep removes no transcript: a transcript
    whose room is no longer in [active_rooms] is still in [room_messages]
    afterwards, and the sweep changes nothing else either.  At the state
    [abandoned_room], a room created at time 0 and torn down at time 10
    keeps its transcript in a sweep run at time 1000000. *)
Theorem cleanup_room_messages_evicts_nothing :
  (∀ (s : State) (room_id : string) (msgs : list Msg),
     room_messages s !! room_id = Some msgs →
     active_rooms s !! room_id = None →
     room_messages (final (cleanup_room_messages s)) !! room_id = Some msgs) ∧
  active_rooms (abandoned_room 1000000) !! "r1" = None ∧
  room_messages (final (cleanup_room_messages (abandoned_room 1000000))) !! "r1"
    = Some [mkMsg "Tu" "ciao" 0].
Proof.
  split; [|split].
  - intros s room_id msgs Hm _. by rewrite cleanup_room_messages_noop.
  - by vm_compute.
  - rewrite cleanup_room_messages_noop. by vm_compute.
Qed.

(** * Compatibility score *)

Lemma list_to_set_nonempty (l : list string) :
  l ≠ [] → size (list_to_set l : gset string) ≠ 0%nat.
Proof.
  destruct l as [|x l]; [done|]. intros _ Hsz.
  apply size_empty_inv in Hsz. set_solver.
Qed.

Lemma jaccard_similarity_nonempty (A B : list string) :
  A ≠ [] → B ≠ [] →
  jaccard_similarity A B =
    (inject_Z (Z.of_nat (size ((list_to_set A : gset string) ∩ list_to_set B))) /
     inject_Z (Z.of_nat (size ((list_to_set A : gset string) ∪ list_to_set B))))%Q
  ∧ size ((list_to_set A : gset string) ∪ list_to_set B) ≠ 0%nat.
Proof.
  intros HA HB. unfold jaccard_similarity.
  rewrite !bool_decide_eq_false_2 by done. cbn [orb].
  assert (size ((list_to_set A : gset string) ∪ list_to_set B) ≠ 0%nat) as Hu.
  { intros Hsz. apply size_empty_inv in Hsz.
    apply (list_to_set_nonempty A HA). apply size_empty_iff. set_solver. }
  by rewrite bool_decide_eq_true_2.
Qed.

Lemma quotient_between_0_1 (a b : nat) :
  (a ≤ b)%nat → b ≠ 0%nat →
  (0 <= inject_Z (Z.of_nat a) / inject_Z (Z.of_nat b) <= 1)%Q.
Proof.
  intros Hab Hb.
  assert (0 < inject_Z (Z.of_nat b))%Q as Hpos.
  { change 0%Q with (inject_Z 0). rewrite <- Zlt_Qlt. lia. }
  split.
  - apply Qle_shift_div_l; [done|]. rewrite Qmult_0_l.
    change 0%Q with (inject_Z 0). rewrite <- Zle_Qle. lia.
  - apply Qle_shift_div_r; [done|]. rewrite Qmult_1_l.
    rewrite <- Zle_Qle. lia.
Qed.

(** C4: for interest lists that are not both empty the score is
    |set(A) ∩ set(B)| / |set(A) ∪ set(B)| (the union is then non-empty); the
    score lies in [0,1], is symmetric, is 0 when either list is empty and is
    1 on equal non-empty lists. *)
Theorem jaccard_similarity_properties (A B : list string) :
  let inter := size ((list_to_set A : gset string) ∩ list_to_set B) in
  let union := size ((list_to_set A : gset string) ∪ list_to_set B) in
  (A ≠ [] ∨ B ≠ [] →
     union ≠ 0%nat ∧
     (jaccard_similarity A B == inject_Z (Z.of_nat inter) / inject_Z (Z.of_nat union))%Q) ∧
  (0 <= jaccard_similarity A B <= 1)%Q ∧
  jaccard_similarity A B = jaccard_similarity B A ∧
  (A = [] ∨ B = [] → jaccard_similarity A B = 0%Q) ∧
  (A ≠ [] → (jaccard_similarity A A == 1)%Q).
Proof.
  intros inter union. subst inter union.
  assert (∀ X Y : list string, X = [] ∨ Y = [] → jaccard_similarity X Y = 0%Q) as Hempty.
  { intros X Y [-> | ->]; unfold jaccard_similarity; [done|].
    by rewrite (bool_decide_eq_true_2 ([] = [])), orb_true_r. }
  split; [|split; [|split; [|split]]].
  - intros Hne.
    destruct (decide (A = [])) as [->|HA]; [|destruct (decide (B = [])) as [->|HB]].
    + destruct Hne as [?|HB]; [done|]. split.
      * rewrite list_to_set_nil, (left_id_L ∅ (∪)). by apply list_to_set_nonempty.
      * rewrite Hempty by auto. rewrite list_to_set_nil, (left_absorb_L ∅ (∩)).
        rewrite size_empty. unfold Qdiv. by rewrite Qmult_0_l.
    + split.
      * rewrite list_to_set_nil, (right_id_L ∅ (∪)). by apply list_to_set_nonempty.
      * rewrite Hempty by auto. rewrite list_to_set_nil, (right_absorb_L ∅ (∩)).
        rewrite size_empty. unfold Qdiv. by rewrite Qmult_0_l.
    + destruct (jaccard_similarity_nonempty A B HA HB) as [-> Hu]. by split.
  - destruct (decide (A = [])) as [->|HA]; [|destruct (decide (B = [])) as [->|HB]].
    + rewrite Hempty by auto. done.
    + rewrite Hempty by auto. done.
    + destruct (jaccard_similarity_nonempty A B HA HB) as [-> Hu].
      apply quotient_between_0_1; [|done]. apply subseteq_size. set_solver.
  - unfold jaccard_similarity.
    rewrite (orb_comm (bool_decide (A = []))).
    assert ((list_to_set A : gset string) ∩ list_to_set B = list_to_set B ∩ list_to_set A)
      as -> by set_solver.
    assert ((list_to_set A : gset string) ∪ list_to_set B = list_to_set B ∪ list_to_set A)
      as -> by set_solver.
    done.
  - apply Hempty.
  - intros HA. destruct (jaccard_similarity_nonempty A A HA HA) as [-> Hu].
    revert Hu.
    assert ((list_to_set A : gset string) ∩ list_to_set A = list_to_set A)
      as -> by set_solver.
    assert ((list_to_set A : gset string) ∪ list_to_set A = list_to_set A)
      as -> by set_solver.
    intros Hu.
    apply Qmult_inv_r. change 0%Q with (inject_Z 0).
    intros Heq. unfold Qeq in Heq. simpl in Heq. lia.
Qed.

Lemma jaccard_similarity_properties_witness :
  (jaccard_similarity ["music"; "gaming"] ["gaming"] == inject_Z 1 / inject_Z 2)%Q ∧
  jaccard_similarity ["music"; "gaming"] [] = 0%Q ∧
  (jaccard_similarity ["music"; "gaming"] ["music"; "gaming"] == 1)%Q.
Proof.
  pose proof (jaccard_similarity_properties ["music"; "gaming"] ["gaming"]) as H1.
  pose proof (jaccard_similarity_properties ["music"; "gaming"] []) as H2.
  pose proof (jaccard_similarity_properties ["music"; "gaming"] ["music"; "gaming"]) as H3.
  cbv zeta in H1, H2, H3.
  destruct H1 as [H1 _], H2 as (_ & _ & _ & H2 & _), H3 as (_ & _ & _ & _ & H3).
  split; [|split].
  - apply H1. by left.
  - apply H2. by right.
  - by apply H3.
Defined.

(** * Handlers behind the admission guard *)

Ltac mstep :=
  repeat first
    [ rewrite bind_assoc | rewrite bind_gets | rewrite bind_modify
    | rewrite bind_ret | rewrite bind_is_banned | rewrite bind_emit
    | rewrite when_true | rewrite when_false
    | rewrite final_add_events | rewrite events_add_events
    | rewrite result_add_events ].

Lemma admitted_run user_id s :
  admitted user_id s = (Ok (admit_ok s user_id), admit_state user_id s, []).
Proof.
  unfold admitted, admit_ok, admit_state. rewrite bind_gets.
  destruct (user_data s !! user_id) as [d|]; [|done]. cbn.
  destruct (truthy (ip d)); [|done]. cbn.
  by rewrite bind_is_banned.
Qed.

Lemma bind_admitted {B} user_id (k : bool → M B) s :
  bind (admitted user_id) k s = k (admit_ok s user_id) (admit_state user_id s).
Proof. by rewrite (bind_run _ _ _ _ _ _ (admitted_run user_id s)), add_events_nil. Qed.

Lemma admit_state_memory user_id s :
  waiting_users (admit_state user_id s) = waiting_users s ∧
  active_rooms (admit_state user_id s) = active_rooms s ∧
  user_rooms (admit_state user_id s) = user_rooms s ∧
  user_data (admit_state user_id s) = user_data s ∧
  room_messages (admit_state user_id s) = room_messages s ∧
  user_reports (admit_state user_id s) = user_reports s ∧
  report_log (admit_state user_id s) = report_log s ∧
  logs_report (admit_state user_id s) = logs_report s ∧
  clock (admit_state user_id s) = clock s.
Proof.
  unfold admit_state. destruct (user_data s !! user_id) as [d|]; [|done].
  destruct (truthy (ip d)); [|done]. apply purge_ban_memory.
Qed.

(** * Transcripts *)

(** C9: whatever [handle_message] does to a transcript, it appends to it,
    and every entry it appends carries the sender 'Tu', whoever sent the
    message. *)
Theorem handle_message_sender_is_Tu (user_id text : string) (s : State)
    (room_id : string) :
  ∃ new : list Msg,
    room_messages (final (handle_message user_id text s)) !! room_id
      = (λ old, old ++ new) <$> room_messages s !! room_id
    ∧ Forall (λ m, sender m = "Tu") new.
Proof.
  assert (∀ s' : State, room_messages s' = room_messages s →
            ∃ new : list Msg,
              room_messages s' !! room_id
                = (λ old, old ++ new) <$> room_messages s !! room_id
              ∧ Forall (λ m, sender m = "Tu") new) as Hsame.
  { intros s' ->. exists []. split; [|done].
    destruct (room_messages s !! room_id); [|done]. cbn. by rewrite app_nil_r. }
  unfold handle_message. rewrite bind_admitted.
  destruct (admit_state_memory user_id s) as (_ & _ & _ & _ & Hm & _).
  set (s0 := admit_state user_id s) in *.
  destruct (admit_ok s user_id); cbn [negb]; [|by apply Hsame].
  rewrite bind_gets.
  destruct (user_rooms s0 !! user_id) as [rid|]; [|by apply Hsame].
  rewrite bind_gets.
  destruct (active_rooms s0 !! rid) as [r|]; [|by apply Hsame].
  destruct (truthy_opt _); [|by apply Hsame].
  rewrite bind_gets.
  set (p := default "" (head (filter (λ uid, uid ≠ user_id) (users r)))).
  assert (∃ b s1, (if truthy_opt (ip <$> user_data s0 !! p)
                   then bind (is_banned (default "" (ip <$> user_data s0 !! p)))
                          (λ b, ret b.1)
                   else ret false) s0 = (Ok b, s1, []) ∧
                  room_messages s1 = room_messages s) as (b & s1 & Hrun & Hm1).
  { destruct (truthy_opt _).
    - rewrite bind_is_banned. eexists _, _. split; [done|].
      rewrite <- Hm. apply purge_ban_memory.
    - by eexists _, _. }
  rewrite (bind_run _ _ _ _ _ _ Hrun), add_events_nil.
  destruct b; cbn [negb]; [by apply Hsame|].
  mstep.
  destruct (room_messages s1 !! rid) as [msgs|] eqn:Hrid; [|by apply Hsame].
  unfold modify, final. cbn.
  rewrite bool_decide_eq_true_2 by done.
  destruct (decide (rid = room_id)) as [->|Hne].
  - rewrite lookup_insert_eq, <- Hm1, Hrid. cbn.
    eexists. split; [done|]. by repeat constructor.
  - rewrite lookup_insert_ne by done. rewrite Hm1.
    exists []. split; [|done].
    destruct (room_messages s !! room_id); [|done]. cbn. by rewrite app_nil_r.
Qed.

(** * Leaving a room *)

Lemma leave_current_room_run user_id s :
  leave_current_room user_id s = (Ok tt, leave_state user_id s, leave_events user_id s).
Proof.
  unfold leave_current_room, leave_state, leave_events, partner_of.
  rewrite bind_gets.
  destruct (user_rooms s !! user_id) as [room_id|]; [|done].
  rewrite bind_gets.
  destruct (active_rooms s !! room_id) as [r|].
  - destruct (head (filter (λ uid, uid ≠ user_id) (users r))) as [p|]; cbn.
    + destruct (truthy p); cbn; by mstep.
    + by mstep.
  - by mstep.
Qed.

Lemma bind_leave_current_room {B} user_id (k : unit → M B) s :
  bind (leave_current_room user_id) k s
  = add_events (leave_events user_id s) (k tt (leave_state user_id s)).
Proof. by rewrite (bind_run _ _ _ _ _ _ (leave_current_room_run user_id s)). Qed.

(** Leaving touches [user_rooms] and [active_rooms] only. *)
Lemma leave_state_other user_id s :
  waiting_users (leave_state user_id s) = waiting_users s ∧
  user_data (leave_state user_id s) = user_data s ∧
  room_messages (leave_state user_id s) = room_messages s ∧
  user_bans (leave_state user_id s) = user_bans s ∧
  user_reports (leave_state user_id s) = user_reports s ∧
  report_log (leave_state user_id s) = report_log s ∧
  logs_report (leave_state user_id s) = logs_report s ∧
  clock (leave_state user_id s) = clock s.
Proof.
  unfold leave_state.
  destruct (user_rooms s !! user_id) as [room_id|]; [|done].
  destruct (active_rooms s !! room_id); [|done].
  by destruct (partner_of user_id s).
Qed.

(** Bindings are only ever removed by leaving, and the leaver's is. *)
Lemma leave_state_user_rooms user_id s u :
  user_rooms (leave_state user_id s) !! u =
    if decide (u = user_id) then None
    else match user_rooms s !! user_id with
         | Some room_id =>
             match active_rooms s !! room_id, partner_of user_id s with
             | Some _, Some p => if decide (u = p) then None else user_rooms s !! u
             | _, _ => user_rooms s !! u
             end
         | None => user_rooms s !! u
         end.
Proof.
  unfold leave_state.
  destruct (user_rooms s !! user_id) as [room_id|] eqn:Hu.
  - cbn. destruct (decide (u = user_id)) as [->|Hne].
    + apply lookup_delete_eq.
    + rewrite lookup_delete_ne by done.
      destruct (active_rooms s !! room_id); [|done]. cbn.
      destruct (partner_of user_id s) as [p|]; [|done]. cbn.
      destruct (decide (u = p)) as [->|Hp].
      * apply lookup_delete_eq.
      * by rewrite lookup_delete_ne.
  - destruct (decide (u = user_id)) as [->|Hne]; done.
Qed.

Lemma leave_state_active_rooms user_id s room_id :
  user_rooms s !! user_id = Some room_id →
  active_rooms (leave_state user_id s) = delete room_id (active_rooms s).
Proof.
  intros Hu. unfold leave_state. rewrite Hu. cbn.
  destruct (active_rooms s !! room_id) eqn:Hr.
  - cbn. by destruct (partner_of user_id s).
  - by rewrite delete_id.
Qed.

(** * Bans and reports *)

Lemma bind_when_dequeue {B} user_id (k : unit → M B) s :
  bind (when (list_in user_id (waiting_users s))
          (modify (upd_waiting_users (list_remove user_id)))) k s
  = k tt (dequeue user_id s).
Proof.
  unfold dequeue. destruct (list_in user_id (waiting_users s)); by mstep.
Qed.

Ltac mrun :=
  repeat first
    [ progress mstep | rewrite bind_when_dequeue | rewrite bind_leave_current_room
    | rewrite bind_admitted ].

Lemma dequeue_other user_id s :
  active_rooms (dequeue user_id s) = active_rooms s ∧
  user_rooms (dequeue user_id s) = user_rooms s ∧
  user_data (dequeue user_id s) = user_data s ∧
  room_messages (dequeue user_id s) = room_messages s ∧
  user_bans (dequeue user_id s) = user_bans s ∧
  user_reports (dequeue user_id s) = user_reports s ∧
  report_log (dequeue user_id s) = report_log s ∧
  logs_report (dequeue user_id s) = logs_report s ∧
  clock (dequeue user_id s) = clock s.
Proof. unfold dequeue. by destruct (list_in _ _). Qed.

Lemma dequeue_utc_offset user_id s : utc_offset (dequeue user_id s) = utc_offset s.
Proof. unfold dequeue. by destruct (list_in _ _). Qed.

Lemma leave_state_utc_offset user_id s :
  utc_offset (leave_state user_id s) = utc_offset s.
Proof.
  unfold leave_state.
  destruct (user_rooms s !! user_id) as [room_id|]; [|done].
  destruct (active_rooms s !! room_id); [|done].
  by destruct (partner_of user_id s).
Qed.

Lemma timedelta_run {B} seconds (k : Z → M B) s :
  bind (timedelta seconds) k s =
    if bool_decide (- timedelta_max_days ≤ seconds / 86400 ≤ timedelta_max_days)
    then k seconds s else (Raise "OverflowError", s, []).
Proof. unfold timedelta. case_bool_decide; [apply bind_ret | apply bind_raise]. Qed.

Lemma datetime_add_run {B} dt delta (k : Z → M B) s :
  bind (datetime_add dt delta) k s =
    if bool_decide (0 ≤ dt + delta ≤ datetime_max)
    then k (dt + delta) s else (Raise "OverflowError", s, []).
Proof. unfold datetime_add. case_bool_decide; [apply bind_ret | apply bind_raise]. Qed.

Lemma ban_user_run ip reason sid_to_cleanup s :
  ban_user ip reason sid_to_cleanup s
  = if ban_overflows s ip then (Raise "OverflowError", s, [])
    else (Ok tt, ban_state ip reason sid_to_cleanup s,
          ban_events ip reason sid_to_cleanup s).
Proof.
  unfold ban_user, ban_overflows.
  rewrite !bind_gets, timedelta_run.
  case_bool_decide as Hdelta; cbn [andb negb]; [|done].
  rewrite datetime_add_run.
  case_bool_decide as Hend; cbn [andb negb]; [|done].
  unfold ban_state, ban_events, cleanup_expired_bans.
  rewrite bind_modify.
  fold (next_ban s ip reason).
  destruct (truthy_opt sid_to_cleanup); mrun.
  - unfold modify, add_events, sweep_bans. cbn.
    set (sid := default "" sid_to_cleanup).
    set (s1 := upd_user_bans <[ip:=next_ban s ip reason]> s).
    rewrite leave_state_utc_offset, dequeue_utc_offset.
    destruct (leave_state_other sid (dequeue sid s1))
      as (_ & _ & _ & _ & _ & _ & _ & ->).
    destruct (dequeue_other sid s1)
      as (_ & _ & _ & _ & _ & _ & _ & _ & ->).
    cbn. do 2 f_equal.
    unfold leave_events, partner_of, dequeue.
    by destruct (list_in _ _).
  - done.
Qed.


Lemma truthy_true (x : string) : x ≠ "" → truthy x = true.
Proof. intros H. unfold truthy. by rewrite bool_decide_eq_false_2. Qed.


(** ** Removing from the queue *)

Lemma list_remove_absent (x : string) (l : list string) :
  x ∉ l → list_remove x l = l.
Proof.
  induction l as [|y l IH]; [done|]. intros Hx. cbn.
  rewrite bool_decide_eq_false_2 by set_solver.
  f_equal. apply IH. set_solver.
Qed.

Lemma list_remove_subset (x y : string) (l : list string) :
  y ∈ list_remove x l → y ∈ l.
Proof.
  induction l as [|z l IH]; [done|]. cbn.
  case_bool_decide; set_solver.
Qed.

Lemma list_remove_keeps (x y : string) (l : list string) :
  y ≠ x → y ∈ l → y ∈ list_remove x l.
Proof.
  intros Hne. induction l as [|z l IH]; [done|]. cbn.
  case_bool_decide; set_solver.
Qed.

Lemma list_remove_NoDup (x : string) (l : list string) :
  NoDup l → NoDup (list_remove x l) ∧ x ∉ list_remove x l.
Proof.
  induction 1 as [|z l Hz Hl IH]; cbn.
  - split; [constructor | set_solver].
  - case_bool_decide as Hzx.
    + subst z. done.
    + destruct IH as [IH1 IH2]. split.
      * constructor; [|done]. intros Hin. by apply list_remove_subset in Hin.
      * set_solver.
Qed.

Lemma dequeue_waiting user_id s :
  waiting_users (dequeue user_id s) = list_remove user_id (waiting_users s).
Proof.
  unfold dequeue, list_in. case_bool_decide; [done|].
  by rewrite list_remove_absent.
Qed.

(** ** Tearing a room down *)

Lemma paired_partner s room_id a b :
  paired s room_id a b → partner_of a s = Some b.
Proof.
  intros (Hab & Ha & Hb & (r & Hr & Hu) & Hra & Hrb).
  unfold partner_of. rewrite Hra, Hr.
  assert (head (filter (λ uid, uid ≠ a) (users r)) = Some b) as ->.
  { destruct Hu as [-> | ->].
    - rewrite filter_cons_False by naive_solver.
      by rewrite filter_cons_True by naive_solver.
    - by rewrite filter_cons_True by naive_solver. }
  by rewrite truthy_true.
Qed.

Lemma paired_sym s room_id a b : paired s room_id a b → paired s room_id b a.
Proof. unfold paired. naive_solver. Qed.

Lemma leave_state_paired s room_id a b :
  paired s room_id a b →
  torn_down (leave_state a s) room_id a b ∧
  leave_events a s = [mkEvent "partner_disconnected" NoData (ToSid b)].
Proof.
  intros Hp. pose proof (paired_partner _ _ _ _ Hp) as Hpart.
  destruct Hp as (Hab & Ha & Hb & (r & Hr & Hu) & Hra & Hrb).
  unfold torn_down. split; [split; [|split]|].
  - rewrite (leave_state_active_rooms _ _ _ Hra). apply lookup_delete_eq.
  - rewrite leave_state_user_rooms. by rewrite decide_True.
  - rewrite leave_state_user_rooms. rewrite decide_False by done.
    rewrite Hra, Hr, Hpart. by rewrite decide_True.
  - unfold leave_events. by rewrite Hpart.
Qed.

Lemma disconnect_notices_app p e1 e2 :
  disconnect_notices p (e1 ++ e2) = (disconnect_notices p e1 + disconnect_notices p e2)%nat.
Proof. unfold disconnect_notices. by rewrite filter_app, length_app. Qed.

Lemma disconnect_notices_one p :
  disconnect_notices p [mkEvent "partner_disconnected" NoData (ToSid p)] = 1%nat.
Proof. unfold disconnect_notices. by rewrite filter_cons_True. Qed.

Lemma disconnect_notices_other p name data room :
  name ≠ "partner_disconnected" →
  disconnect_notices p [mkEvent name data room] = 0%nat.
Proof.
  intros Hn. unfold disconnect_notices. rewrite filter_cons_False; [done|].
  cbn. naive_solver.
Qed.

(** ** The state after a ban *)

Lemma ban_state_user_bans ip reason sid_to_cleanup s :
  user_bans (ban_state ip reason sid_to_cleanup s) =
    filter (λ kv, ¬ text_before (ban_end kv.2) (clock s - utc_offset s))
      (<[ip := next_ban s ip reason]> (user_bans s)).
Proof.
  unfold ban_state, sweep_bans. cbn [user_bans upd_user_bans].
  set (s1 := upd_user_bans _ s).
  set (s2 := if truthy_opt sid_to_cleanup then _ else _).
  assert (user_bans s2 = <[ip := next_ban s ip reason]> (user_bans s) ∧
          clock s2 = clock s ∧ utc_offset s2 = utc_offset s) as (-> & -> & ->); [|done].
  subst s2. destruct (truthy_opt sid_to_cleanup); [|done].
  rewrite leave_state_utc_offset, dequeue_utc_offset.
  destruct (leave_state_other (default "" sid_to_cleanup)
              (dequeue (default "" sid_to_cleanup) s1))
    as (_ & _ & _ & -> & _ & _ & _ & ->).
  destruct (dequeue_other (default "" sid_to_cleanup) s1)
    as (_ & _ & _ & _ & -> & _ & _ & _ & ->). done.
Qed.

Lemma ban_state_record ip reason sid_to_cleanup s :
  kept_by_sweep s (ban_end (next_ban s ip reason)) →
  user_bans (ban_state ip reason sid_to_cleanup s) !! ip = Some (next_ban s ip reason).
Proof.
  intros Hkept. rewrite ban_state_user_bans.
  apply map_lookup_filter_Some. split; [apply lookup_insert_eq|].
  unfold text_before, kept_by_sweep in *. cbn [snd]. lia.
Qed.

Lemma ban_state_cleanup ip reason sid s :
  sid ≠ "" →
  waiting_users (ban_state ip reason (Some sid) s) = list_remove sid (waiting_users s) ∧
  user_rooms (ban_state ip reason (Some sid) s) = user_rooms (leave_state sid s) ∧
  active_rooms (ban_state ip reason (Some sid) s) = active_rooms (leave_state sid s) ∧
  leave_events sid (dequeue sid s) = leave_events sid s.
Proof.
  intros Hsid. unfold ban_state, sweep_bans.
  cbn [truthy_opt default from_option id]. rewrite truthy_true by done.
  set (s1 := upd_user_bans _ s).
  cbn [waiting_users user_rooms active_rooms upd_user_bans].
  destruct (leave_state_other sid (dequeue sid s1)) as (-> & _).
  rewrite dequeue_waiting.
  assert (∀ s0 s0', user_rooms s0 = user_rooms s0' → active_rooms s0 = active_rooms s0' →
            user_rooms (leave_state sid s0) = user_rooms (leave_state sid s0') ∧
            active_rooms (leave_state sid s0) = active_rooms (leave_state sid s0') ∧
            leave_events sid s0 = leave_events sid s0') as Hcong.
  { intros s0 s0' Hu Ha. unfold leave_state, leave_events, partner_of. rewrite Hu, Ha.
    destruct (user_rooms s0' !! sid) as [rid|]; [|done].
    destruct (active_rooms s0' !! rid) as [r|]; [|by cbn; rewrite Hu, Ha].
    destruct (head _) as [p|]; [|by cbn; rewrite Hu, Ha].
    destruct (truthy p); cbn; by rewrite Hu, Ha. }
  destruct (dequeue_other sid s1) as (Ha1 & Hu1 & _).
  destruct (dequeue_other sid s) as (Ha0 & Hu0 & _).
  destruct (Hcong (dequeue sid s1) s) as (-> & -> & _); [by rewrite Hu1|by rewrite Ha1|].
  destruct (Hcong (dequeue sid s) s) as (_ & _ & ->); done.
Qed.

Lemma leave_state_ext user_id s s' :
  user_rooms s = user_rooms s' → active_rooms s = active_rooms s' →
  user_rooms (leave_state user_id s) = user_rooms (leave_state user_id s') ∧
  active_rooms (leave_state user_id s) = active_rooms (leave_state user_id s') ∧
  leave_events user_id s = leave_events user_id s'.
Proof.
  intros Hu Ha. unfold leave_state, leave_events, partner_of. rewrite Hu, Ha.
  destruct (user_rooms s' !! user_id) as [rid|]; [|done].
  destruct (active_rooms s' !! rid) as [r|]; [|by cbn; rewrite Hu, Ha].
  destruct (head _) as [p|]; [|by cbn; rewrite Hu, Ha].
  destruct (truthy p); cbn; by rewrite Hu, Ha.
Qed.

Lemma paired_ext s s' room_id a b :
  user_rooms s = user_rooms s' → active_rooms s = active_rooms s' →
  paired s room_id a b → paired s' room_id a b.
Proof. unfold paired. intros <- <-. done. Qed.

Lemma torn_down_ext s s' room_id a b :
  user_rooms s = user_rooms s' → active_rooms s = active_rooms s' →
  torn_down s room_id a b → torn_down s' room_id a b.
Proof. unfold torn_down. intros <- <-. done. Qed.





(** The outcome of a ban that cleans up session [sid]. *)
Lemma ban_user_outcome ip reason sid s :
  sid ≠ "" →
  ban_overflows s ip = false →
  let r := ban_user ip reason (Some sid) s in
  result r = Ok tt ∧
  (kept_by_sweep s (ban_end (next_ban s ip reason)) →
     user_bans (final r) !! ip = Some (next_ban s ip reason)) ∧
  waiting_users (final r) = list_remove sid (waiting_users s) ∧
  user_rooms (final r) !! sid = None ∧
  events r = leave_events sid s ++
    [mkEvent "force_disconnect"
       (ForceDisconnectData (ban_end (next_ban s ip reason)) reason) (ToSid sid)] ∧
  (∀ room_id partner, paired s room_id sid partner →
     torn_down (final r) room_id sid partner ∧
     disconnect_notices partner (events r) = 1%nat).
Proof.
  intros Hsid Hfits r. subst r. rewrite ban_user_run, Hfits.
  unfold final, events, result. cbn [fst snd].
  destruct (ban_state_cleanup ip reason sid s Hsid) as (Hw & Hu & Ha & He).
  assert (ban_events ip reason (Some sid) s = leave_events sid s ++
    [mkEvent "force_disconnect"
       (ForceDisconnectData (ban_end (next_ban s ip reason)) reason) (ToSid sid)]) as Hev.
  { unfold ban_events. cbn [truthy_opt default from_option id].
    by rewrite truthy_true, He. }
  split; [done|]. split; [apply ban_state_record|]. split; [done|].
  split; [rewrite Hu, leave_state_user_rooms; by rewrite decide_True|].
  split; [done|].
  intros room_id partner Hp.
  destruct (leave_state_paired _ _ _ _ Hp) as [Ht Hl]. split.
  - by apply (torn_down_ext (leave_state sid s)).
  - rewrite Hev, Hl, disconnect_notices_app, disconnect_notices_one.
    by rewrite disconnect_notices_other.
Qed.

(** * Escalating bans *)






(** C3: the claim fails on the code by a slip of [ban_user].  "X" was
    matched with "Y" at noon of 3 November 2026 and has reported "Y" 37
    times since: the tenth report banned the address of "Y" and each later
    one banned it again, doubling the duration, up to ban count 28.  The
    38th report is accepted and counted, its count of 38 is beyond the
    threshold, yet [ban_user] raises [OverflowError] on the expiry, 1800
    times 2 to the 28 seconds from now: no ban is written, the stored ban
    count stays 28, and no [force_disconnect] is sent. *)
Theorem threshold_report_writes_no_ban :
  let s := reports_in_2026 37 in
  let r := handle_report_user "X" spam_report s in
  reports_against s "10.0.0.2" = 37%nat ∧
  user_bans s !! "10.0.0.2" = Some (mkBan (noon_2026_11_03 + 1800 * 2 ^ 27) "spam" 28) ∧
  admit_ok s "X" = true ∧
  result r = Raise "OverflowError" ∧
  reports_against (final r) "10.0.0.2" = 38%nat ∧
  user_bans (final r) = user_bans s ∧
  events r = [].
Proof. cbv zeta. split_and!; by vm_compute. Qed.

(** * Leaving a room: next, disconnect, ban *)

Lemma emit_stats_run s : emit_stats s = (Ok tt, s, [stats_event s]).
Proof. unfold emit_stats. by rewrite !bind_gets. Qed.

Lemma bind_emit_stats {B} (k : unit → M B) s :
  bind emit_stats k s = add_events [stats_event s] (k tt s).
Proof. by rewrite (bind_run _ _ _ _ _ _ (emit_stats_run s)). Qed.

Lemma handle_next_partner_run user_id s :
  handle_next_partner user_id s =
    if admit_ok s user_id then
      let s1 := admit_state user_id s in
      (Ok tt, leave_state user_id s1,
       leave_events user_id s1 ++ [stats_event (leave_state user_id s1)])
    else (Ok tt, admit_state user_id s, []).
Proof.
  unfold handle_next_partner. rewrite bind_admitted.
  destruct (admit_ok s user_id); cbn [negb]; [|done].
  rewrite bind_leave_current_room, emit_stats_run. done.
Qed.

Lemma handle_disconnect_run user_id s :
  handle_disconnect user_id s =
    let s1 := dequeue user_id s in
    let s2 := upd_user_data (delete user_id) (leave_state user_id s1) in
    (Ok tt, s2, leave_events user_id s1 ++ [stats_event s2]).
Proof.
  unfold handle_disconnect. rewrite bind_gets, bind_when_dequeue.
  rewrite bind_leave_current_room, bind_modify, emit_stats_run. done.
Qed.

Lemma handle_change_mode_run user_id s :
  handle_change_mode user_id s = handle_disconnect user_id s.
Proof. done. Qed.

(** C8, as the code has it: in an active room whose two members [a] and
    [b] are both bound to it, [a] leaving by [next_partner] (when the
    admission guard lets the request through), by disconnecting, or as the
    session cleaned up by a ban whose expiry is a date-time [datetime] can
    hold, sends [b] exactly one [partner_disconnected] notice, removes the
    room from [active_rooms] and clears both bindings. *)
Theorem leaving_tears_room_down (s : State) (room_id a b : string) :
  paired s room_id a b →
  (admit_ok s a = true →
     disconnect_notices b (events (handle_next_partner a s)) = 1%nat ∧
     torn_down (final (handle_next_partner a s)) room_id a b) ∧
  (disconnect_notices b (events (handle_disconnect a s)) = 1%nat ∧
   torn_down (final (handle_disconnect a s)) room_id a b) ∧
  (∀ ip reason,
     ban_overflows s ip = false →
     disconnect_notices b (events (ban_user ip reason (Some a) s)) = 1%nat ∧
     torn_down (final (ban_user ip reason (Some a) s)) room_id a b).
Proof.
  intros Hp. split; [|split].
  - intros Hok. rewrite handle_next_partner_run, Hok. cbv zeta.
    unfold final, events. cbn [fst snd].
    destruct (admit_state_memory a s) as (_ & Ha & Hu & _).
    assert (paired (admit_state a s) room_id a b) as Hp'
      by (by apply (paired_ext s)).
    destruct (leave_state_paired _ _ _ _ Hp') as [Ht ->]. split; [|done].
    rewrite disconnect_notices_app, disconnect_notices_one.
    unfold stats_event. by rewrite disconnect_notices_other.
  - rewrite handle_disconnect_run. cbv zeta. unfold final, events. cbn [fst snd].
    destruct (dequeue_other a s) as (Ha & Hu & _).
    assert (paired (dequeue a s) room_id a b) as Hp'
      by (by apply (paired_ext s)).
    destruct (leave_state_paired _ _ _ _ Hp') as [Ht ->]. split.
    + rewrite disconnect_notices_app, disconnect_notices_one.
      unfold stats_event. by rewrite disconnect_notices_other.
    + by apply (torn_down_ext (leave_state a (dequeue a s))).
  - intros ip reason Hfits.
    destruct Hp as (Hab & Ha & Hrest).
    destruct (ban_user_outcome ip reason a s Ha Hfits) as (_ & _ & _ & _ & _ & Hpair).
    destruct (Hpair room_id b) as [Ht Hn]; [done|]. done.
Qed.

Lemma leaving_tears_room_down_witness :
  disconnect_notices "Y" (events (handle_next_partner "X" matched_pair)) = 1%nat ∧
  torn_down (final (handle_disconnect "X" matched_pair)) "r1" "X" "Y" ∧
  torn_down (final (ban_user "10.0.0.1" "spam" (Some "X") matched_pair)) "r1" "X" "Y".
Proof.
  assert (paired matched_pair "r1" "X" "Y") as Hp.
  { split; [done|]. split; [done|]. split; [done|]. split; [|split].
    - eexists. split; [by vm_compute | by left].
    - by vm_compute.
    - by vm_compute. }
  destruct (leaving_tears_room_down matched_pair "r1" "X" "Y" Hp) as (Hn & Hd & Hb).
  split; [|split].
  - apply Hn. by vm_compute.
  - apply Hd.
  - apply Hb. by vm_compute.
Defined.

(** C8 as stated fails on the code: in [shared_address_ban] the room "r1"
    of "A" and "B" is intact although the address of "A" has been banned,
    and a [next_partner] from "A" changes nothing and notifies nobody. *)
Lemma banned_member_next_partner_ignored :
  paired shared_address_ban "r1" "A" "B" ∧
  (ban_lookup shared_address_ban (address_of shared_address_ban "A")).1 = true ∧
  handle_next_partner "A" shared_address_ban = (Ok tt, shared_address_ban, []) ∧
  ¬ torn_down (final (handle_next_partner "A" shared_address_ban)) "r1" "A" "B".
Proof.
  split; [|split; [|split]].
  - split; [done|]. split; [done|]. split; [done|]. split; [|split].
    + eexists. split; [by vm_compute | by left].
    + by vm_compute.
    + by vm_compute.
  - by vm_compute.
  - by vm_compute.
  - intros (H & _). vm_compute in H. done.
Qed.

(** * Rejected reports *)

Lemma purge_ban_writes_nothing user_ip s a row :
  user_bans (purge_ban user_ip s) !! a = Some row → user_bans s !! a = Some row.
Proof.
  unfold purge_ban. destruct (user_bans s !! user_ip) as [r|]; [|done].
  case_bool_decide; [|done]. cbn.
  intros Hdel. apply lookup_delete_Some in Hdel. naive_solver.
Qed.

Lemma admit_state_writes_nothing user_id s a row :
  user_bans (admit_state user_id s) !! a = Some row → user_bans s !! a = Some row.
Proof.
  unfold admit_state. destruct (user_data s !! user_id) as [d|]; [|done].
  destruct (truthy (ip d)); [|done]. apply purge_ban_writes_nothing.
Qed.

Lemma admit_state_address user_id s u :
  address_of (admit_state user_id s) u = address_of s u.
Proof.
  unfold address_of. by destruct (admit_state_memory user_id s) as (_ & _ & _ & -> & _).
Qed.

Lemma truthy_opt_address s u :
  truthy_opt (ip <$> user_data s !! u) = truthy (address_of s u).
Proof. unfold address_of. by destruct (user_data s !! u). Qed.

(** The three checks of [report_user]: each sends one error to the
    reporter and returns with the state as it was. *)
Lemma report_user_rejects reporter_sid reported_sid reason comment s :
  reported_sid = reporter_sid ∨ address_of s reported_sid = "" ∨
  address_of s reporter_sid = "" ∨ reason ∉ VALID_REPORT_REASONS →
  ∃ msg, report_user reporter_sid reported_sid reason comment s
         = (Ok tt, s, [mkEvent "error" (ErrorData msg) (ToSid reporter_sid)]).
Proof.
  intros Hrej. unfold report_user.
  case_bool_decide as Hself; [by eexists|].
  rewrite !bind_gets, !truthy_opt_address.
  destruct (truthy (address_of s reported_sid)) eqn:Hd; cbn [negb orb]; [|by eexists].
  destruct (truthy (address_of s reporter_sid)) eqn:Hr; cbn [negb orb]; [|by eexists].
  unfold list_in. case_bool_decide as Hin; cbn [negb]; [|by eexists].
  exfalso. unfold truthy in Hd, Hr.
  destruct Hrej as [?|[Hx|[Hx|?]]]; try done.
  - by rewrite Hx in Hd.
  - by rewrite Hx in Hr.
Qed.

(** C6, as the code has it: a [report_user] event whose target is missing
    or is the reporter itself, whose target has no resolvable address, or
    whose reason is not one of the six codes, and any report from a sender
    the admission guard turns away (no resolvable address, or banned),
    increments no report count, appends no log entry, persists no transcript
    and writes no ban; the containers in memory stay as they were.  A sender
    that passes the guard receives exactly one error event; a sender that
    does not receives nothing. *)
Theorem rejected_report_changes_nothing (user_id : string) (data : ReportData)
    (s : State) :
  let reported := default "" (data_reported_id data) in
  let reason := default "" (data_reason data) in
  let r := handle_report_user user_id data s in
  reported = "" ∨ reported = user_id ∨ address_of s reported = "" ∨
    reason ∉ VALID_REPORT_REASONS ∨ admit_ok s user_id = false →
  (admit_ok s user_id = true →
     ∃ msg, events r = [mkEvent "error" (ErrorData msg) (ToSid user_id)]) ∧
  (admit_ok s user_id = false → events r = []) ∧
  user_reports (final r) = user_reports s ∧
  report_log (final r) = report_log s ∧
  logs_report (final r) = logs_report s ∧
  (∀ a row, user_bans (final r) !! a = Some row → user_bans s !! a = Some row) ∧
  waiting_users (final r) = waiting_users s ∧
  active_rooms (final r) = active_rooms s ∧
  user_rooms (final r) = user_rooms s ∧
  user_data (final r) = user_data s ∧
  room_messages (final r) = room_messages s.
Proof.
  intros reported reason r Hrej. subst r.
  unfold handle_report_user. rewrite bind_admitted.
  destruct (admit_state_memory user_id s) as (Hw & Ha & Hu & Hd & Hm & Hr & Hl & Hf & Hc).
  assert (∀ evs, let r := (Ok tt, admit_state user_id s, evs) : Res unit * State * list Event in
            user_reports (final r) = user_reports s ∧
            report_log (final r) = report_log s ∧
            logs_report (final r) = logs_report s ∧
            (∀ a row, user_bans (final r) !! a = Some row → user_bans s !! a = Some row) ∧
            waiting_users (final r) = waiting_users s ∧
            active_rooms (final r) = active_rooms s ∧
            user_rooms (final r) = user_rooms s ∧
            user_data (final r) = user_data s ∧
            room_messages (final r) = room_messages s) as Hframe.
  { intros evs. cbv zeta. unfold final. cbn [fst snd].
    repeat split; try done. apply admit_state_writes_nothing. }
  destruct (admit_ok s user_id) eqn:Hok; cbn [negb].
  - assert (∃ msg, (if truthy_opt (data_reported_id data) &&
                       bool_decide (data_reported_id data ≠ Some user_id)
                    then report_user user_id (default "" (data_reported_id data))
                           (default "" (data_reason data))
                           (default "" (data_comment data))
                    else emit "error" (ErrorData "ID utente non valido") (ToSid user_id))
                     (admit_state user_id s)
                   = (Ok tt, admit_state user_id s,
                      [mkEvent "error" (ErrorData msg) (ToSid user_id)])) as [msg ->].
    { destruct (truthy_opt (data_reported_id data)) eqn:Ht; cbn [andb]; [|by eexists].
      case_bool_decide as Hne; [|by eexists].
      apply report_user_rejects. rewrite admit_state_address.
      fold reported reason.
      destruct Hrej as [Hx|[Hx|[Hx|[Hx|Hx]]]].
      - exfalso. subst reported. destruct (data_reported_id data) as [x|]; [|done].
        cbn in Hx, Ht. by subst x.
      - by left.
      - right. by left.
      - right. right. by right.
      - done. }
    split; [by eexists|]. split; [done|]. apply Hframe.
  - split; [done|]. split; [done|]. apply Hframe.
Qed.

Lemma rejected_report_changes_nothing_witness :
  (∃ msg, events (handle_report_user "X" (mkReportData (Some "Y") (Some "rude") None)
                    matched_pair)
          = [mkEvent "error" (ErrorData msg) (ToSid "X")]) ∧
  user_reports (final (handle_report_user "X" (mkReportData (Some "Y") (Some "rude") None)
                         matched_pair)) = user_reports matched_pair.
Proof.
  destruct (rejected_report_changes_nothing "X"
              (mkReportData (Some "Y") (Some "rude") None) matched_pair)
    as (He & _ & Hr & _).
  - right. right. right. left. cbn. unfold VALID_REPORT_REASONS.
    intros Hin. repeat (apply elem_of_cons in Hin as [Hin|Hin]; [done|]).
    by apply elem_of_nil in Hin.
  - split; [|exact Hr]. apply He. by vm_compute.
Defined.

(** C6 as stated fails on the code: "A" switched mode, so its address no
    longer resolves; its report against the registered session "B", with a
    valid reason, is dropped without any event. *)
Lemma unresolved_reporter_gets_no_error :
  address_of after_change_mode "A" = "" ∧
  address_of after_change_mode "B" = "10.0.0.2" ∧
  handle_report_user "A" (mkReportData (Some "B") (Some "spam") (Some ""))
    after_change_mode = (Ok tt, after_change_mode, []).
Proof. by vm_compute. Qed.

(** * The descending stable sort *)

Section sort_desc.
Context {A : Type}.
Implicit Types (x y : Q * A) (l : list (Q * A)).

Lemma insert_desc_perm x l : insert_desc x l ≡ₚ x :: l.
Proof.
  induction l as [|y l IH]; [done|]. cbn.
  destruct (Qle_bool y.1 x.1); [done|].
  rewrite IH. apply Permutation_swap.
Qed.

Lemma sort_desc_perm l : sort_desc l ≡ₚ l.
Proof.
  induction l as [|x l IH]; [done|].
  cbn. rewrite insert_desc_perm. by rewrite IH.
Qed.

Lemma insert_desc_sorted x l :
  StronglySorted key_desc l → StronglySorted key_desc (insert_desc x l).
Proof.
  induction l as [|y l IH]; intros Hl.
  - cbn. repeat constructor.
  - cbn. apply StronglySorted_cons in Hl as [Hy Hl].
    destruct (Qle_bool y.1 x.1) eqn:Hle.
    + apply Qle_bool_iff in Hle.
      apply StronglySorted_cons. split.
      * constructor; [done|].
        eapply Forall_impl; [exact Hy|]. intros z Hz. unfold key_desc in *.
        by apply (Qle_trans _ y.1).
      * by apply StronglySorted_cons.
    + assert (x.1 < y.1)%Q as Hlt.
      { apply Qnot_le_lt. intros Hc. apply Qle_bool_iff in Hc. congruence. }
      apply StronglySorted_cons. split; [|by apply IH].
      rewrite insert_desc_perm. constructor; [|done].
      unfold key_desc. by apply Qlt_le_weak.
Qed.

Lemma sort_desc_sorted l : StronglySorted key_desc (sort_desc l).
Proof.
  induction l as [|x l IH]; [constructor|].
  cbn. by apply insert_desc_sorted.
Qed.

(** Inserting passes over elements with a strictly larger key only, so
    the elements of any one key keep their order. *)
Lemma insert_desc_stable (q : Q) x l :
  filter (λ y, (y.1 == q)%Q) (insert_desc x l) = filter (λ y, (y.1 == q)%Q) (x :: l).
Proof.
  induction l as [|y l IH]; [done|]. cbn.
  destruct (Qle_bool y.1 x.1) eqn:Hle; [done|].
  assert (x.1 < y.1)%Q as Hlt.
  { apply Qnot_le_lt. intros Hc. apply Qle_bool_iff in Hc. congruence. }
  rewrite (filter_cons _ y), IH, !filter_cons.
  destruct (decide (y.1 == q)%Q) as [Hy|Hy], (decide (x.1 == q)%Q) as [Hx|Hx]; try done.
  exfalso. rewrite Hx, Hy in Hlt. by apply Qlt_irrefl in Hlt.
Qed.

Lemma sort_desc_stable (q : Q) l :
  filter (λ y, (y.1 == q)%Q) (sort_desc l) = filter (λ y, (y.1 == q)%Q) l.
Proof.
  induction l as [|x l IH]; [done|].
  cbn [sort_desc foldr]. rewrite insert_desc_stable.
  rewrite !filter_cons. fold (sort_desc l). by rewrite IH.
Qed.

(** A list whose keys are all equal comes back as it was. *)
Lemma sort_desc_equal_keys l :
  (∀ x y, x ∈ l → y ∈ l → (x.1 == y.1)%Q) → sort_desc l = l.
Proof.
  destruct l as [|x0 l]; [done|]. intros Heq.
  assert (∀ l' : list (Q * A), (∀ y, y ∈ l' → (y.1 == x0.1)%Q) →
            filter (λ y, (y.1 == x0.1)%Q) l' = l') as Hall.
  { induction l' as [|y l' IH]; [done|]. intros Hl'.
    rewrite filter_cons_True by (apply Hl'; set_solver).
    f_equal. apply IH. intros z Hz. apply Hl'. set_solver. }
  rewrite <- (Hall (sort_desc (x0 :: l))).
  - rewrite sort_desc_stable. apply Hall. intros y Hy. apply Heq; set_solver.
  - intros y Hy. rewrite sort_desc_perm in Hy. apply Heq; set_solver.
Qed.
End sort_desc.

(** * Ranking the waiting sessions *)

Lemma purged_refl s : purged s s.
Proof. unfold purged. by split_and!. Qed.

Lemma ban_lookup_purge_ban user_ip s a :
  ban_lookup (purge_ban user_ip s) a = ban_lookup s a.
Proof.
  unfold purge_ban. destruct (user_bans s !! user_ip) as [row|] eqn:Hrow; [|done].
  case_bool_decide as Hexp; [|done].
  unfold ban_lookup. cbn [user_bans upd_user_bans clock].
  destruct (decide (a = user_ip)) as [->|Hne].
  - rewrite lookup_delete_eq, Hrow. by rewrite bool_decide_eq_true_2.
  - by rewrite lookup_delete_ne.
Qed.

Lemma purged_purge_ban s0 s user_ip :
  purged s0 s → purged s0 (purge_ban user_ip s).
Proof.
  intros (Hw & Ha & Hu & Hd & Hm & Hr & Hl & Hf & Hc & Hb & Hsub). unfold purged.
  destruct (purge_ban_memory user_ip s) as (-> & -> & -> & -> & -> & -> & -> & -> & ->).
  split_and!; try done.
  - intros a. by rewrite ban_lookup_purge_ban.
  - intros a row Hrow. apply Hsub. by apply (purge_ban_writes_nothing user_ip).
Qed.

Lemma purged_trans s1 s2 s3 : purged s1 s2 → purged s2 s3 → purged s1 s3.
Proof.
  intros (Hw & Ha & Hu & Hd & Hm & Hr & Hl & Hf & Hc & Hb & Hsub)
         (Hw' & Ha' & Hu' & Hd' & Hm' & Hr' & Hl' & Hf' & Hc' & Hb' & Hsub').
  unfold purged. split_and!; try congruence.
  intros a row Hrow. by apply Hsub, Hsub'.
Qed.

(** The scan of the queue: the candidates, scored, in queue order. *)
Lemma ranking_scan (s0 : State) (current_interests : list string) (chat_mode : string)
    (l : list string) (acc : list (Q * string)) (s : State) :
  purged s0 s →
  ∃ s',
    for_each l
      (λ (compatible_users : list (Q * string)) (w_user_id : string),
         w_data ← gets (λ s, user_data s !! w_user_id);
         let w_ip := ip <$> w_data in
         let w_mode := get_chat_mode w_data in
         if bool_decide (w_mode ≠ Some chat_mode) then ret compatible_users
         else
           banned ← (if truthy_opt w_ip
                     then r ← is_banned (default "" w_ip); ret r.1
                     else ret false);
           if banned then ret compatible_users
           else
             let w_interests := default [] (interests <$> w_data) in
             let sim := jaccard_similarity current_interests w_interests in
             ret (compatible_users ++ [(sim, w_user_id)])) acc s
    = (Ok (acc ++ ((λ w, (jaccard_similarity current_interests
                            (default [] (interests <$> user_data s0 !! w)), w))
                   <$> filter (λ w, is_candidate s0 chat_mode w) l)), s', [])
    ∧ purged s0 s'.
Proof.
  revert acc s. induction l as [|w l IH]; intros acc s Hp.
  - exists s. cbn. by rewrite app_nil_r.
  - cbn [for_each]. rewrite bind_assoc, bind_gets.
    pose proof Hp as (_ & _ & _ & Hd & _ & _ & _ & _ & _ & Hb & _).
    rewrite Hd. rewrite filter_cons.
    assert (is_candidate s0 chat_mode w =
              bool_decide (get_chat_mode (user_data s0 !! w) = Some chat_mode) &&
              negb (truthy_opt (ip <$> user_data s0 !! w) &&
                    (ban_lookup s0 (default "" (ip <$> user_data s0 !! w))).1)) as Hcand
      by done.
    destruct (decide (get_chat_mode (user_data s0 !! w) = Some chat_mode)) as [Hmode|Hmode].
    + rewrite (bool_decide_eq_false_2 (get_chat_mode (user_data s0 !! w) ≠ Some chat_mode))
        by (intros Hc; by apply Hc).
      rewrite (bool_decide_eq_true_2 _ Hmode) in Hcand. cbn [andb] in Hcand.
      destruct (truthy_opt (ip <$> user_data s0 !! w)) eqn:Hip; cbn [andb] in Hcand.
      * rewrite !bind_assoc, bind_is_banned, bind_ret. rewrite Hb.
        destruct (ban_lookup s0 _).1 eqn:Hban; cbn [negb] in Hcand.
        -- rewrite bind_ret. rewrite Hcand. rewrite decide_False by (by intros []).
           apply IH. by apply purged_purge_ban.
        -- rewrite bind_ret. rewrite Hcand. rewrite decide_True by done.
           destruct (IH (acc ++ [(jaccard_similarity current_interests
                                    (default [] (interests <$> user_data s0 !! w)), w)])
                        (purge_ban (default "" (ip <$> user_data s0 !! w)) s))
             as (s' & Hrun & Hp'); [by apply purged_purge_ban|].
           exists s'. split; [|done]. etrans; [exact Hrun|].
           by rewrite fmap_cons, <- app_assoc.
      * rewrite bind_assoc, !bind_ret. rewrite Hcand. rewrite decide_True by done.
        destruct (IH (acc ++ [(jaccard_similarity current_interests
                                 (default [] (interests <$> user_data s0 !! w)), w)]) s)
          as (s' & Hrun & Hp'); [done|].
        exists s'. split; [|done]. etrans; [exact Hrun|].
        by rewrite fmap_cons, <- app_assoc.
    + rewrite (bool_decide_eq_true_2 (get_chat_mode (user_data s0 !! w) ≠ Some chat_mode))
        by done.
      rewrite (bool_decide_eq_false_2 _ Hmode) in Hcand. cbn [andb] in Hcand.
      rewrite bind_ret. rewrite Hcand. rewrite decide_False by (by intros []).
      by apply IH.
Qed.

Lemma get_sorted_waiting_partners_run current_user_id chat_mode s :
  ∃ s',
    get_sorted_waiting_partners current_user_id chat_mode s
    = (Ok (sort_desc ((λ w, (score_for s current_user_id w, w))
                        <$> candidates s chat_mode)).*2, s', [])
    ∧ purged s s'.
Proof.
  unfold get_sorted_waiting_partners. rewrite !bind_gets.
  destruct (ranking_scan s
              (default [] (interests <$> user_data s !! current_user_id))
              chat_mode (waiting_users s) [] s (purged_refl s))
    as (s' & Hrun & Hp).
  exists s'. split; [|done].
  rewrite (bind_run _ _ _ _ _ _ Hrun), add_events_nil. done.
Qed.

Section scored.
Context (score : string → Q).

Lemma scored_snd l : (scored score l).*2 = l.
Proof. unfold scored. induction l as [|w l IH]; [done|]. cbn. by f_equal. Qed.

Lemma scored_keys l : Forall (λ p, p.1 = score p.2) (scored score l).
Proof. unfold scored. induction l as [|w l IH]; constructor; done. Qed.

Lemma keyed_sorted (L : list (Q * string)) :
  Forall (λ p, p.1 = score p.2) L →
  StronglySorted key_desc L →
  StronglySorted (λ u v, (score v <= score u)%Q) L.*2.
Proof.
  intros Hk Hs. induction Hs as [|p L Hs IH Hp]; [constructor|].
  apply Forall_cons in Hk as [Hkp Hk]. cbn. constructor; [by apply IH|].
  apply Forall_fmap. rewrite Forall_forall in Hp, Hk. apply Forall_forall.
  intros x Hx. cbn. specialize (Hp x Hx). specialize (Hk x Hx). unfold key_desc in Hp.
  by rewrite <- Hkp, <- Hk.
Qed.

Lemma keyed_filter (q : Q) (L : list (Q * string)) :
  Forall (λ p, p.1 = score p.2) L →
  filter (λ u, (score u == q)%Q) L.*2 = (filter (λ p, (p.1 == q)%Q) L).*2.
Proof.
  induction 1 as [|p L Hp Hk IH]; [done|].
  cbn [fmap list_fmap]. rewrite !filter_cons. rewrite <- Hp.
  destruct (decide (p.1 == q)%Q); cbn [fmap list_fmap]; by rewrite IH.
Qed.

Lemma ranked_scored l :
  let ranked := (sort_desc (scored score l)).*2 in
  ranked ≡ₚ l ∧
  StronglySorted (λ u v, (score v <= score u)%Q) ranked ∧
  (∀ q, filter (λ u, (score u == q)%Q) ranked = filter (λ u, (score u == q)%Q) l) ∧
  ((∀ u v, u ∈ l → v ∈ l → (score u == score v)%Q) → ranked = l).
Proof.
  intros ranked. subst ranked.
  assert (Forall (λ p, p.1 = score p.2) (sort_desc (scored score l))) as Hk.
  { rewrite sort_desc_perm. apply scored_keys. }
  split_and!.
  - rewrite sort_desc_perm. by rewrite scored_snd.
  - apply keyed_sorted; [done|]. apply sort_desc_sorted.
  - intros q. rewrite keyed_filter by done. rewrite sort_desc_stable.
    rewrite <- keyed_filter by apply scored_keys. by rewrite scored_snd.
  - intros Heq. rewrite sort_desc_equal_keys; [apply scored_snd|].
    intros x y Hx Hy. unfold scored in Hx, Hy.
    apply list_elem_of_fmap in Hx as (u & -> & Hu).
    apply list_elem_of_fmap in Hy as (v & -> & Hv).
    cbn. by apply Heq.
Qed.
End scored.

(** C5: the ranking returns the candidates (the waiting sessions of the
    requested mode whose address is not banned), each once per occurrence in
    the queue, in descending order of their score against the requester;
    sessions with equal scores come in their queue order, so when all
    candidates score the same the ranking is the candidates in queue
    order. *)
Theorem ranking_descending_and_stable (current_user_id chat_mode : string) (s : State) :
  ∃ ranked,
    result (get_sorted_waiting_partners current_user_id chat_mode s) = Ok ranked ∧
    ranked ≡ₚ candidates s chat_mode ∧
    StronglySorted
      (λ u v, (score_for s current_user_id v <= score_for s current_user_id u)%Q)
      ranked ∧
    (∀ q, filter (λ u, (score_for s current_user_id u == q)%Q) ranked
          = filter (λ u, (score_for s current_user_id u == q)%Q) (candidates s chat_mode)) ∧
    ((∀ u v, u ∈ candidates s chat_mode → v ∈ candidates s chat_mode →
             (score_for s current_user_id u == score_for s current_user_id v)%Q) →
     ranked = candidates s chat_mode).
Proof.
  destruct (get_sorted_waiting_partners_run current_user_id chat_mode s) as (s' & -> & _).
  eexists. split; [done|].
  apply (ranked_scored (score_for s current_user_id)).
Qed.

Lemma ranking_descending_and_stable_witness :
  candidates three_equal_waiting "video" = ["Z"; "P"; "Q"; "R"] ∧
  result (get_sorted_waiting_partners "X" "video" three_equal_waiting)
    = Ok ["P"; "Q"; "R"; "Z"] ∧
  filter (λ u, (score_for three_equal_waiting "X" u == 1 # 2)%Q) ["P"; "Q"; "R"; "Z"]
    = ["P"; "Q"; "R"].
Proof.
  destruct (ranking_descending_and_stable "X" "video" three_equal_waiting)
    as (ranked & Hres & _ & _ & Hstable & _).
  assert (ranked = ["P"; "Q"; "R"; "Z"]) as ->.
  { assert (Ok ranked = Ok ["P"; "Q"; "R"; "Z"]) as Heq
      by (rewrite <- Hres; by vm_compute).
    by injection Heq. }
  split; [by vm_compute|]. split; [exact Hres|].
  rewrite Hstable. by vm_compute.
Defined.

(** * Frame rules *)

Section frames.
Context (R : State → State → Prop) `{!Reflexive R, !Transitive R}.

Lemma frames_ret {A} (a : A) : frames R (ret a).
Proof. intros s. apply reflexivity. Qed.

Lemma frames_gets {A} (f : State → A) : frames R (gets f).
Proof. intros s. apply reflexivity. Qed.

Lemma frames_emit name data room : frames R (emit name data room).
Proof. intros s. apply reflexivity. Qed.

Lemma frames_raise {A} exn : frames R (@raise A exn).
Proof. intros s. apply reflexivity. Qed.

Lemma frames_timedelta seconds : frames R (timedelta seconds).
Proof. unfold timedelta. case_bool_decide; [apply frames_ret | apply frames_raise]. Qed.

Lemma frames_datetime_add dt delta : frames R (datetime_add dt delta).
Proof. unfold datetime_add. case_bool_decide; [apply frames_ret | apply frames_raise]. Qed.

Lemma frames_modify f : (∀ s, R s (f s)) → frames R (modify f).
Proof. intros Hf s. apply Hf. Qed.

Lemma frames_bind {A B} (m : M A) (k : A → M B) :
  frames R m → (∀ a, frames R (k a)) → frames R (bind m k).
Proof.
  intros Hm Hk s. specialize (Hm s). unfold bind, final in *.
  destruct (m s) as [[[a|x] s1] e1]; cbn in *; [|done].
  specialize (Hk a s1). unfold final in Hk.
  destruct (k a s1) as [[r s2] e2]; cbn in *. by etrans.
Qed.

Lemma frames_when b (m : M unit) : frames R m → frames R (when b m).
Proof. destruct b; [done|]. intros _. apply frames_ret. Qed.

Lemma frames_for_each {A B} (l : list A) (body : B → A → M B) acc :
  (∀ acc x, frames R (body acc x)) → frames R (for_each l body acc).
Proof.
  intros Hbody. revert acc. induction l as [|x l IH]; intros acc; cbn.
  - apply frames_ret.
  - apply frames_bind; [apply Hbody | apply IH].
Qed.
End frames.

(** One step of a frame proof: peel a bind, split a branch, or close a
    primitive. *)
Ltac frame_step :=
  first
    [ apply frames_ret | apply frames_gets | apply frames_emit | apply frames_raise
    | apply frames_timedelta | apply frames_datetime_add
    | apply frames_bind; [apply _ .. | idtac | intros ?]
    | apply frames_when
    | apply frames_for_each; [apply _ .. | intros ? ?]
    | match goal with
      | |- frames _ (if ?b then _ else _) => destruct b
      | |- frames _ (match ?x with _ => _ end) => destruct x
      | |- frames _ (let _ := _ in _) => cbv zeta
      end ].

(** * Report counts only grow *)

Global Instance reports_kept_refl : Reflexive reports_kept.
Proof. intros s a r Hr. exists r. by split. Qed.

Global Instance reports_kept_trans : Transitive reports_kept.
Proof.
  intros s1 s2 s3 H12 H23 a r Hr.
  destruct (H12 a r Hr) as (r2 & Hr2 & Hle2).
  destruct (H23 a r2 Hr2) as (r3 & Hr3 & Hle3).
  exists r3. split; [done|]. by etrans.
Qed.

Lemma reports_kept_same s s' : user_reports s' = user_reports s → reports_kept s s'.
Proof. intros Heq a r Hr. exists r. by rewrite Heq. Qed.

Create HintDb frames.

Ltac frame_reports :=
  repeat first
    [ frame_step
    | apply frames_modify; intros ?; by apply reports_kept_same ];
  auto with frames.

Lemma select_partner_keeps_reports user_id l :
  frames reports_kept (select_partner user_id l).
Proof. induction l as [|w l IH]; cbn [select_partner]; frame_reports. Qed.

#[local] Hint Resolve select_partner_keeps_reports : frames.

Lemma count_if_absent_keeps_reports k now :
  frames reports_kept
    (modify (upd_user_reports (λ t,
       match t !! k with
       | None => <[k := mkReport 0 now]> t
       | Some _ => t
       end))).
Proof.
  apply frames_modify. intros s a r Hr. cbn.
  destruct (user_reports s !! k) eqn:Hk; [by eexists|].
  exists r. split; [|done]. rewrite lookup_insert_ne; [done|]. congruence.
Qed.

Lemma count_up_keeps_reports k now :
  frames reports_kept
    (modify (upd_user_reports (alter (λ r, mkReport (report_count r + 1) now) k))).
Proof.
  apply frames_modify. intros s a r Hr. cbn.
  destruct (decide (a = k)) as [->|Hne].
  - rewrite lookup_alter_eq, Hr. cbn. eexists. split; [done|]. cbn. lia.
  - rewrite lookup_alter_ne by done. by exists r.
Qed.

#[local] Hint Resolve count_if_absent_keeps_reports count_up_keeps_reports : frames.

Lemma report_user_keeps_reports reporter_sid reported_sid reason comment :
  frames reports_kept (report_user reporter_sid reported_sid reason comment).
Proof. unfold report_user. frame_reports. Qed.

#[local] Hint Resolve report_user_keeps_reports : frames.







(** * Queue and rooms *)

(** C1: the claim fails on the code.  [handle_find_partner] never looks
    at [user_rooms]: in [room_of_A_and_B], where the invariant holds, a
    [find_partner] from the room member "A" leaves "A" bound to room "r1"
    and queued; with "C" waiting, the same request matches "A" with "C" in a
    second room "r2" while room "r1" still lists "A" as a member. *)
Theorem find_partner_from_room_breaks_exclusion :
  let again := ReqFindPartner "A" "r2" (mkFindPartnerData (Some []) (Some "text")) in
  let video := ReqFindPartner "A" "r2" (mkFindPartnerData (Some []) (Some "video")) in
  exclusive room_of_A_and_B ∧
  user_rooms room_of_A_and_B !! "A" = Some "r1" ∧
  "A" ∈ waiting_users (serve again room_of_A_and_B) ∧
  user_rooms (serve again room_of_A_and_B) !! "A" = Some "r1" ∧
  ¬ exclusive (serve again room_of_A_and_B) ∧
  exclusive room_of_A_and_B_with_C_waiting ∧
  users <$> active_rooms (serve video room_of_A_and_B_with_C_waiting) !! "r1"
    = Some ["A"; "B"] ∧
  users <$> active_rooms (serve video room_of_A_and_B_with_C_waiting) !! "r2"
    = Some ["A"; "C"].
Proof.
  cbv zeta. split_and!.
  - split; [vm_compute; constructor|]. intros u Hu. vm_compute in Hu.
    by apply elem_of_nil in Hu.
  - by vm_compute.
  - vm_compute. apply list_elem_of_here.
  - by vm_compute.
  - intros [_ Hex]. specialize (Hex "A"). 
    assert (user_rooms (serve (ReqFindPartner "A" "r2"
              (mkFindPartnerData (Some []) (Some "text"))) room_of_A_and_B) !! "A"
            = Some "r1") as Hroom by (by vm_compute).
    rewrite Hroom in Hex. discriminate Hex. vm_compute. apply list_elem_of_here.
  - split.
    + vm_compute. apply NoDup_singleton.
    + intros u Hu. vm_compute in Hu. apply list_elem_of_singleton in Hu as ->.
      by vm_compute.
  - by vm_compute.
  - by vm_compute.
Qed.

(** * Pairing *)

Lemma select_partner_run (s0 : State) (user_id : string) (l : list string) (s : State) :
  purged s0 s →
  ∃ s', select_partner user_id l s
        = (Ok (head (filter (λ w, selectable s0 user_id w) l)), s', [])
        ∧ purged s0 s'.
Proof.
  revert s. induction l as [|w l IH]; intros s Hp; [by exists s|].
  cbn [select_partner]. rewrite bind_gets.
  pose proof Hp as (_ & _ & _ & Hd & _ & _ & _ & _ & _ & Hb & _).
  rewrite Hd, filter_cons.
  assert (selectable s0 user_id w =
            bool_decide (w ≠ user_id) &&
            match user_data s0 !! w with
            | Some d => negb (ban_lookup s0 (ip d)).1
            | None => false
            end) as Hsel by done.
  destruct (user_data s0 !! w) as [d|] eqn:Hw.
  - case_bool_decide as Hne; cbn [andb] in Hsel.
    + rewrite bind_is_banned, Hb.
      destruct (ban_lookup s0 (ip d)).1 eqn:Hban; cbn [negb] in Hsel |- *.
      * rewrite Hsel, decide_False by (by intros []). apply IH. by apply purged_purge_ban.
      * rewrite Hsel, decide_True by done. eexists. split; [done|].
        by apply purged_purge_ban.
    + rewrite Hsel, decide_False by (by intros []). by apply IH.
  - rewrite andb_false_r in Hsel. rewrite Hsel, decide_False by (by intros []). by apply IH.
Qed.

Lemma handle_find_partner_run user_id token data s :
  address_of s user_id ≠ "" →
  (ban_lookup s (address_of s user_id)).1 = false →
  ∃ s3,
    purged (requester_state user_id data s) s3 ∧
    handle_find_partner user_id token data s =
      match chosen_partner user_id data s with
      | Some p =>
          if truthy p then
            let s4 := matched_state user_id p token (default "text" (data_chat_mode data)) s3 in
            (Ok tt, s4,
             [mkEvent "matched" (MatchedData token "Stranger" p true) (ToSid user_id);
              mkEvent "matched" (MatchedData token "Stranger" user_id false) (ToSid p);
              stats_event s4])
          else
            (Ok tt, waiting_state user_id s3,
             [mkEvent "waiting" NoData (ToSid user_id); stats_event (waiting_state user_id s3)])
      | None =>
          (Ok tt, waiting_state user_id s3,
           [mkEvent "waiting" NoData (ToSid user_id); stats_event (waiting_state user_id s3)])
      end.
Proof.
  intros Hip Hnb. unfold handle_find_partner.
  rewrite bind_gets, truthy_opt_address, (truthy_true _ Hip). cbn [negb].
  fold (address_of s user_id). rewrite bind_is_banned, Hnb.
  rewrite bind_modify, bind_gets, bind_when_dequeue.
  fold (requester_state user_id data s).
  set (s1 := requester_state user_id data s).
  destruct (get_sorted_waiting_partners_run user_id (default "text" (data_chat_mode data)) s1)
    as (s2 & Hrank & Hp2).
  rewrite (bind_run _ _ _ _ _ _ Hrank), add_events_nil.
  destruct (select_partner_run s1 user_id (ranking user_id data s) s2 Hp2)
    as (s3 & Hsel & Hp3).
  exists s3. split; [done|].
  unfold ranking in Hsel. fold s1 in Hsel.
  rewrite (bind_run _ _ _ _ _ _ Hsel), add_events_nil.
  unfold chosen_partner, ranking. fold s1.
  destruct (head (filter _ _)) as [p|]; cbn [truthy_opt default from_option id].
  - destruct (truthy p); mstep; reflexivity.
  - mstep. reflexivity.
Qed.

(** The partner chosen for a request was waiting, is not the requester, is
    a candidate of the requested mode and passed the second ban check. *)
Lemma chosen_partner_waiting user_id data s p :
  chosen_partner user_id data s = Some p →
  p ≠ user_id ∧
  p ∈ list_remove user_id (waiting_users s) ∧
  is_candidate (requester_state user_id data s) (default "text" (data_chat_mode data)) p
    = true ∧
  selectable (requester_state user_id data s) user_id p = true.
Proof.
  intros Hc. apply head_Some_elem_of in Hc.
  apply list_elem_of_filter in Hc as [Hsel Hin].
  unfold ranking in Hin. rewrite sort_desc_perm, scored_snd in Hin.
  unfold candidates in Hin. apply list_elem_of_filter in Hin as [Hcand Hin].
  apply Is_true_true in Hsel, Hcand.
  split_and!; [|  |done|done].
  - unfold selectable in Hsel. apply andb_true_iff in Hsel as [Hne _].
    by apply bool_decide_eq_true in Hne.
  - unfold requester_state in Hin. rewrite dequeue_waiting in Hin.
    cbn in Hin. by destruct (purge_ban_memory (address_of s user_id) s) as (<- & _).
Qed.

(** * Queue and rooms stay apart *)

Global Instance shrinks_refl : Reflexive shrinks.
Proof. intros s. by split. Qed.

Global Instance shrinks_trans : Transitive shrinks.
Proof.
  intros s1 s2 s3 [Hq12 Hr12] [Hq23 Hr23]. split; [by etrans|].
  intros u Hu. by apply Hr23, Hr12.
Qed.

Lemma shrinks_exclusive s s' : shrinks s s' → exclusive s → exclusive s'.
Proof.
  intros [Hq Hr] [Hnd Hex]. split.
  - by eapply sublist_NoDup.
  - intros u Hu. apply Hr, Hex. by eapply elem_of_sublist.
Qed.

Lemma list_remove_sublist (x : string) (l : list string) : list_remove x l `sublist_of` l.
Proof.
  induction l as [|y l IH]; [done|]. cbn. case_bool_decide.
  - by apply sublist_cons.
  - by apply sublist_skip.
Qed.

Lemma shrinks_same s s' :
  waiting_users s' = waiting_users s → user_rooms s' = user_rooms s → shrinks s s'.
Proof. intros Hq Hr. split; [by rewrite Hq|]. intros u. by rewrite Hr. Qed.

Lemma shrinks_dequeued x s : shrinks s (upd_waiting_users (list_remove x) s).
Proof. split; [apply list_remove_sublist|done]. Qed.

Lemma shrinks_unbound k s : shrinks s (upd_user_rooms (delete k) s).
Proof.
  split; [done|]. intros u Hu. cbn.
  destruct (decide (u = k)) as [->|Hne]; [apply lookup_delete_eq|].
  by rewrite lookup_delete_ne.
Qed.

Ltac frame_shrinks :=
  repeat first
    [ frame_step
    | apply frames_modify; intros ?;
      first [ apply shrinks_dequeued | apply shrinks_unbound | by apply shrinks_same ] ];
  auto with frames.

Lemma report_user_shrinks reporter_sid reported_sid reason comment :
  frames shrinks (report_user reporter_sid reported_sid reason comment).
Proof. unfold report_user. frame_shrinks. Qed.

#[local] Hint Resolve report_user_shrinks : frames.

(** Every request but a pairing request only removes queue entries and
    room bindings. *)
Lemma serve_shrinks req s :
  (∀ user_id token data, req ≠ ReqFindPartner user_id token data) →
  shrinks s (serve req s).
Proof.
  intros Hreq. destruct req; cbn [serve].
  - enough (frames shrinks (handle_connect user_id addr)) as Hf by apply Hf.
    unfold handle_connect. frame_shrinks.
  - enough (frames shrinks (handle_disconnect user_id)) as Hf by apply Hf.
    unfold handle_disconnect. frame_shrinks.
  - enough (frames shrinks (handle_change_mode user_id)) as Hf by apply Hf.
    unfold handle_change_mode. frame_shrinks.
  - by destruct (Hreq user_id token data).
  - enough (frames shrinks (handle_stop_searching user_id)) as Hf by apply Hf.
    unfold handle_stop_searching. frame_shrinks.
  - enough (frames shrinks (handle_next_partner user_id)) as Hf by apply Hf.
    unfold handle_next_partner. frame_shrinks.
  - enough (frames shrinks (handle_message user_id text)) as Hf by apply Hf.
    unfold handle_message. frame_shrinks.
  - enough (frames shrinks (handle_report_user user_id data)) as Hf by apply Hf.
    unfold handle_report_user. frame_shrinks.
  - enough (frames shrinks cleanup_expired_bans) as Hf by apply Hf.
    unfold cleanup_expired_bans. frame_shrinks.
  - rewrite cleanup_room_messages_noop. apply reflexivity.
  - by apply shrinks_same.
  - by apply shrinks_same.
Qed.

Lemma handle_find_partner_unregistered user_id token data s :
  address_of s user_id = "" →
  handle_find_partner user_id token data s = (Ok tt, s, []).
Proof.
  intros Hip. unfold handle_find_partner.
  rewrite bind_gets, truthy_opt_address, Hip. done.
Qed.

Lemma handle_find_partner_banned user_id token data s :
  address_of s user_id ≠ "" →
  (ban_lookup s (address_of s user_id)).1 = true →
  handle_find_partner user_id token data s =
    (Ok tt, s, [mkEvent "banned" (BannedData "30 minuti" None) (ToSid user_id)]).
Proof.
  intros Hip Hb. unfold handle_find_partner.
  rewrite bind_gets, truthy_opt_address, (truthy_true _ Hip). cbn [negb].
  fold (address_of s user_id). rewrite bind_is_banned, Hb.
  assert (purge_ban (address_of s user_id) s = s) as ->; [|done].
  unfold purge_ban. unfold ban_lookup in Hb.
  destruct (user_bans s !! address_of s user_id) as [row|]; [|done].
  by case_bool_decide.
Qed.

Lemma requester_state_fields user_id data s :
  let s1 := requester_state user_id data s in
  waiting_users s1 = list_remove user_id (waiting_users s) ∧
  user_rooms s1 = user_rooms s ∧
  active_rooms s1 = active_rooms s ∧
  room_messages s1 = room_messages s ∧
  user_reports s1 = user_reports s ∧
  report_log s1 = report_log s ∧
  logs_report s1 = logs_report s ∧
  clock s1 = clock s.
Proof.
  cbv zeta. unfold requester_state. rewrite dequeue_waiting.
  set (s0 := upd_user_data _ _).
  destruct (dequeue_other user_id s0) as (-> & -> & _ & -> & _ & -> & -> & -> & ->).
  subst s0. cbn.
  by destruct (purge_ban_memory (address_of s user_id) s)
    as (-> & -> & -> & _ & -> & -> & -> & -> & ->).
Qed.

(** A pairing request from a session that is not bound to a room keeps
    queue and rooms apart. *)
Lemma handle_find_partner_exclusive user_id token data s :
  exclusive s → user_rooms s !! user_id = None →
  exclusive (final (handle_find_partner user_id token data s)).
Proof.
  intros [Hnd Hex] Hfree.
  destruct (decide (address_of s user_id = "")) as [Hip|Hip].
  { by rewrite handle_find_partner_unregistered. }
  destruct (ban_lookup s (address_of s user_id)).1 eqn:Hb.
  { by rewrite handle_find_partner_banned. }
  destruct (handle_find_partner_run user_id token data s Hip Hb) as (s3 & Hp & ->).
  destruct Hp as (Hw3 & _ & Hu3 & _).
  destruct (requester_state_fields user_id data s) as (Hw1 & Hu1 & _).
  rewrite Hw1 in Hw3. rewrite Hu1 in Hu3.
  destruct (list_remove_NoDup user_id _ Hnd) as [Hnd1 Hout].
  assert (exclusive (waiting_state user_id s3)) as Hwait.
  { split; cbn; rewrite Hw3.
    - apply NoDup_app. split_and!; [done| |apply NoDup_singleton].
      intros x Hx Hx'. apply list_elem_of_singleton in Hx' as ->. done.
    - intros u Hu. rewrite Hu3. apply elem_of_app in Hu as [Hu|Hu].
      + apply Hex. by eapply list_remove_subset.
      + by apply list_elem_of_singleton in Hu as ->. }
  destruct (chosen_partner user_id data s) as [p|] eqn:Hc; [|done].
  destruct (truthy p); [|done].
  apply chosen_partner_waiting in Hc as (Hne & Hin & _).
  unfold final. cbn [fst snd].
  destruct (list_remove_NoDup p _ Hnd1) as [Hnd2 Hout2].
  split; cbn; rewrite Hw3; [done|]. rewrite Hu3.
  intros u Hu.
  assert (u ≠ p) by (intros ->; done).
  assert (u ≠ user_id).
  { intros ->. apply Hout. by eapply list_remove_subset. }
  rewrite !lookup_insert_ne by done.
  apply Hex. eapply list_remove_subset, list_remove_subset, Hu.
Qed.

(** X1: every request keeps the queue free of duplicates and of
    room-bound sessions, provided a pairing request comes from a session
    that is not bound to a room. *)
Theorem serve_keeps_exclusive (req : Request) (s : State) :
  exclusive s →
  (∀ user_id token data,
     req = ReqFindPartner user_id token data → user_rooms s !! user_id = None) →
  exclusive (serve req s).
Proof.
  intros Hex Hfree.
  assert ((∃ user_id token data, req = ReqFindPartner user_id token data) ∨
          (∀ user_id token data, req ≠ ReqFindPartner user_id token data))
    as [(user_id & token & data & ->)|Hother].
  { destruct req; try (by right); left; eauto. }
  - cbn [serve]. apply handle_find_partner_exclusive; [done|]. by eapply Hfree.
  - apply (shrinks_exclusive s); [|done]. by apply serve_shrinks.
Qed.

Lemma serve_keeps_exclusive_witness :
  exclusive (serve (ReqFindPartner "C" "r2" (mkFindPartnerData (Some []) (Some "text")))
               room_of_A_and_B_with_C_waiting).
Proof.
  apply serve_keeps_exclusive.
  - split.
    + vm_compute. apply NoDup_singleton.
    + intros u Hu. vm_compute in Hu. apply list_elem_of_singleton in Hu as ->.
      by vm_compute.
  - intros user_id token data Heq. injection Heq as <- _ _. by vm_compute.
Defined.

(** * The outcome of a pairing request *)

Lemma ban_lookup_ext s s' a :
  user_bans s' = user_bans s → clock s' = clock s → ban_lookup s' a = ban_lookup s a.
Proof. unfold ban_lookup. by intros -> ->. Qed.

Lemma requester_state_lookups user_id data s :
  (∀ a, ban_lookup (requester_state user_id data s) a = ban_lookup s a) ∧
  (∀ w, w ≠ user_id → user_data (requester_state user_id data s) !! w = user_data s !! w).
Proof.
  unfold requester_state. set (s0 := upd_user_data _ _).
  destruct (dequeue_other user_id s0) as (_ & _ & Hd & _ & Hb & _ & _ & _ & Hc).
  split.
  - intros a. rewrite (ban_lookup_ext s0) by done. subst s0.
    rewrite (ban_lookup_ext (purge_ban (address_of s user_id) s)) by done.
    apply ban_lookup_purge_ban.
  - intros w Hw. rewrite Hd. subst s0. cbn. rewrite lookup_alter_ne by done.
    by destruct (purge_ban_memory (address_of s user_id) s) as (_ & _ & _ & -> & _).
Qed.

(** X2: a pairing request from a registered session whose address is not
    banned either matches the requester with a session that was waiting, is
    not the requester, asked for the same mode and is not banned: both are
    told, the requester as initiator, a room with the two members and an
    empty transcript is created under the token, both are bound to it and the
    partner leaves the queue; or it puts the requester at the end of the queue
    and tells it to wait, leaving rooms and bindings as they were. *)
Theorem find_partner_outcome (user_id token : string) (data : FindPartnerData) (s : State) :
  address_of s user_id ≠ "" →
  (ban_lookup s (address_of s user_id)).1 = false →
  let mode := default "text" (data_chat_mode data) in
  let r := handle_find_partner user_id token data s in
  (∃ p,
     p ≠ user_id ∧ p ∈ waiting_users s ∧
     get_chat_mode (user_data s !! p) = Some mode ∧
     (ban_lookup s (address_of s p)).1 = false ∧
     events r =
       [mkEvent "matched" (MatchedData token "Stranger" p true) (ToSid user_id);
        mkEvent "matched" (MatchedData token "Stranger" user_id false) (ToSid p);
        stats_event (final r)] ∧
     waiting_users (final r) = list_remove p (list_remove user_id (waiting_users s)) ∧
     active_rooms (final r) = <[token := mkRoom [user_id; p] (clock s) mode]> (active_rooms s) ∧
     user_rooms (final r) = <[p := token]> (<[user_id := token]> (user_rooms s)) ∧
     room_messages (final r) = <[token := []]> (room_messages s))
  ∨
  (events r = [mkEvent "waiting" NoData (ToSid user_id); stats_event (final r)] ∧
   waiting_users (final r) = list_remove user_id (waiting_users s) ++ [user_id] ∧
   active_rooms (final r) = active_rooms s ∧
   user_rooms (final r) = user_rooms s ∧
   room_messages (final r) = room_messages s).
Proof.
  intros Hip Hb mode r. subst r.
  destruct (handle_find_partner_run user_id token data s Hip Hb) as (s3 & Hp & ->).
  destruct Hp as (Hw3 & Ha3 & Hu3 & _ & Hm3 & _ & _ & _ & Hc3 & _).
  destruct (requester_state_fields user_id data s)
    as (Hw1 & Hu1 & Ha1 & Hm1 & _ & _ & _ & Hc1).
  rewrite Hw1 in Hw3. rewrite Hu1 in Hu3. rewrite Ha1 in Ha3. rewrite Hm1 in Hm3.
  rewrite Hc1 in Hc3.
  assert (events (Ok (), waiting_state user_id s3,
                  [mkEvent "waiting" NoData (ToSid user_id);
                   stats_event (waiting_state user_id s3)])
          = [mkEvent "waiting" NoData (ToSid user_id);
             stats_event (waiting_state user_id s3)] ∧
          waiting_users (waiting_state user_id s3)
            = list_remove user_id (waiting_users s) ++ [user_id] ∧
          active_rooms (waiting_state user_id s3) = active_rooms s ∧
          user_rooms (waiting_state user_id s3) = user_rooms s ∧
          room_messages (waiting_state user_id s3) = room_messages s) as Hwait.
  { cbn. by rewrite Hw3. }
  destruct (chosen_partner user_id data s) as [p|] eqn:Hc; [|by right].
  destruct (truthy p); [|by right].
  left. exists p.
  apply chosen_partner_waiting in Hc as (Hne & Hin & Hcand & Hsel).
  destruct (requester_state_lookups user_id data s) as [Hbl Hud].
  unfold is_candidate in Hcand. unfold selectable in Hsel.
  rewrite Hud in Hcand, Hsel by done.
  apply andb_true_iff in Hcand as [Hmode _]. apply bool_decide_eq_true in Hmode.
  apply andb_true_iff in Hsel as [_ Hsel].
  split_and!; try done.
  - by eapply list_remove_subset.
  - unfold address_of. destruct (user_data s !! p) as [d|]; [|done]. cbn.
    rewrite Hbl in Hsel. by apply negb_true_iff in Hsel.
  - unfold final. cbn. by rewrite Hw3.
  - unfold final. cbn. by rewrite Ha3, Hc3.
  - unfold final. cbn. by rewrite Hu3.
  - unfold final. cbn. by rewrite Hm3.
Qed.

Lemma find_partner_outcome_witness :
  events (handle_find_partner "X" "r1" music_and_gaming two_text_waiting)
  = [mkEvent "matched" (MatchedData "r1" "Stranger" "Y" true) (ToSid "X");
     mkEvent "matched" (MatchedData "r1" "Stranger" "X" false) (ToSid "Y");
     mkEvent "stats_update" (StatsData 3 1 1) ToAll].
Proof.
  destruct (find_partner_outcome "X" "r1" music_and_gaming two_text_waiting)
    as [(p & _ & _ & _ & _ & Hev & _)|(Hev & _)].
  - by vm_compute.
  - by vm_compute.
  - rewrite Hev. by vm_compute.
  - rewrite Hev. by vm_compute.
Defined.

(** * The partner chosen is the best one *)

Lemma filter_list_remove (P : string → Prop) `{!∀ x, Decision (P x)} u l :
  ¬ P u → filter P (list_remove u l) = filter P l.
Proof.
  intros Hu. induction l as [|y l IH]; [done|]. cbn [list_remove].
  case_bool_decide as Hy.
  - subst y. by rewrite filter_cons_False.
  - by rewrite !filter_cons, IH.
Qed.

Lemma filter_ext_in {A} (P Q : A → Prop) `{!∀ x, Decision (P x), !∀ x, Decision (Q x)}
    (l : list A) :
  (∀ x, x ∈ l → (P x ↔ Q x)) → filter P l = filter Q l.
Proof.
  induction l as [|x l IH]; [done|]. intros Hext.
  rewrite !filter_cons, IH by (intros y Hy; apply Hext; set_solver).
  destruct (decide (P x)) as [HP|HP].
  - rewrite decide_True; [done|]. apply Hext; [set_solver|done].
  - rewrite decide_False; [done|]. intros HQ. apply HP. apply Hext; [set_solver|done].
Qed.

Lemma filter_swap {A} (P Q : A → Prop) `{!∀ x, Decision (P x), !∀ x, Decision (Q x)}
    (l : list A) :
  filter P (filter Q l) = filter Q (filter P l).
Proof. rewrite !list_filter_filter. apply list_filter_iff. naive_solver. Qed.

Lemma sorted_head_filter {A} (R : A → A → Prop) (P : A → Prop)
    `{!∀ x, Decision (P x)} (l : list A) (p : A) :
  StronglySorted R l → head (filter P l) = Some p →
  ∀ w, w ∈ filter P l → w = p ∨ R p w.
Proof.
  induction 1 as [|x l Hs IH Hx]; [done|].
  rewrite filter_cons. destruct (decide (P x)) as [HP|HP]; [|done].
  cbn [head]. intros [= ->] w Hw. apply elem_of_cons in Hw as [->|Hw]; [by left|].
  right. rewrite Forall_forall in Hx. apply Hx.
  by apply list_elem_of_filter in Hw as [_ Hw].
Qed.

Lemma head_filter_head {A} (P : A → Prop) `{!∀ x, Decision (P x)} (l : list A) (p : A) :
  head l = Some p → P p → head (filter P l) = Some p.
Proof.
  destruct l as [|x l]; [done|]. cbn [head]. intros [= ->] HP.
  by rewrite filter_cons_True.
Qed.

Lemma eligible_rivals user_id data s :
  filter (λ w, selectable (requester_state user_id data s) user_id w)
    (candidates (requester_state user_id data s) (default "text" (data_chat_mode data)))
  = rivals s user_id (default "text" (data_chat_mode data)).
Proof.
  unfold candidates, rivals.
  destruct (requester_state_fields user_id data s) as (-> & _).
  destruct (requester_state_lookups user_id data s) as [Hbl Hud].
  rewrite list_filter_filter.
  rewrite filter_list_remove.
  2:{ intros [Hsel _]. apply Is_true_true in Hsel. unfold selectable in Hsel.
      apply andb_true_iff in Hsel as [Hne _]. by apply bool_decide_eq_true in Hne. }
  apply list_filter_iff. intros w. unfold rival.
  rewrite !Is_true_true. unfold selectable, is_candidate.
  destruct (decide (w = user_id)) as [->|Hne].
  { rewrite (bool_decide_eq_false_2 (user_id ≠ user_id)) by (intros Hc; by apply Hc).
    cbn. naive_solver. }
  rewrite (bool_decide_eq_true_2 (w ≠ user_id)) by done. cbn [andb].
  rewrite Hud by done. unfold address_of.
  destruct (user_data s !! w) as [d|]; cbn.
  - rewrite !Hbl. rewrite andb_true_iff, bool_decide_eq_true, !negb_true_iff.
    split.
    + intros [Hb [Hm _]]. done.
    + intros (_ & Hm & Hb). rewrite Hb. split; [done|]. split; [done|].
      apply andb_false_r.
  - split; [by intros [? _]|]. by intros (_ & ? & _).
Qed.

Lemma requester_state_score user_id data s w :
  address_of s user_id ≠ "" → w ≠ user_id →
  score_for (requester_state user_id data s) user_id w = request_score data s w.
Proof.
  intros Hip Hne. unfold score_for, request_score.
  destruct (requester_state_lookups user_id data s) as [_ Hud].
  rewrite (Hud w Hne). f_equal.
  unfold requester_state. set (s0 := upd_user_data _ _).
  destruct (dequeue_other user_id s0) as (_ & _ & -> & _).
  subst s0. cbn. rewrite lookup_alter_eq.
  destruct (purge_ban_memory (address_of s user_id) s) as (_ & _ & _ & -> & _).
  unfold address_of in Hip. by destruct (user_data s !! user_id).
Qed.

Lemma matched_event_chosen user_id token data s p :
  address_of s user_id ≠ "" →
  (ban_lookup s (address_of s user_id)).1 = false →
  mkEvent "matched" (MatchedData token "Stranger" p true) (ToSid user_id)
    ∈ events (handle_find_partner user_id token data s) →
  chosen_partner user_id data s = Some p.
Proof.
  intros Hip Hb Hev.
  destruct (handle_find_partner_run user_id token data s Hip Hb) as (s3 & _ & Hrun).
  rewrite Hrun in Hev. clear Hrun.
  assert (∀ s', mkEvent "matched" (MatchedData token "Stranger" p true) (ToSid user_id)
            ∉ [mkEvent "waiting" NoData (ToSid user_id); stats_event s']) as Hno.
  { intros s' Hin. unfold stats_event in Hin.
    apply elem_of_cons in Hin as [Hin|Hin]; [done|].
    apply list_elem_of_singleton in Hin. done. }
  destruct (chosen_partner user_id data s) as [q|]; [|by apply Hno in Hev].
  destruct (truthy q); [|by apply Hno in Hev].
  unfold events in Hev. cbn in Hev.
  apply elem_of_cons in Hev as [Hev|Hev]; [by injection Hev as ->|].
  apply elem_of_cons in Hev as [Hev|Hev]; [done|].
  apply list_elem_of_singleton in Hev. done.
Qed.

(** X3: the partner a pairing request is matched with is one of the
    requester's rivals (the waiting sessions other than the requester whose
    stored mode is the requested one and whose address is not banned), no
    rival scores higher against the requested interests, and among the rivals
    with the same score it is the first in the queue. *)
Theorem matched_partner_is_best (user_id token : string) (data : FindPartnerData)
    (s : State) (p : string) :
  address_of s user_id ≠ "" →
  (ban_lookup s (address_of s user_id)).1 = false →
  mkEvent "matched" (MatchedData token "Stranger" p true) (ToSid user_id)
    ∈ events (handle_find_partner user_id token data s) →
  let mode := default "text" (data_chat_mode data) in
  let score := request_score data s in
  p ∈ rivals s user_id mode ∧
  (∀ w, w ∈ rivals s user_id mode → (score w <= score p)%Q) ∧
  head (filter (λ w, (score w == score p)%Q) (rivals s user_id mode)) = Some p.
Proof.
  intros Hip Hb Hev mode score.
  pose proof (matched_event_chosen _ _ _ _ _ Hip Hb Hev) as Hc.
  unfold chosen_partner, ranking in Hc.
  set (s1 := requester_state user_id data s) in *.
  destruct (ranked_scored (score_for s1 user_id) (candidates s1 mode))
    as (Hperm & Hsorted & Hstable & _).
  fold mode in Hc.
  set (ranked := (sort_desc (scored (score_for s1 user_id) (candidates s1 mode))).*2) in *.
  pose proof (eligible_rivals user_id data s) as Hel. fold s1 mode in Hel.
  assert (∀ w, w ∈ rivals s user_id mode → score_for s1 user_id w = score w) as Hscore.
  { intros w Hw. apply requester_state_score; [done|].
    unfold rivals in Hw. apply list_elem_of_filter in Hw as [[Hne _] _]. done. }
  assert (p ∈ rivals s user_id mode) as Hp.
  { rewrite <- Hel, <- Hperm. by apply head_Some_elem_of. }
  split; [done|]. split.
  - intros w Hw. rewrite <- (Hscore w Hw), <- (Hscore p Hp).
    assert (w ∈ filter (λ w, selectable s1 user_id w) ranked) as Hw'
      by (by rewrite Hperm, Hel).
    destruct (sorted_head_filter _ _ _ _ Hsorted Hc w Hw') as [->|Hle]; [|done].
    apply Qle_refl.
  - rewrite (filter_ext_in _ (λ w, (score_for s1 user_id w == score_for s1 user_id p)%Q)).
    2:{ intros w Hw. by rewrite (Hscore w Hw), (Hscore p Hp). }
    rewrite <- Hel, filter_swap, <- Hstable, filter_swap.
    apply head_filter_head; [done|]. apply Qeq_refl.
Qed.

Lemma matched_partner_is_best_witness :
  "Y" ∈ rivals two_text_waiting "X" "text" ∧
  (∀ w, w ∈ rivals two_text_waiting "X" "text" →
        (request_score music_and_gaming two_text_waiting w
         <= request_score music_and_gaming two_text_waiting "Y")%Q).
Proof.
  destruct (matched_partner_is_best "X" "r1" music_and_gaming two_text_waiting "Y")
    as (Hin & Hmax & _).
  - by vm_compute.
  - by vm_compute.
  - vm_compute. apply list_elem_of_here.
  - split; [exact Hin | exact Hmax].
Defined.

Lemma chosen_partner_rivals user_id data s :
  filter (λ w, selectable (requester_state user_id data s) user_id w) (ranking user_id data s)
  ≡ₚ rivals s user_id (default "text" (data_chat_mode data)).
Proof.
  rewrite <- eligible_rivals. unfold ranking.
  by rewrite sort_desc_perm, scored_snd.
Qed.

(** X4: a pairing request from a registered session whose address is not
    banned puts the requester in the queue exactly when it has no rival: no
    other waiting session has the requested mode and an address that is not
    banned (session ids are non-empty). *)
Theorem queued_only_without_rivals (user_id token : string) (data : FindPartnerData)
    (s : State) :
  address_of s user_id ≠ "" →
  (ban_lookup s (address_of s user_id)).1 = false →
  "" ∉ waiting_users s →
  mkEvent "waiting" NoData (ToSid user_id)
    ∈ events (handle_find_partner user_id token data s)
  ↔ rivals s user_id (default "text" (data_chat_mode data)) = [].
Proof.
  intros Hip Hb Hempty.
  destruct (handle_find_partner_run user_id token data s Hip Hb) as (s3 & _ & ->).
  pose proof (chosen_partner_rivals user_id data s) as Hperm.
  unfold chosen_partner.
  destruct (filter _ (ranking user_id data s)) as [|q l] eqn:Hf; cbn [head].
  - apply Permutation_nil_l in Hperm. rewrite <- Hperm. split; [done|].
    intros _. unfold events. cbn. apply list_elem_of_here.
  - assert (q ∈ rivals s user_id (default "text" (data_chat_mode data))) as Hq
      by (rewrite <- Hperm; apply list_elem_of_here).
    assert (truthy q = true) as ->.
    { apply truthy_true. intros ->. apply Hempty.
      unfold rivals in Hq. by apply list_elem_of_filter in Hq as [_ Hq]. }
    split.
    + unfold events. cbn. unfold stats_event. intros Hin.
      apply elem_of_cons in Hin as [Hin|Hin]; [done|].
      apply elem_of_cons in Hin as [Hin|Hin]; [done|].
      apply list_elem_of_singleton in Hin. done.
    + intros Hnil. rewrite Hnil in Hq. by apply elem_of_nil in Hq.
Qed.

Lemma queued_only_without_rivals_witness :
  mkEvent "waiting" NoData (ToSid "X")
    ∈ events (handle_find_partner "X" "r1"
                (mkFindPartnerData (Some ["music"]) (Some "video")) two_text_waiting).
Proof.
  apply queued_only_without_rivals.
  - by vm_compute.
  - by vm_compute.
  - vm_compute. intros Hin. apply elem_of_cons in Hin as [Hin|Hin]; [done|].
    apply list_elem_of_singleton in Hin. done.
  - by vm_compute.
Defined.

(** * What requests never do *)

Global Instance no_ban_written_refl : Reflexive no_ban_written.
Proof. by intros s a row. Qed.

Global Instance no_ban_written_trans : Transitive no_ban_written.
Proof. intros s1 s2 s3 H12 H23 a row Hrow. by apply H12, H23. Qed.

Lemma no_ban_written_same s s' : user_bans s' = user_bans s → no_ban_written s s'.
Proof. intros Heq a row. by rewrite Heq. Qed.

Lemma no_ban_written_delete k s : no_ban_written s (upd_user_bans (delete k) s).
Proof. intros a row Hrow. cbn in Hrow. apply lookup_delete_Some in Hrow. naive_solver. Qed.

Lemma no_ban_written_filter (P : string * BanRecord → Prop) `{!∀ x, Decision (P x)} s :
  no_ban_written s (upd_user_bans (filter P) s).
Proof. intros a row Hrow. cbn in Hrow. apply map_lookup_filter_Some in Hrow. naive_solver. Qed.

Ltac frame_bans :=
  repeat first
    [ frame_step
    | apply frames_modify; intros ?;
      first [ apply no_ban_written_delete | apply no_ban_written_filter
            | by apply no_ban_written_same ] ];
  auto with frames.

Lemma select_partner_writes_no_ban user_id l :
  frames no_ban_written (select_partner user_id l).
Proof. induction l as [|w l IH]; cbn [select_partner]; frame_bans. Qed.

#[local] Hint Resolve select_partner_writes_no_ban : frames.

(** X5: only a report writes a BanRecord: after any other request every
    record in [user_bans] was there before, unchanged (lookups and the sweep
    only delete). *)
Theorem only_reports_write_bans (req : Request) (s : State) :
  (∀ user_id data, req ≠ ReqReportUser user_id data) →
  no_ban_written s (serve req s).
Proof.
  intros Hreq. destruct req; cbn [serve].
  - enough (frames no_ban_written (handle_connect user_id addr)) as Hf by apply Hf.
    unfold handle_connect. frame_bans.
  - enough (frames no_ban_written (handle_disconnect user_id)) as Hf by apply Hf.
    unfold handle_disconnect. frame_bans.
  - enough (frames no_ban_written (handle_change_mode user_id)) as Hf by apply Hf.
    unfold handle_change_mode. frame_bans.
  - enough (frames no_ban_written (handle_find_partner user_id token data)) as Hf
      by apply Hf.
    unfold handle_find_partner. frame_bans.
  - enough (frames no_ban_written (handle_stop_searching user_id)) as Hf by apply Hf.
    unfold handle_stop_searching. frame_bans.
  - enough (frames no_ban_written (handle_next_partner user_id)) as Hf by apply Hf.
    unfold handle_next_partner. frame_bans.
  - enough (frames no_ban_written (handle_message user_id text)) as Hf by apply Hf.
    unfold handle_message. frame_bans.
  - by destruct (Hreq user_id data).
  - enough (frames no_ban_written cleanup_expired_bans) as Hf by apply Hf.
    unfold cleanup_expired_bans. frame_bans.
  - rewrite cleanup_room_messages_noop. apply reflexivity.
  - by apply no_ban_written_same.
  - by apply no_ban_written_same.
Qed.

Lemma only_reports_write_bans_witness :
  no_ban_written shared_address_ban (serve (ReqConnect "D" "10.0.0.1") shared_address_ban).
Proof. apply only_reports_write_bans. intros user_id data Heq. discriminate Heq. Defined.

Global Instance transcripts_kept_refl : Reflexive transcripts_kept.
Proof. by intros s room_id. Qed.

Global Instance transcripts_kept_trans : Transitive transcripts_kept.
Proof. intros s1 s2 s3 H12 H23 room_id Hm. by apply H23, H12. Qed.

Lemma transcripts_kept_same s s' :
  room_messages s' = room_messages s → transcripts_kept s s'.
Proof. intros Heq room_id. by rewrite Heq. Qed.

Lemma transcripts_kept_insert k msgs s :
  transcripts_kept s (upd_room_messages <[k := msgs]> s).
Proof.
  intros room_id Hm. cbn. destruct (decide (room_id = k)) as [->|Hne].
  - rewrite lookup_insert_eq. by eexists.
  - by rewrite lookup_insert_ne.
Qed.

Ltac frame_transcripts :=
  repeat first
    [ frame_step
    | apply frames_modify; intros ?;
      first [ apply transcripts_kept_insert | by apply transcripts_kept_same ] ];
  auto with frames.

Lemma select_partner_keeps_transcripts user_id l :
  frames transcripts_kept (select_partner user_id l).
Proof. induction l as [|w l IH]; cbn [select_partner]; frame_transcripts. Qed.

Lemma report_user_keeps_transcripts reporter_sid reported_sid reason comment :
  frames transcripts_kept (report_user reporter_sid reported_sid reason comment).
Proof. unfold report_user. frame_transcripts. Qed.

#[local] Hint Resolve select_partner_keeps_transcripts report_user_keeps_transcripts : frames.

Lemma serve_keeps_transcripts req s : transcripts_kept s (serve req s).
Proof.
  destruct req; cbn [serve].
  - enough (frames transcripts_kept (handle_connect user_id addr)) as Hf by apply Hf.
    unfold handle_connect. frame_transcripts.
  - enough (frames transcripts_kept (handle_disconnect user_id)) as Hf by apply Hf.
    unfold handle_disconnect. frame_transcripts.
  - enough (frames transcripts_kept (handle_change_mode user_id)) as Hf by apply Hf.
    unfold handle_change_mode. frame_transcripts.
  - enough (frames transcripts_kept (handle_find_partner user_id token data)) as Hf
      by apply Hf.
    unfold handle_find_partner. frame_transcripts.
  - enough (frames transcripts_kept (handle_stop_searching user_id)) as Hf by apply Hf.
    unfold handle_stop_searching. frame_transcripts.
  - enough (frames transcripts_kept (handle_next_partner user_id)) as Hf by apply Hf.
    unfold handle_next_partner. frame_transcripts.
  - enough (frames transcripts_kept (handle_message user_id text)) as Hf by apply Hf.
    unfold handle_message. frame_transcripts.
  - enough (frames transcripts_kept (handle_report_user user_id data)) as Hf by apply Hf.
    unfold handle_report_user. frame_transcripts.
  - enough (frames transcripts_kept cleanup_expired_bans) as Hf by apply Hf.
    unfold cleanup_expired_bans. frame_transcripts.
  - rewrite cleanup_room_messages_noop. apply reflexivity.
  - by apply transcripts_kept_same.
  - by apply transcripts_kept_same.
Qed.

(** X6: no sequence of requests, sweeps included, removes a transcript
    from [room_messages]: a room that has a transcript keeps one for as long
    as the server runs. *)
Theorem transcripts_never_removed (reqs : list Request) (s : State) :
  transcripts_kept s (serve_all reqs s).
Proof.
  revert s. induction reqs as [|req reqs IH]; intros s; [apply reflexivity|].
  cbn. etrans; [apply serve_keeps_transcripts | apply IH].
Qed.

(** * Rooms have two members *)

Global Instance no_room_added_refl : Reflexive no_room_added.
Proof. by intros s room_id r. Qed.

Global Instance no_room_added_trans : Transitive no_room_added.
Proof. intros s1 s2 s3 H12 H23 room_id r Hr. by apply H12, H23. Qed.

Lemma no_room_added_same s s' : active_rooms s' = active_rooms s → no_room_added s s'.
Proof. intros Heq room_id r. by rewrite Heq. Qed.

Lemma no_room_added_delete k s : no_room_added s (upd_active_rooms (delete k) s).
Proof. intros a r Hr. cbn in Hr. apply lookup_delete_Some in Hr. naive_solver. Qed.

Ltac frame_rooms :=
  repeat first
    [ frame_step
    | apply frames_modify; intros ?;
      first [ apply no_room_added_delete | by apply no_room_added_same ] ];
  auto with frames.

Lemma report_user_adds_no_room reporter_sid reported_sid reason comment :
  frames no_room_added (report_user reporter_sid reported_sid reason comment).
Proof. unfold report_user. frame_rooms. Qed.

#[local] Hint Resolve report_user_adds_no_room : frames.

(** Only a pairing request creates a room. *)
Lemma serve_adds_no_room req s :
  (∀ user_id token data, req ≠ ReqFindPartner user_id token data) →
  no_room_added s (serve req s).
Proof.
  intros Hreq. destruct req; cbn [serve].
  - enough (frames no_room_added (handle_connect user_id addr)) as Hf by apply Hf.
    unfold handle_connect. frame_rooms.
  - enough (frames no_room_added (handle_disconnect user_id)) as Hf by apply Hf.
    unfold handle_disconnect. frame_rooms.
  - enough (frames no_room_added (handle_change_mode user_id)) as Hf by apply Hf.
    unfold handle_change_mode. frame_rooms.
  - by destruct (Hreq user_id token data).
  - enough (frames no_room_added (handle_stop_searching user_id)) as Hf by apply Hf.
    unfold handle_stop_searching. frame_rooms.
  - enough (frames no_room_added (handle_next_partner user_id)) as Hf by apply Hf.
    unfold handle_next_partner. frame_rooms.
  - enough (frames no_room_added (handle_message user_id text)) as Hf by apply Hf.
    unfold handle_message. frame_rooms.
  - enough (frames no_room_added (handle_report_user user_id data)) as Hf by apply Hf.
    unfold handle_report_user. frame_rooms.
  - enough (frames no_room_added cleanup_expired_bans) as Hf by apply Hf.
    unfold cleanup_expired_bans. frame_rooms.
  - rewrite cleanup_room_messages_noop. apply reflexivity.
  - by apply no_room_added_same.
  - by apply no_room_added_same.
Qed.

Lemma handle_find_partner_two_members user_id token data s :
  rooms_have_two_members s →
  rooms_have_two_members (final (handle_find_partner user_id token data s)).
Proof.
  intros Hinv.
  destruct (decide (address_of s user_id = "")) as [Hip|Hip].
  { by rewrite handle_find_partner_unregistered. }
  destruct (ban_lookup s (address_of s user_id)).1 eqn:Hb.
  { by rewrite handle_find_partner_banned. }
  destruct (handle_find_partner_run user_id token data s Hip Hb) as (s3 & Hp & ->).
  destruct Hp as (_ & Ha3 & _).
  destruct (requester_state_fields user_id data s) as (_ & _ & Ha1 & _).
  rewrite Ha1 in Ha3.
  assert (rooms_have_two_members (waiting_state user_id s3)) as Hwait.
  { intros room_id r. cbn. rewrite Ha3. apply Hinv. }
  destruct (chosen_partner user_id data s) as [p|] eqn:Hc; [|done].
  destruct (truthy p); [|done].
  apply chosen_partner_waiting in Hc as (Hne & _).
  intros room_id r. unfold final. cbn. rewrite Ha3.
  destruct (decide (room_id = token)) as [->|Hr].
  - rewrite lookup_insert_eq. intros [= <-]. cbn. by exists user_id, p.
  - rewrite lookup_insert_ne by done. apply Hinv.
Qed.

(** X7: starting from a server with no rooms, after any sequence of
    requests every active room has exactly two members, and they are two
    different sessions. *)
Theorem rooms_always_have_two_members (reqs : list Request) (t : Z) :
  rooms_have_two_members (serve_all reqs (initial_state t)).
Proof.
  assert (∀ s, rooms_have_two_members s → rooms_have_two_members (serve_all reqs s)) as Hall.
  { induction reqs as [|req reqs IH]; intros s Hinv; [done|].
    cbn. apply IH.
    assert ((∃ user_id token data, req = ReqFindPartner user_id token data) ∨
            (∀ user_id token data, req ≠ ReqFindPartner user_id token data))
      as [(user_id & token & data & ->)|Hother].
    { destruct req; try (by right); left; eauto. }
    - by apply handle_find_partner_two_members.
    - intros room_id r Hr. apply (Hinv room_id). by apply (serve_adds_no_room req s Hother). }
  apply Hall. intros room_id r Hr. cbn in Hr. by rewrite lookup_empty in Hr.
Qed.

(** * The expiry sweep *)

Lemma cleanup_expired_bans_run s :
  cleanup_expired_bans s = (Ok tt, sweep_bans s, []).
Proof. unfold cleanup_expired_bans. by rewrite bind_gets. Qed.

Lemma day_of_mono (t u : Z) : t ≤ u → day_of t ≤ day_of u.
Proof. intros Hle. unfold day_of. apply Z.div_le_mono; lia. Qed.

(** X8: one execution of the expiry sweep compares dates, not times.  It
    keeps exactly the BanRecords whose expiry date is not before the UTC
    date, and emits nothing: a record that expired earlier on the current
    date stays in the table.  Where local time is not behind UTC the sweep
    deletes expired records only, so that no ban lookup changes its answer;
    where local time is behind UTC, an unexpired ban whose expiry date is
    before the UTC date is deleted, and the address is no longer banned. *)
Theorem sweep_compares_dates (s : State) :
  let s' := final (cleanup_expired_bans s) in
  let today := day_of (clock s - utc_offset s) in
  (∀ a row, user_bans s' !! a = Some row ↔
            user_bans s !! a = Some row ∧ today ≤ day_of (ban_end row)) ∧
  (∀ a row, user_bans s !! a = Some row → ban_end row < clock s →
            day_of (ban_end row) = today → user_bans s' !! a = Some row) ∧
  (0 ≤ utc_offset s → ∀ a, ban_lookup s' a = ban_lookup s a) ∧
  (∀ a row, user_bans s !! a = Some row → clock s ≤ ban_end row →
            day_of (ban_end row) < today →
            ban_lookup s a = (true, Some (ban_end row)) ∧
            ban_lookup s' a = (false, None)) ∧
  events (cleanup_expired_bans s) = [].
Proof.
  cbv zeta. rewrite cleanup_expired_bans_run. unfold final, events. cbn [fst snd].
  assert (∀ a row, user_bans (sweep_bans s) !! a = Some row ↔
                   user_bans s !! a = Some row ∧
                   day_of (clock s - utc_offset s) ≤ day_of (ban_end row)) as Hkeep.
  { intros a row. unfold sweep_bans, text_before. cbn.
    rewrite map_lookup_filter_Some. cbn.
    split; intros [? ?]; (split; [done|lia]). }
  split; [done|]. split; [|split; [|split; [|done]]].
  - intros a row Hrow _ Hday. apply Hkeep. split; [done|lia].
  - intros Hoff a. unfold ban_lookup.
    replace (clock (sweep_bans s)) with (clock s) by done.
    destruct (user_bans s !! a) as [row|] eqn:Hrow.
    + destruct (decide (day_of (clock s - utc_offset s) ≤ day_of (ban_end row)))
        as [Hle|Hgt].
      * by rewrite (proj2 (Hkeep a row) (conj Hrow Hle)).
      * assert (ban_end row < clock s) as Hexp.
        { destruct (decide (ban_end row < clock s)) as [|Hge]; [done|].
          pose proof (day_of_mono (clock s - utc_offset s) (ban_end row)). lia. }
        rewrite (bool_decide_eq_true_2 (clock s > ban_end row)) by lia.
        destruct (user_bans (sweep_bans s) !! a) as [row'|] eqn:Hrow'; [|done].
        apply Hkeep in Hrow' as [Hrow' Hle]. rewrite Hrow in Hrow'.
        injection Hrow' as <-. lia.
    + destruct (user_bans (sweep_bans s) !! a) as [row'|] eqn:Hrow'; [|done].
      apply Hkeep in Hrow' as [Hrow' _]. by rewrite Hrow in Hrow'.
  - intros a row Hrow Hle Hday. unfold ban_lookup.
    replace (clock (sweep_bans s)) with (clock s) by done.
    rewrite Hrow. rewrite (bool_decide_eq_false_2 (clock s > ban_end row)) by lia.
    split; [done|].
    destruct (user_bans (sweep_bans s) !! a) as [row'|] eqn:Hrow'; [|done].
    apply Hkeep in Hrow' as [Hrow' Hle']. rewrite Hrow in Hrow'.
    injection Hrow' as <-. lia.
Qed.

Lemma sweep_compares_dates_witness :
  user_bans (final (cleanup_expired_bans (banned_store 5001))) !! "10.0.0.9"
    = Some (mkBan 5000 "spam" 1) ∧
  ban_lookup (final (cleanup_expired_bans (banned_store 5001))) "10.0.0.9" = (false, None) ∧
  ban_lookup evening_behind_utc "10.0.0.9" = (true, Some 63000) ∧
  ban_lookup (final (cleanup_expired_bans evening_behind_utc)) "10.0.0.9" = (false, None).
Proof.
  destruct (sweep_compares_dates (banned_store 5001)) as (_ & Hsame & Hlook & _).
  destruct (sweep_compares_dates evening_behind_utc) as (_ & _ & _ & Hlift & _).
  split; [|split].
  - apply Hsame; by vm_compute.
  - rewrite Hlook; by vm_compute.
  - apply (Hlift "10.0.0.9" (mkBan 63000 "spam" 1)); by vm_compute.
Defined.

(** * Admission of connections *)

(** X9: a connection from an address with an unexpired ban is refused:
    the handler answers [False], sends the caller one [banned] event carrying
    the expiry, registers no session and changes nothing.  Any other
    connection is accepted: the session is registered under its id with the
    address, the connect time, no interests and no mode (replacing a record
    already stored under that id), an expired BanRecord of the address is
    deleted, and the statistics are broadcast. *)
Theorem connect_admission (user_id addr : string) (s : State) :
  let r := handle_connect user_id addr s in
  (∀ row, user_bans s !! addr = Some row → clock s ≤ ban_end row →
     r = (Ok false, s,
          [mkEvent "banned" (BannedData "30 minuti" (Some (ban_end row))) (ToSid user_id)])) ∧
  ((ban_lookup s addr).1 = false →
     result r = Ok true ∧
     user_data (final r) = <[user_id := mkUserData (clock s) [] addr None]> (user_data s) ∧
     user_bans (final r) = delete addr (user_bans s) ∧
     events r = [stats_event (final r)] ∧
     waiting_users (final r) = waiting_users s ∧
     user_rooms (final r) = user_rooms s ∧
     active_rooms (final r) = active_rooms s).
Proof.
  cbv zeta. unfold handle_connect. rewrite bind_is_banned. split.
  - intros row Hrow Hle. unfold ban_lookup, purge_ban. rewrite Hrow.
    rewrite bool_decide_eq_false_2 by lia. cbn [fst snd]. by mstep.
  - intros Hb. rewrite Hb. mstep. rewrite bind_emit_stats.
    unfold final, events, result, ret, add_events. cbn.
    destruct (purge_ban_memory addr s) as (Hw & Ha & Hu & Hd & _ & _ & _ & _ & Hc).
    rewrite Hd, Hc. split_and!; try done.
    unfold purge_ban. unfold ban_lookup in Hb.
    destruct (user_bans s !! addr) as [row|] eqn:Hrow; [|by rewrite delete_id].
    by case_bool_decide.
Qed.

Lemma connect_admission_witness :
  handle_connect "D" "10.0.0.1" shared_address_ban
  = (Ok false, shared_address_ban,
     [mkEvent "banned" (BannedData "30 minuti" (Some 1900)) (ToSid "D")]) ∧
  result (handle_connect "D" "10.0.0.7" shared_address_ban) = Ok true.
Proof.
  destruct (connect_admission "D" "10.0.0.1" shared_address_ban) as [Hban _].
  destruct (connect_admission "D" "10.0.0.7" shared_address_ban) as [_ Hok].
  split.
  - apply (Hban (mkBan 1900 "spam" 1)); [by vm_compute|]. vm_compute. discriminate.
  - apply Hok. by vm_compute.
Defined.

(** * Cancelling a search *)

Lemma admit_state_ban_lookup user_id s a :
  ban_lookup (admit_state user_id s) a = ban_lookup s a.
Proof.
  unfold admit_state. destruct (user_data s !! user_id) as [d|]; [|done].
  destruct (truthy (ip d)); [|done]. apply ban_lookup_purge_ban.
Qed.

(** X10: [stop_searching] from a session the admission guard turns away
    (no resolvable address, or banned) is ignored: nothing is emitted and the
    session stays where it is in the queue.  From an admitted session that is
    not queued it is a no-op without events; from an admitted session that is
    queued it removes the first queue entry of the session (the only one when
    the queue has no duplicates) and broadcasts the statistics. *)
Theorem stop_searching_cancels (user_id : string) (s : State) :
  let r := handle_stop_searching user_id s in
  (admit_ok s user_id = false →
     r = (Ok tt, admit_state user_id s, []) ∧ waiting_users (final r) = waiting_users s) ∧
  (admit_ok s user_id = true → user_id ∉ waiting_users s →
     r = (Ok tt, admit_state user_id s, [])) ∧
  (admit_ok s user_id = true → user_id ∈ waiting_users s →
     waiting_users (final r) = list_remove user_id (waiting_users s) ∧
     events r = [stats_event (final r)] ∧
     (NoDup (waiting_users s) → user_id ∉ waiting_users (final r))).
Proof.
  cbv zeta. unfold handle_stop_searching. rewrite bind_admitted.
  destruct (admit_state_memory user_id s) as (Hw & _).
  split_and!.
  - intros ->. cbn [negb]. by split.
  - intros -> Hout. cbn [negb]. rewrite bind_gets, Hw.
    unfold list_in. by rewrite bool_decide_eq_false_2.
  - intros -> Hin. cbn [negb]. rewrite bind_gets, Hw.
    unfold list_in. rewrite bool_decide_eq_true_2 by done. rewrite when_true.
    rewrite bind_modify, emit_stats_run. unfold final, events. cbn. rewrite Hw.
    split_and!; try done. intros Hnd. by apply list_remove_NoDup.
Qed.

Lemma stop_searching_cancels_witness :
  waiting_users (final (handle_stop_searching "C" room_of_A_and_B_with_C_waiting)) = [] ∧
  handle_stop_searching "A" room_of_A_and_B_with_C_waiting
  = (Ok tt, admit_state "A" room_of_A_and_B_with_C_waiting, []) ∧
  waiting_users (final (handle_stop_searching "Q" room_of_A_and_B_with_C_waiting)) = ["C"].
Proof.
  destruct (stop_searching_cancels "C" room_of_A_and_B_with_C_waiting) as (_ & _ & Hin).
  destruct (stop_searching_cancels "A" room_of_A_and_B_with_C_waiting) as (_ & Hout & _).
  destruct (stop_searching_cancels "Q" room_of_A_and_B_with_C_waiting) as (Hno & _ & _).
  split_and!.
  - destruct Hin as (-> & _); [by vm_compute| |by vm_compute].
    vm_compute. apply list_elem_of_here.
  - apply Hout; [by vm_compute|]. vm_compute. intros Hc.
    apply list_elem_of_singleton in Hc. done.
  - destruct Hno as [_ ->]; by vm_compute.
Defined.

(** * Relaying a message *)

Lemma partner_of_paired_users s room_id a b r :
  paired s room_id a b → active_rooms s !! room_id = Some r →
  head (filter (λ uid, uid ≠ a) (users r)) = Some b.
Proof.
  intros (Hab & Ha & Hb & (r' & Hr' & Hu) & Hra & Hrb) Hr.
  rewrite Hr in Hr'. injection Hr' as <-.
  destruct Hu as [-> | ->].
  - rewrite filter_cons_False by naive_solver.
    by rewrite filter_cons_True by naive_solver.
  - by rewrite filter_cons_True by naive_solver.
Qed.

(** X11: in an active room of two members, a message from an admitted
    member whose partner's address is not banned is sent to the partner only,
    HTML-escaped and signed 'Stranger', and appended to the room's transcript
    with the clock as timestamp; nothing else in memory changes.  When the
    partner's address is banned the sender gets one 'Partner non disponibile'
    error, nothing is relayed and the transcripts stay as they were. *)
Theorem message_relayed_to_partner (s : State) (room_id a b text : string)
    (msgs : list Msg) :
  paired s room_id a b →
  admit_ok s a = true →
  room_messages s !! room_id = Some msgs →
  let r := handle_message a text s in
  ((ban_lookup s (address_of s b)).1 = false →
     result r = Ok tt ∧
     events r = [mkEvent "message" (MessageData (html_escape text) "Stranger") (ToSid b)] ∧
     room_messages (final r)
       = <[room_id := msgs ++ [mkMsg "Tu" (html_escape text) (clock s)]]> (room_messages s) ∧
     waiting_users (final r) = waiting_users s ∧
     user_rooms (final r) = user_rooms s ∧
     active_rooms (final r) = active_rooms s ∧
     user_data (final r) = user_data s) ∧
  (address_of s b ≠ "" → (ban_lookup s (address_of s b)).1 = true →
     events r = [mkEvent "error" (ErrorData "Partner non disponibile") (ToSid a)] ∧
     room_messages (final r) = room_messages s).
Proof.
  intros Hp Hok Hmsgs. cbv zeta.
  unfold handle_message. rewrite bind_admitted, Hok. cbn [negb].
  destruct (admit_state_memory a s) as (Hw & Ha & Hu & Hd & Hm & _ & _ & _ & Hc).
  set (s0 := admit_state a s) in *.
  assert (paired s0 room_id a b) as Hp0 by (by apply (paired_ext s)).
  pose proof Hp0 as (Hab & Hane & Hbne & (r & Hr & Hus) & Hra & Hrb).
  rewrite bind_gets, Hra, bind_gets, Hr.
  rewrite (partner_of_paired_users _ _ _ _ _ Hp0 Hr).
  cbn [truthy_opt default from_option id]. rewrite (truthy_true b Hbne).
  rewrite bind_gets. rewrite Hd, truthy_opt_address. fold (address_of s b).
  split.
  - intros Hb.
    assert (∃ s1, (if truthy (address_of s b)
                   then bind (is_banned (address_of s b)) (λ b0, ret b0.1)
                   else ret false) s0 = (Ok false, s1, []) ∧ purged s0 s1)
      as (s1 & Hrun & Hp1).
    { destruct (truthy (address_of s b)).
      - rewrite bind_is_banned. subst s0. rewrite admit_state_ban_lookup, Hb.
        eexists. split; [done|]. apply purged_purge_ban, purged_refl.
      - eexists. split; [done|]. apply purged_refl. }
    rewrite (bind_run _ _ _ _ _ _ Hrun), add_events_nil. cbn [negb].
    destruct Hp1 as (Hw1 & Ha1 & Hu1 & Hd1 & Hm1 & _ & _ & _ & Hc1 & _).
    rewrite bind_emit, !bind_gets. rewrite Hm1, Hm, Hmsgs.
    rewrite bool_decide_eq_true_2 by done.
    unfold modify, add_events, final, events, result. cbn.
    rewrite Hm1, Hm, Hw1, Hw, Hu1, Hu, Ha1, Ha, Hd1, Hd, Hc1, Hc. done.
  - intros Hip Hb. rewrite (truthy_true _ Hip).
    rewrite !bind_assoc, bind_is_banned. subst s0.
    rewrite admit_state_ban_lookup, Hb, bind_ret. cbn [negb].
    unfold emit, final, events. cbn.
    destruct (purge_ban_memory (address_of s b) (admit_state a s))
      as (_ & _ & _ & _ & -> & _). done.
Qed.

Lemma matched_pair_paired : paired matched_pair "r1" "X" "Y".
Proof.
  split; [done|]. split; [done|]. split; [done|]. split; [|split].
  - eexists. split; [by vm_compute | by left].
  - by vm_compute.
  - by vm_compute.
Qed.

Lemma message_relayed_to_partner_witness :
  events (handle_message "X" "<b>ciao</b>" matched_pair)
  = [mkEvent "message" (MessageData "&lt;b&gt;ciao&lt;/b&gt;" "Stranger") (ToSid "Y")] ∧
  room_messages (final (handle_message "X" "<b>ciao</b>" matched_pair))
  = <["r1" := [mkMsg "Tu" "&lt;b&gt;ciao&lt;/b&gt;" 100]]> (room_messages matched_pair).
Proof.
  destruct (message_relayed_to_partner matched_pair "r1" "X" "Y" "<b>ciao</b>" [])
    as [Hok _].
  - apply matched_pair_paired.
  - by vm_compute.
  - by vm_compute.
  - destruct Hok as (_ & Hev & Hm & _); [by vm_compute|]. split; [exact Hev | exact Hm].
Defined.

(** * Escaping *)

Lemma list_ascii_of_string_app (a b : string) :
  String.list_ascii_of_string (a +:+ b)
  = String.list_ascii_of_string a ++ String.list_ascii_of_string b.
Proof. induction a as [|c a IH]; [done|]. simpl. by rewrite IH. Qed.

Lemma string_app_cons (x : ascii) (a b : string) : String x a +:+ b = String x (a +:+ b).
Proof. done. Qed.

Lemma string_app_assoc (a b c : string) : (a +:+ b) +:+ c = a +:+ (b +:+ c).
Proof. induction a as [|x a IH]; [done|]. by rewrite !string_app_cons, IH. Qed.

Lemma escape_char_safe (c : ascii) :
  Forall (λ x, x ∉ markup_chars) (String.list_ascii_of_string (escape_char c)).
Proof.
  assert (∀ l : list ascii, bool_decide (Forall (λ x, x ∉ markup_chars) l) = true →
            Forall (λ x, x ∉ markup_chars) l) as Hdec
    by (intros l; apply bool_decide_eq_true).
  unfold escape_char. repeat case_bool_decide; try (by apply Hdec).
  cbn. constructor; [|constructor].
  unfold markup_chars. intros Hin.
  repeat (apply elem_of_cons in Hin as [Hin|Hin]; [congruence|]).
  by apply elem_of_nil in Hin.
Qed.

Lemma escape_char_id (c : ascii) : c ∉ escaped_chars → escape_char c = String c "".
Proof.
  intros Hc. unfold escape_char.
  repeat (case_bool_decide;
          [exfalso; apply Hc; subst c; unfold escaped_chars;
           rewrite !elem_of_cons; naive_solver|]).
  done.
Qed.

(** X12: [html.escape] works character by character, so it distributes
    over concatenation; its result contains none of the characters that
    delimit markup or attribute values (less than, greater than, double and
    single quote); and a string without an ampersand or one of those four
    characters comes back unchanged. *)
Theorem html_escape_neutralises_markup (a b : string) :
  html_escape (a +:+ b) = html_escape a +:+ html_escape b ∧
  Forall (λ c, c ∉ markup_chars) (String.list_ascii_of_string (html_escape a)) ∧
  (Forall (λ c, c ∉ escaped_chars) (String.list_ascii_of_string a) → html_escape a = a).
Proof.
  split_and!.
  - induction a as [|c a IH]; [done|].
    change (html_escape (String c a +:+ b))
      with (escape_char c +:+ html_escape (a +:+ b)).
    change (html_escape (String c a)) with (escape_char c +:+ html_escape a).
    by rewrite IH, string_app_assoc.
  - induction a as [|c a IH]; [constructor|].
    change (html_escape (String c a)) with (escape_char c +:+ html_escape a).
    rewrite list_ascii_of_string_app. apply Forall_app. split; [|done].
    apply escape_char_safe.
  - induction a as [|c a IH]; [done|]. intros Hall.
    change (String.list_ascii_of_string (String c a))
      with (c :: String.list_ascii_of_string a) in Hall.
    apply Forall_cons in Hall as [Hc Hall].
    change (html_escape (String c a)) with (escape_char c +:+ html_escape a).
    by rewrite escape_char_id, IH.
Qed.

Lemma html_escape_neutralises_markup_witness :
  html_escape "caffe latte" = "caffe latte".
Proof.
  destruct (html_escape_neutralises_markup "caffe latte" "") as (_ & _ & Hid).
  apply Hid. apply (bool_decide_eq_true_1 _). by vm_compute.
Defined.

(** * Bookkeeping of an accepted report *)

(** The cut of a comment counts characters: the two accented letters of
    this text take two bytes each. *)
Example first_chars_counts_characters :
  first_chars 2 "èé<" = "èé" ∧ String.length "èé" = 4%nat ∧
  first_chars 2 "abc" = "ab".
Proof. by vm_compute. Qed.




(** * Escalation over successive bans *)

Lemma ban_state_clock ip reason sid s : clock (ban_state ip reason sid s) = clock s.
Proof.
  unfold ban_state, sweep_bans. cbn [clock upd_user_bans].
  destruct (truthy_opt sid); [|done].
  set (s1 := upd_user_bans _ s).
  destruct (leave_state_other (default "" sid) (dequeue (default "" sid) s1))
    as (_ & _ & _ & _ & _ & _ & _ & ->).
  by destruct (dequeue_other (default "" sid) s1) as (_ & _ & _ & _ & _ & _ & _ & _ & ->).
Qed.

Lemma ban_state_utc_offset ip reason sid s :
  utc_offset (ban_state ip reason sid s) = utc_offset s.
Proof.
  unfold ban_state, sweep_bans. cbn [utc_offset upd_user_bans].
  destruct (truthy_opt sid); [|done].
  by rewrite leave_state_utc_offset, dequeue_utc_offset.
Qed.

Lemma ban_fits ip s :
  0 ≤ clock s →
  clock s + BAN_DURATION * 2 ^ Z.of_nat (default 0%nat (ban_count <$> user_bans s !! ip))
    ≤ datetime_max →
  ban_overflows s ip = false.
Proof.
  intros Hclock Hmax. unfold ban_overflows.
  set (p := 2 ^ Z.of_nat (default 0%nat (ban_count <$> user_bans s !! ip))) in *.
  assert (0 < p) as Hp by (apply Z.pow_pos_nonneg; lia).
  unfold BAN_DURATION, datetime_max, timedelta_max_days in *.
  rewrite !bool_decide_eq_true_2; [done|lia|].
  split.
  - etrans; [|apply Z.div_pos; lia]. lia.
  - apply Z.div_le_upper_bound; lia.
Qed.

Lemma ban_user_again ip reason sid s :
  ban_overflows s ip = false →
  kept_by_sweep s (ban_end (next_ban s ip reason)) →
  let s' := final (ban_user ip reason sid s) in
  user_bans s' !! ip = Some (next_ban s ip reason) ∧
  clock s' = clock s ∧ utc_offset s' = utc_offset s.
Proof.
  intros Hfits Hkept. cbv zeta. rewrite ban_user_run, Hfits. unfold final. cbn [fst snd].
  split; [by apply ban_state_record|].
  split; [apply ban_state_clock | apply ban_state_utc_offset].
Qed.

(** X14: bans issued one after the other against an address escalate as
    long as the expiry stays a date-time [datetime] can hold: after [n + 1]
    calls of [ban_user] at one clock value the stored ban count is the count
    before plus [n + 1] and the ban lasts [BAN_DURATION] times 2 to the power
    of the count before plus [n], so each ban lasts twice as long as the one
    before it.  The first of these bans is assumed to outlast the sweep that
    ends [ban_user] (its expiry date is not before the UTC date); the longer
    ones then do. *)
Theorem successive_bans_double (ip reason : string) (sid : option string) (n : nat)
    (s : State) :
  let prior := default 0%nat (ban_count <$> user_bans s !! ip) in
  0 ≤ clock s →
  clock s + BAN_DURATION * 2 ^ Z.of_nat (prior + n) ≤ datetime_max →
  kept_by_sweep s (clock s + BAN_DURATION * 2 ^ Z.of_nat prior) →
  let s' := Nat.iter (S n) (λ s0, final (ban_user ip reason sid s0)) s in
  user_bans s' !! ip =
    Some (mkBan (clock s + BAN_DURATION * 2 ^ Z.of_nat (prior + n)) reason (prior + n + 1)).
Proof.
  intros prior Hclock Hmax Hkept. cbv zeta.
  set (run := λ m, Nat.iter m (λ s0, final (ban_user ip reason sid s0)) s).
  assert (∀ m k : nat, (m ≤ k)%nat → 2 ^ Z.of_nat (prior + m) ≤ 2 ^ Z.of_nat (prior + k))
    as Hpow by (intros m k Hmk; apply Z.pow_le_mono_r; lia).
  assert (∀ m, (m ≤ n)%nat →
            user_bans (run (S m)) !! ip =
              Some (mkBan (clock s + BAN_DURATION * 2 ^ Z.of_nat (prior + m)) reason
                      (prior + m + 1)) ∧
            clock (run (S m)) = clock s ∧ utc_offset (run (S m)) = utc_offset s) as Hall.
  { induction m as [|m IH]; intros Hm.
    - subst run. cbn beta. rewrite Nat.iter_succ. cbn [Nat.iter nat_rect].
      destruct (ban_user_again ip reason sid s) as (-> & -> & ->).
      + apply ban_fits; [done|]. fold prior.
        specialize (Hpow 0%nat n). rewrite Nat.add_0_r in Hpow.
        unfold BAN_DURATION in *. lia.
      + unfold next_ban. cbn [ban_end]. done.
      + unfold next_ban. fold prior. by rewrite !Nat.add_0_r.
    - destruct IH as (Hrow & Hc & Ho); [lia|].
      assert (run (S (S m)) = final (ban_user ip reason sid (run (S m)))) as ->
        by (subst run; cbn beta; by rewrite Nat.iter_succ).
      assert (next_ban (run (S m)) ip reason =
                mkBan (clock s + BAN_DURATION * 2 ^ Z.of_nat (prior + S m)) reason
                  (prior + S m + 1)) as Hnb.
      { unfold next_ban. rewrite Hrow, Hc.
        cbn [fmap option_fmap option_map default from_option id ban_count].
        replace (prior + m + 1)%nat with (prior + S m)%nat by lia. done. }
      destruct (ban_user_again ip reason sid (run (S m))) as (-> & -> & ->).
      + apply ban_fits; rewrite Hc; [done|]. rewrite Hrow.
        cbn [fmap option_fmap option_map default from_option id ban_count].
        replace (prior + m + 1)%nat with (prior + S m)%nat by lia.
        specialize (Hpow (S m) n). unfold BAN_DURATION in *. lia.
      + rewrite Hnb. cbn [ban_end]. unfold kept_by_sweep in *. rewrite Hc, Ho.
        etrans; [exact Hkept|]. apply day_of_mono.
        specialize (Hpow 0%nat (S m)). rewrite Nat.add_0_r in Hpow.
        unfold BAN_DURATION. lia.
      + by rewrite Hnb, Hc, Ho. }
  destruct (Hall n) as (Hrow & _); [lia|]. exact Hrow.
Qed.

Lemma successive_bans_double_witness :
  user_bans (Nat.iter 3 (λ s0, final (ban_user "10.0.0.2" "spam" (Some "Y") s0)) matched_pair)
    !! "10.0.0.2"
  = Some (mkBan (100 + 1800 * 4) "spam" 3).
Proof.
  apply (successive_bans_double "10.0.0.2" "spam" (Some "Y") 2 matched_pair).
  - by vm_compute.
  - by vm_compute.
  - unfold kept_by_sweep. by vm_compute.
Defined.

(** * The stale-session sweep *)

Lemma stale_scan (order acc : list string) (s : State) :
  for_each order
    (λ (to_remove : list string) (user_id : string),
       data ← gets (λ s, user_data s !! user_id);
       match data with
       | Some data =>
           if bool_decide (clock s - connected_at data > 300)
           then ret (to_remove ++ [user_id])
           else ret to_remove
       | None => ret to_remove
       end) acc s
  = (Ok (acc ++ filter (stale s) order), s, []).
Proof.
  revert acc. induction order as [|u order IH]; intros acc.
  - cbn. by rewrite app_nil_r.
  - cbn [for_each]. rewrite bind_assoc, bind_gets, filter_cons.
    destruct (user_data s !! u) as [d|] eqn:Hu.
    + case_bool_decide as Hgt; rewrite bind_ret, IH.
      * rewrite decide_True by (by exists d). by rewrite <- app_assoc.
      * rewrite decide_False; [done|]. intros (d' & Hd' & Hgt').
        rewrite Hu in Hd'. by injection Hd' as <-.
    + rewrite bind_ret, IH. rewrite decide_False; [done|].
      intros (d' & Hd' & _). by rewrite Hu in Hd'.
Qed.

Lemma evict_loop (l : list string) (s : State) :
  ∃ evs,
    for_each l
      (λ (_ : unit) (user_id : string),
         queue ← gets waiting_users;
         when (list_in user_id queue) (modify (upd_waiting_users (list_remove user_id)));;
         leave_current_room user_id;;
         modify (upd_user_data (delete user_id))) tt s
    = (Ok tt, foldl (λ s0 u, evict u s0) s l, evs).
Proof.
  revert s. induction l as [|u l IH]; intros s; [by eexists|].
  cbn [for_each foldl]. rewrite !bind_assoc, bind_gets.
  rewrite bind_assoc, bind_when_dequeue, bind_assoc, bind_leave_current_room.
  rewrite bind_modify. fold (evict u s).
  destruct (IH (evict u s)) as (evs & ->). by eexists.
Qed.

Lemma cleanup_stale_sessions_final order s :
  final (cleanup_stale_sessions order s)
    = foldl (λ s0 u, evict u s0) s (filter (stale s) order) ∧
  result (cleanup_stale_sessions order s) = Ok tt.
Proof.
  unfold cleanup_stale_sessions. rewrite bind_gets.
  rewrite (bind_run _ _ _ _ _ _ (stale_scan order [] s)), add_events_nil.
  cbn [app].
  destruct (evict_loop (filter (stale s) order) s) as (evs & Hloop).
  rewrite (bind_run _ _ _ _ _ _ Hloop).
  destruct (negb _).
  - rewrite when_true, emit_stats_run. done.
  - done.
Qed.

Lemma evict_shrinks u s : shrinks s (evict u s).
Proof.
  unfold evict.
  destruct (leave_state_other u (dequeue u s)) as (Hw & _).
  split.
  - cbn. rewrite Hw, dequeue_waiting. apply list_remove_sublist.
  - intros v Hv. cbn. rewrite leave_state_user_rooms.
    destruct (dequeue_other u s) as (Ha & Hu & _).
    destruct (decide (v = u)); [done|]. rewrite Hu.
    destruct (user_rooms s !! u) as [rid|]; [|done].
    destruct (active_rooms _ !! rid); [|done].
    destruct (partner_of u _) as [p|]; [|done].
    by destruct (decide (v = p)).
Qed.

Lemma evict_all_shrinks l s : shrinks s (foldl (λ s0 u, evict u s0) s l).
Proof.
  revert s. induction l as [|u l IH]; intros s; [apply reflexivity|].
  cbn. etrans; [apply evict_shrinks | apply IH].
Qed.

Lemma evict_all_user_data l s v :
  user_data (foldl (λ s0 u, evict u s0) s l) !! v
  = if decide (v ∈ l) then None else user_data s !! v.
Proof.
  revert s. induction l as [|u l IH]; intros s.
  - cbn. rewrite decide_False; [done|]. apply not_elem_of_nil.
  - cbn [foldl]. rewrite IH.
    assert (user_data (evict u s) = delete u (user_data s)) as ->.
    { unfold evict. cbn.
      destruct (leave_state_other u (dequeue u s)) as (_ & -> & _).
      by destruct (dequeue_other u s) as (_ & _ & -> & _). }
    destruct (decide (v ∈ l)) as [Hin|Hout].
    + rewrite decide_True; [done|]. by right.
    + destruct (decide (v = u)) as [->|Hne].
      * rewrite decide_True by left. apply lookup_delete_eq.
      * rewrite decide_False by (rewrite elem_of_cons; naive_solver).
        by rewrite lookup_delete_ne.
Qed.

Lemma evict_all_gone l s v :
  v ∈ l →
  user_rooms (foldl (λ s0 u, evict u s0) s l) !! v = None ∧
  (NoDup (waiting_users s) → v ∉ waiting_users (foldl (λ s0 u, evict u s0) s l)).
Proof.
  revert s. induction l as [|u l IH]; intros s Hv; [by apply elem_of_nil in Hv|].
  cbn [foldl].
  destruct (evict_shrinks u s) as [Hq Hr].
  destruct (decide (v ∈ l)) as [Hin|Hout].
  - destruct (IH (evict u s) Hin) as [Hroom Hqueue]. split; [done|].
    intros Hnd. apply Hqueue. by eapply sublist_NoDup.
  - apply elem_of_cons in Hv as [->|Hv]; [|done].
    destruct (evict_all_shrinks l (evict u s)) as [Hq' Hr'].
    assert (user_rooms (evict u s) !! u = None) as Hu.
    { unfold evict. cbn. rewrite leave_state_user_rooms. by rewrite decide_True. }
    split; [by apply Hr'|].
    intros Hnd Hin. apply (elem_of_sublist _ _ _ Hin) in Hq'.
    unfold evict in Hq'. cbn in Hq'.
    destruct (leave_state_other u (dequeue u s)) as (Hw & _).
    rewrite Hw, dequeue_waiting in Hq'.
    by apply (list_remove_NoDup u _ Hnd).
Qed.

(** X15: one execution of the stale-session sweep, whatever the order in
    which it visits the registered sessions, deletes exactly the sessions that
    connected more than 300 seconds before: every other record is left as it
    was.  A deleted session is bound to no room afterwards and (in a queue
    without duplicates) no longer waiting; the sweep adds no queue entry and
    no room binding. *)
Theorem stale_sessions_evicted (order : list string) (s : State) :
  (∀ u, is_Some (user_data s !! u) → u ∈ order) →
  let s' := final (cleanup_stale_sessions order s) in
  result (cleanup_stale_sessions order s) = Ok tt ∧
  (∀ u, user_data s' !! u = if decide (stale s u) then None else user_data s !! u) ∧
  (∀ u, stale s u →
        user_rooms s' !! u = None ∧ (NoDup (waiting_users s) → u ∉ waiting_users s')) ∧
  shrinks s s'.
Proof.
  intros Horder. cbv zeta.
  destruct (cleanup_stale_sessions_final order s) as [-> ->].
  assert (∀ u, stale s u → u ∈ filter (stale s) order) as Hin.
  { intros u Hu. apply list_elem_of_filter. split; [done|].
    apply Horder. destruct Hu as (d & -> & _). by eexists. }
  split_and!; [done| | |apply evict_all_shrinks].
  - intros u. rewrite evict_all_user_data.
    destruct (decide (stale s u)) as [Hu|Hu].
    + by rewrite decide_True by (by apply Hin).
    + rewrite decide_False; [done|]. intros Hf. by apply list_elem_of_filter in Hf as [? _].
  - intros u Hu. apply evict_all_gone. by apply Hin.
Qed.

Lemma stale_sessions_evicted_witness :
  user_data (final (cleanup_stale_sessions ["A"; "B"; "N"] old_and_new_sessions)) !! "A"
    = None ∧
  is_Some (user_data (final (cleanup_stale_sessions ["A"; "B"; "N"] old_and_new_sessions))
             !! "N").
Proof.
  destruct (stale_sessions_evicted ["A"; "B"; "N"] old_and_new_sessions)
    as (_ & Hdata & _).
  - intros u [d Hu]. apply (bool_decide_eq_true_1 _).
    destruct (decide (u = "A")) as [->|?]; [done|].
    destruct (decide (u = "B")) as [->|?]; [done|].
    destruct (decide (u = "N")) as [->|?]; [done|].
    exfalso. revert Hu. 
    assert (user_data old_and_new_sessions
            = <["A" := mkUserData 100 [] "10.0.0.1" (Some "text")]>
              (<["B" := mkUserData 100 [] "10.0.0.2" (Some "text")]>
              (<["N" := mkUserData 350 [] "10.0.0.5" None]> ∅))) as -> by (by vm_compute).
    by rewrite !lookup_insert_ne, lookup_empty by done.
  - rewrite !Hdata. split; [by vm_compute|]. vm_compute. by eexists.
Defined.

(** * Session age *)

Global Instance sessions_kept_age_refl : Reflexive sessions_kept_age.
Proof. intros s u d Hd. by exists d. Qed.

Global Instance sessions_kept_age_trans : Transitive sessions_kept_age.
Proof.
  intros s1 s2 s3 H12 H23 u d3 Hd3.
  destruct (H23 u d3 Hd3) as (d2 & Hd2 & Hc2 & Hi2).
  destruct (H12 u d2 Hd2) as (d1 & Hd1 & Hc1 & Hi1).
  exists d1. split; [done|]. split; congruence.
Qed.

Lemma sessions_kept_age_same s s' : user_data s' = user_data s → sessions_kept_age s s'.
Proof. intros Heq u d Hd. exists d. by rewrite <- Heq. Qed.

Lemma sessions_kept_age_delete k s : sessions_kept_age s (upd_user_data (delete k) s).
Proof.
  intros u d Hd. cbn in Hd. apply lookup_delete_Some in Hd as [_ Hd]. by exists d.
Qed.

Lemma sessions_kept_age_alter (f : UserData → UserData) k s :
  (∀ d, connected_at (f d) = connected_at d ∧ ip (f d) = ip d) →
  sessions_kept_age s (upd_user_data (alter f k) s).
Proof.
  intros Hf u d' Hd'. cbn in Hd'.
  destruct (decide (u = k)) as [->|Hne].
  - rewrite lookup_alter_eq in Hd'.
    destruct (user_data s !! k) as [d|] eqn:Hk; [|done].
    injection Hd' as <-. exists d. split; [done|]. apply Hf.
  - rewrite lookup_alter_ne in Hd' by done. by exists d'.
Qed.

Ltac frame_ages :=
  repeat first
    [ frame_step
    | apply frames_modify; intros ?;
      first [ apply sessions_kept_age_delete
            | apply sessions_kept_age_alter; by intros ?
            | by apply sessions_kept_age_same ] ];
  auto with frames.

Lemma select_partner_keeps_age user_id l :
  frames sessions_kept_age (select_partner user_id l).
Proof. induction l as [|w l IH]; cbn [select_partner]; frame_ages. Qed.

Lemma report_user_keeps_age reporter_sid reported_sid reason comment :
  frames sessions_kept_age (report_user reporter_sid reported_sid reason comment).
Proof. unfold report_user. frame_ages. Qed.

#[local] Hint Resolve select_partner_keeps_age report_user_keeps_age : frames.

Lemma serve_keeps_age req s :
  (∀ user_id addr, req ≠ ReqConnect user_id addr) →
  sessions_kept_age s (serve req s).
Proof.
  intros Hreq. destruct req; cbn [serve].
  - by destruct (Hreq user_id addr).
  - enough (frames sessions_kept_age (handle_disconnect user_id)) as Hf by apply Hf.
    unfold handle_disconnect. frame_ages.
  - enough (frames sessions_kept_age (handle_change_mode user_id)) as Hf by apply Hf.
    unfold handle_change_mode. frame_ages.
  - enough (frames sessions_kept_age (handle_find_partner user_id token data)) as Hf
      by apply Hf.
    unfold handle_find_partner. frame_ages.
  - enough (frames sessions_kept_age (handle_stop_searching user_id)) as Hf by apply Hf.
    unfold handle_stop_searching. frame_ages.
  - enough (frames sessions_kept_age (handle_next_partner user_id)) as Hf by apply Hf.
    unfold handle_next_partner. frame_ages.
  - enough (frames sessions_kept_age (handle_message user_id text)) as Hf by apply Hf.
    unfold handle_message. frame_ages.
  - enough (frames sessions_kept_age (handle_report_user user_id data)) as Hf by apply Hf.
    unfold handle_report_user. frame_ages.
  - enough (frames sessions_kept_age cleanup_expired_bans) as Hf by apply Hf.
    unfold cleanup_expired_bans. frame_ages.
  - rewrite cleanup_room_messages_noop. apply reflexivity.
  - by apply sessions_kept_age_same.
  - by apply sessions_kept_age_same.
Qed.

(** X16: only [connect] registers a session or sets its connect time and
    address: after any sequence of other requests (pairing, messages,
    reports, sweeps, the clock advancing) every registered session was
    registered before with the same connect time and address.  Activity never
    refreshes the time the stale-session sweep measures. *)
Theorem activity_never_refreshes_age (reqs : list Request) (s : State) :
  (∀ req, req ∈ reqs → ∀ user_id addr, req ≠ ReqConnect user_id addr) →
  sessions_kept_age s (serve_all reqs s).
Proof.
  revert s. induction reqs as [|req reqs IH]; intros s Hreqs; [apply reflexivity|].
  cbn. etrans.
  - apply serve_keeps_age. apply Hreqs. by left.
  - apply IH. intros req' Hin. apply Hreqs. by right.
Qed.

Lemma activity_never_refreshes_age_witness :
  sessions_kept_age matched_pair
    (serve_all [ClockTick 400; ReqSendMessage "X" "ciao"; ReqNextPartner "Y"] matched_pair).
Proof.
  apply activity_never_refreshes_age. intros req Hin user_id addr Heq. subst req.
  repeat (apply elem_of_cons in Hin as [Hin|Hin]; [discriminate Hin|]).
  by apply elem_of_nil in Hin.
Defined.

(** * Typing notices and the ban route *)

Lemma handle_stop_typing_run user_id s :
  handle_stop_typing user_id s =
    (Ok tt, s,
     match partner_of user_id s with
     | Some p => [mkEvent "stop_typing" NoData (ToSid p)]
     | None => []
     end).
Proof.
  unfold handle_stop_typing, partner_of. rewrite bind_gets.
  destruct (user_rooms s !! user_id) as [room_id|]; [|done].
  rewrite bind_gets. destruct (active_rooms s !! room_id) as [r|]; [|done].
  destruct (head _) as [p|]; [|done]. cbn. by destruct (truthy p).
Qed.

Lemma partner_of_ext user_id s s' :
  user_rooms s' = user_rooms s → active_rooms s' = active_rooms s →
  partner_of user_id s' = partner_of user_id s.
Proof. unfold partner_of. by intros -> ->. Qed.

Lemma handle_typing_run user_id s :
  handle_typing user_id s =
    (Ok tt, admit_state user_id s,
     if admit_ok s user_id then
       match partner_of user_id s with
       | Some p => [mkEvent "typing" NoData (ToSid p)]
       | None => []
       end
     else []).
Proof.
  unfold handle_typing. rewrite bind_admitted.
  destruct (admit_ok s user_id); cbn [negb]; [|done].
  destruct (admit_state_memory user_id s) as (_ & Ha & Hu & _).
  rewrite <- (partner_of_ext user_id s (admit_state user_id s)) by done.
  unfold partner_of. rewrite bind_gets.
  destruct (user_rooms _ !! user_id) as [room_id|]; [|done].
  rewrite bind_gets. destruct (active_rooms _ !! room_id) as [r|]; [|done].
  destruct (head _) as [p|]; [|done]. cbn. by destruct (truthy p).
Qed.

(** X17: in an active room of two members, [typing] reaches the partner,
    once, only when the sender passes the admission guard, and is dropped
    without an event otherwise; [stop_typing] has no guard and reaches the
    partner, once, whether or not the sender's address is banned.  Neither
    touches the containers in memory, and a session that is in no room
    triggers no event. *)
Theorem typing_notices (s : State) (room_id a b : string) :
  paired s room_id a b →
  events (handle_typing a s)
    = (if admit_ok s a then [mkEvent "typing" NoData (ToSid b)] else []) ∧
  handle_stop_typing a s = (Ok tt, s, [mkEvent "stop_typing" NoData (ToSid b)]) ∧
  purged s (final (handle_typing a s)) ∧
  (∀ u, user_rooms s !! u = None →
        events (handle_typing u s) = [] ∧ events (handle_stop_typing u s) = []).
Proof.
  intros Hp. pose proof (paired_partner _ _ _ _ Hp) as Hpart.
  rewrite handle_typing_run, handle_stop_typing_run, Hpart.
  unfold final, events. cbn [fst snd]. split_and!; try done.
  - unfold admit_state. destruct (user_data s !! a) as [d|]; [|apply purged_refl].
    destruct (truthy (ip d)); [|apply purged_refl].
    apply purged_purge_ban, purged_refl.
  - intros u Hu. rewrite handle_typing_run, handle_stop_typing_run.
    unfold partner_of. rewrite Hu. cbn. by destruct (admit_ok s u).
Qed.

Lemma typing_notices_witness :
  events (handle_typing "A" shared_address_ban) = [] ∧
  events (handle_stop_typing "A" shared_address_ban)
    = [mkEvent "stop_typing" NoData (ToSid "B")].
Proof.
  assert (paired shared_address_ban "r1" "A" "B") as Hp.
  { split; [done|]. split; [done|]. split; [done|]. split; [|split].
    - eexists. split; [by vm_compute | by left].
    - by vm_compute.
    - by vm_compute. }
  destruct (typing_notices shared_address_ban "r1" "A" "B" Hp) as (Ht & Hs & _).
  split.
  - rewrite Ht. by vm_compute.
  - by rewrite Hs.
Defined.

(** X18: the route [/check_ban] answers banned, with the expiry, exactly
    for the addresses whose connection [handle_connect] refuses; both perform
    the same lookup and leave the same ban table behind. *)
Theorem check_ban_agrees_with_connect (user_id addr : string) (s : State) :
  (∀ expiry, result (check_ban addr s) = Ok (Some expiry) ↔
             result (handle_connect user_id addr s) = Ok false ∧
             (ban_lookup s addr).2 = Some expiry) ∧
  (result (check_ban addr s) = Ok None ↔
   result (handle_connect user_id addr s) = Ok true) ∧
  user_bans (final (check_ban addr s)) = user_bans (final (handle_connect user_id addr s)).
Proof.
  unfold check_ban, handle_connect. rewrite !bind_is_banned.
  assert (ban_lookup s addr = (false, None) ∨
          ∃ e, ban_lookup s addr = (true, Some e)) as [Hb|[e Hb]].
  { unfold ban_lookup. destruct (user_bans s !! addr) as [row|]; [|by left].
    case_bool_decide; [by left|right; by eexists]. }
  - rewrite Hb. cbn [fst snd]. mstep. rewrite bind_emit_stats.
    unfold result, final, ret, add_events. cbn. split_and!; [|done|done].
    intros expiry. split; [done|]. by intros [? _].
  - rewrite Hb. cbn [fst snd]. mstep.
    unfold result, final, ret, add_events. cbn. split_and!; [| |done].
    + intros expiry. split.
      * by intros [= ->].
      * by intros [_ [= ->]].
    + split; done.
Qed.

Lemma check_ban_agrees_with_connect_witness :
  result (check_ban "10.0.0.1" shared_address_ban) = Ok (Some 1900).
Proof.
  destruct (check_ban_agrees_with_connect "D" "10.0.0.1" shared_address_ban) as (Hb & _).
  apply Hb. by vm_compute.
Defined.

(** * Disconnecting *)

(** X19: [disconnect] and [change_mode] do the same and leave no trace of
    the session: its record is deleted, it is bound to no room, and (in a
    queue without duplicates) it is no longer waiting; every other session
    record is untouched, no queue entry or binding is added, and the
    statistics are broadcast once, after the teardown. *)
Theorem disconnect_removes_session (user_id : string) (s : State) :
  let r := handle_disconnect user_id s in
  handle_change_mode user_id s = r ∧
  result r = Ok tt ∧
  user_data (final r) = delete user_id (user_data s) ∧
  user_rooms (final r) !! user_id = None ∧
  (NoDup (waiting_users s) → user_id ∉ waiting_users (final r)) ∧
  shrinks s (final r) ∧
  ∃ notices, events r = notices ++ [stats_event (final r)] ∧
             notices = leave_events user_id s.
Proof.
  cbv zeta. change (handle_change_mode user_id s) with (handle_disconnect user_id s).
  rewrite handle_disconnect_run. cbv zeta. unfold final, events, result.
  cbn [fst snd].
  destruct (leave_state_other user_id (dequeue user_id s)) as (Hw & Hd & _).
  destruct (dequeue_other user_id s) as (Ha & Hu & Hd' & _).
  split_and!; try done.
  - cbn [user_data upd_user_data]. by rewrite Hd, Hd'.
  - cbn [user_rooms upd_user_data]. rewrite leave_state_user_rooms.
    by rewrite decide_True.
  - intros Hnd. cbn [waiting_users upd_user_data].
    rewrite Hw, dequeue_waiting. by apply list_remove_NoDup.
  - apply (evict_shrinks user_id s).
  - eexists. split; [done|].
    by destruct (leave_state_ext user_id (dequeue user_id s) s) as (_ & _ & ->).
Qed.

Lemma disconnect_removes_session_witness :
  "C" ∉ waiting_users (final (handle_disconnect "C" room_of_A_and_B_with_C_waiting)).
Proof.
  destruct (disconnect_removes_session "C" room_of_A_and_B_with_C_waiting)
    as (_ & _ & _ & _ & Hq & _).
  apply Hq. vm_compute. apply NoDup_singleton.
Defined.
